(** * GitRepoParser: a shallow embedding of [src/api.repo.ts]

    The source file holds the Remix action of the [/api/repo] route and the
    [GitRepoParser] class it calls ([~/lib/git-repo-parser]).  This
    development embeds the class: the zod schema [gitUrlSchema], the static
    methods [parse], [validate] and [isValidProvider], and the parts of the
    JavaScript platform they call ([String.prototype.includes], [split],
    [replace], [RegExp.prototype.test], [String.prototype.match], the WHATWG
    [URL] constructor with its [hostname] and [pathname] getters, [fetch] and
    [console.error]).

    JavaScript strings are modelled by [string]: the sequence of bytes of the
    UTF-8 encoding of the text.  Every pattern of the source is made of ASCII
    literals and ASCII classes, so a test on bytes decides what the test on
    UTF-16 code units decides, and the URL parser percent-encodes a code point
    above U+007F byte by byte of that encoding. *)

From Stdlib Require Import Bool List Arith NArith Ascii String Lia.
Import ListNotations.
Open Scope string_scope.

(** ** Characters *)

Module Char.

Definition code (c : ascii) : N := N_of_ascii c.

Definition in_range (lo hi : N) (c : ascii) : bool :=
  ((lo <=? code c) && (code c <=? hi))%N.

Definition is_code (n : N) (c : ascii) : bool := (code c =? n)%N.

Definition is_upper : ascii -> bool := in_range 65 90.
Definition is_lower : ascii -> bool := in_range 97 122.
Definition is_alpha (c : ascii) : bool := is_upper c || is_lower c.
Definition is_digit : ascii -> bool := in_range 48 57.
Definition is_alnum (c : ascii) : bool := is_alpha c || is_digit c.
Definition is_hex_digit (c : ascii) : bool :=
  is_digit c || in_range 65 70 c || in_range 97 102 c.
Definition is_octal_digit : ascii -> bool := in_range 48 55.

(** ASCII lowercase. *)
Definition to_lower (c : ascii) : ascii :=
  if is_upper c then ascii_of_N (code c + 32) else c.

(** The value of a hexadecimal digit (0 for any other character). *)
Definition hex_value (c : ascii) : N :=
  if is_digit c then code c - 48
  else if in_range 65 70 c then code c - 55
  else if in_range 97 102 c then code c - 87
  else 0.

Definition digit_of (n : N) : ascii := ascii_of_N (48 + n).
Definition hex_upper_of (n : N) : ascii :=
  if (n <? 10)%N then ascii_of_N (48 + n) else ascii_of_N (55 + n).
Definition hex_lower_of (n : N) : ascii :=
  if (n <? 10)%N then ascii_of_N (48 + n) else ascii_of_N (87 + n).

(** The classes of the regular expressions of the source. *)

(** [\w] : [A-Za-z0-9_] *)
Definition is_word (c : ascii) : bool := is_alnum c || is_code 95 c.
(** [[\w-]] *)
Definition is_word_hyphen (c : ascii) : bool := is_word c || is_code 45 c.
(** [[\w.-]] *)
Definition is_word_dot_hyphen (c : ascii) : bool :=
  is_word c || is_code 46 c || is_code 45 c.
(** [[a-f0-9]] under the [i] flag *)
Definition is_hex_ci : ascii -> bool := is_hex_digit.
(** [[a-f0-9]] without a flag: lowercase hexadecimal *)
Definition is_hex_lower (c : ascii) : bool := is_digit c || in_range 97 102 c.

End Char.

(** ** Strings *)

Module Str.

Fixpoint all (p : ascii -> bool) (s : string) : bool :=
  match s with
  | EmptyString => true
  | String c t => p c && all p t
  end.

Fixpoint any (p : ascii -> bool) (s : string) : bool :=
  match s with
  | EmptyString => false
  | String c t => p c || any p t
  end.

Fixpoint map (f : ascii -> ascii) (s : string) : string :=
  match s with
  | EmptyString => EmptyString
  | String c t => String (f c) (map f t)
  end.

Fixpoint filter (p : ascii -> bool) (s : string) : string :=
  match s with
  | EmptyString => EmptyString
  | String c t => if p c then String c (filter p t) else filter p t
  end.

(** The longest prefix whose characters satisfy [p], and what follows it. *)
Fixpoint span (p : ascii -> bool) (s : string) : string * string :=
  match s with
  | EmptyString => (EmptyString, EmptyString)
  | String c t =>
      if p c then let (a, b) := span p t in (String c a, b)
      else (EmptyString, s)
  end.

Definition is_empty (s : string) : bool :=
  match s with EmptyString => true | _ => false end.

(** [s.startsWith(pre)] *)
Fixpoint starts_with (pre s : string) : bool :=
  match pre, s with
  | EmptyString, _ => true
  | String a p, String b t => Ascii.eqb a b && starts_with p t
  | String _ _, EmptyString => false
  end.

(** [starts_with] up to ASCII case, as a literal matches under the [i] flag. *)
Fixpoint starts_with_ci (pre s : string) : bool :=
  match pre, s with
  | EmptyString, _ => true
  | String a p, String b t =>
      Ascii.eqb (Char.to_lower a) (Char.to_lower b) && starts_with_ci p t
  | String _ _, EmptyString => false
  end.

(** [s.slice(n)] for [n <= s.length] *)
Fixpoint drop (n : nat) (s : string) : string :=
  match n, s with
  | O, _ => s
  | S k, String _ t => drop k t
  | S _, EmptyString => EmptyString
  end.

(** [s.includes(needle)] *)
Fixpoint includes (needle s : string) : bool :=
  starts_with needle s ||
  match s with
  | EmptyString => false
  | String _ t => includes needle t
  end.

(** [s.endsWith(suf)] *)
Fixpoint ends_with (suf s : string) : bool :=
  String.eqb suf s ||
  match s with
  | EmptyString => false
  | String _ t => ends_with suf t
  end.

(** [s.split(sep)] for a separator of one character: never the empty list. *)
Fixpoint split (sep : ascii) (s : string) : list string :=
  match s with
  | EmptyString => [EmptyString]
  | String c t =>
      if Ascii.eqb c sep then EmptyString :: split sep t
      else match split sep t with
           | [] => [String c EmptyString]
           | x :: r => String c x :: r
           end
  end.

(** [xs.filter(Boolean)] on an array of strings: the empty string is the one
    falsy string. *)
Definition filter_Boolean (xs : list string) : list string :=
  List.filter (fun x => negb (is_empty x)) xs.

Definition to_lower : string -> string := map Char.to_lower.

(** [s] without its last character. *)
Fixpoint init (s : string) : string :=
  match s with
  | EmptyString => EmptyString
  | String c EmptyString => EmptyString
  | String c t => String c (init t)
  end.

End Str.

(** ** The platform's URL parser

    [new URL(url)] runs the basic URL parser of the WHATWG URL Standard without
    a base URL, and [hostname] and [pathname] read the record it builds.  The
    standard states the parser as a state machine over a pointer; below each
    state is the function of the text that remains, and a state that only
    collects a buffer up to a delimiter is a [Str.span].  User name, password,
    query and fragment are not kept: nothing in the source reads them and
    none of their states fails.

    One step is outside the model: the Unicode ToASCII operation (UTS 46) that
    "domain to ASCII" runs on a domain with a non-ASCII byte or with a label
    that starts with [xn--].  It is the section's [unicode_to_ascii]; on every
    other domain the standard makes the step an ASCII lowercasing. *)

Module URL.

Import Char.

Local Open Scope N_scope.

(** *** Percent-encode sets and percent coding *)

Definition c0_control_set (c : ascii) : bool :=
  (code c <=? 31) || (126 <? code c).

Definition query_set (c : ascii) : bool :=
  c0_control_set c || is_code 32 c || is_code 34 c || is_code 35 c
  || is_code 60 c || is_code 62 c.

Definition path_set (c : ascii) : bool :=
  query_set c || is_code 63 c || is_code 94 c || is_code 96 c
  || is_code 123 c || is_code 125 c.

Definition percent_encode_byte (c : ascii) : string :=
  String "%" (String (hex_upper_of (code c / 16))
                     (String (hex_upper_of (code c mod 16)) EmptyString)).

Definition encode_with (set : ascii -> bool) (c : ascii) : string :=
  if set c then percent_encode_byte c else String c EmptyString.

Fixpoint percent_encode (set : ascii -> bool) (s : string) : string :=
  match s with
  | EmptyString => EmptyString
  | String c t => (encode_with set c ++ percent_encode set t)%string
  end.

Fixpoint percent_decode (s : string) : string :=
  match s with
  | EmptyString => EmptyString
  | String c t =>
      if is_code 37 c then
        match t with
        | String a (String b t') =>
            if is_hex_digit a && is_hex_digit b
            then String (ascii_of_N (16 * hex_value a + hex_value b))
                        (percent_decode t')
            else String c (percent_decode t)
        | _ => String c (percent_decode t)
        end
      else String c (percent_decode t)
  end.

(** *** Hosts *)

Inductive Host : Type :=
| Domain (d : string)
| IPv4 (address : N)
| IPv6 (pieces : list N)
| OpaqueHost (h : string)
| EmptyHost.

(** NUL, tab, LF, CR, space, [#], [/], [:], [<], [>], [?], [@], [[], [\],
    []], [^], [|] *)
Definition forbidden_host_code_point (c : ascii) : bool :=
  existsb (fun n => is_code n c)
          [0; 9; 10; 13; 32; 35; 47; 58; 60; 62; 63; 64; 91; 92; 93; 94; 124].

Definition forbidden_domain_code_point (c : ascii) : bool :=
  forbidden_host_code_point c || (code c <=? 31) || is_code 37 c
  || is_code 127 c.

Definition radix_digit (R : N) (c : ascii) : bool :=
  if R =? 16 then is_hex_digit c
  else if R =? 8 then is_octal_digit c
  else is_digit c.

Fixpoint parse_radix_from (R acc : N) (s : string) : N :=
  match s with
  | EmptyString => acc
  | String c t => parse_radix_from R (acc * R + hex_value c) t
  end.

Definition parse_radix (R : N) (s : string) : N := parse_radix_from R 0 s.

Definition is_x (c : ascii) : bool := is_code 120 c || is_code 88 c.

(** IPv4 number parser *)
Definition ipv4_number (input : string) : option N :=
  if Str.is_empty input then None
  else
    let '(digits, R) :=
      match input with
      | String z (String x t) =>
          if is_code 48 z then
            if is_x x then (t, 16) else (String x t, 8)
          else (input, 10)
      | _ => (input, 10)
      end in
    if Str.is_empty digits then Some 0
    else if Str.all (radix_digit R) digits then Some (parse_radix R digits)
    else None.

Definition is_some {A} (o : option A) : bool :=
  match o with Some _ => true | None => false end.

(** Ends-in-a-number checker *)
Definition number_like (label : string) : bool :=
  (negb (Str.is_empty label) && Str.all is_digit label)
  || is_some (ipv4_number label).

Definition ends_in_number (input : string) : bool :=
  match rev (Str.split "." input) with
  | [] => false
  | l :: before =>
      if Str.is_empty l then
        match before with
        | [] => false
        | l' :: _ => number_like l'
        end
      else number_like l
  end.

Fixpoint traverse {A B} (f : A -> option B) (xs : list A) : option (list B) :=
  match xs with
  | [] => Some []
  | x :: r =>
      match f x, traverse f r with
      | Some y, Some ys => Some (y :: ys)
      | _, _ => None
      end
  end.

(** [ipv4 = last + sum numbers[i] * 256^(3 - i)] over the items before the
    last *)
Fixpoint ipv4_sum (counter : N) (numbers : list N) : N :=
  match numbers with
  | [] => 0
  | [l] => l
  | n :: r => n * 256 ^ (3 - counter) + ipv4_sum (counter + 1) r
  end.

(** IPv4 parser *)
Definition ipv4_parse (input : string) : option N :=
  let parts := Str.split "." input in
  let parts :=
    if Str.is_empty (List.last parts EmptyString) && (1 <? List.length parts)%nat
    then removelast parts else parts in
  if (4 <? List.length parts)%nat then None
  else
    match traverse ipv4_number parts with
    | None => None
    | Some numbers =>
        if existsb (fun n => 255 <? n) (removelast numbers) then None
        else if 256 ^ (5 - N.of_nat (List.length numbers)) <=? List.last numbers 0
        then None
        else Some (ipv4_sum 0 numbers)
    end.

(** A number below 256 in decimal, as the IPv4 serializer writes it. *)
Definition decimal_byte (n : N) : string :=
  if n <? 10 then String (digit_of n) EmptyString
  else if n <? 100 then
    String (digit_of (n / 10)) (String (digit_of (n mod 10)) EmptyString)
  else
    String (digit_of (n / 100))
      (String (digit_of ((n / 10) mod 10))
         (String (digit_of (n mod 10)) EmptyString)).

(** IPv4 serializer *)
Definition ipv4_serialize (address : N) : string :=
  (decimal_byte ((address / 16777216) mod 256) ++ "."
   ++ decimal_byte ((address / 65536) mod 256) ++ "."
   ++ decimal_byte ((address / 256) mod 256) ++ "."
   ++ decimal_byte (address mod 256))%string.

(** IPv6 parser.  [address] always has eight pieces. *)

Definition set_piece (address : list N) (i : nat) (v : N) : list N :=
  firstn i address ++ v :: skipn (S i) address.

Definition get_piece (address : list N) (i : nat) : N := nth i address 0.

(** Step 4 of the main loop: at most four hexadecimal digits. *)
Fixpoint read_hex (n : nat) (value : N) (length : nat) (s : string)
  : N * nat * string :=
  match n, s with
  | S k, String c t =>
      if is_hex_digit c
      then read_hex k (value * 16 + hex_value c) (S length) t
      else (value, length, s)
  | _, _ => (value, length, s)
  end.

(** The inner loop over the digits of one part of an embedded IPv4 address;
    [None] is failure. *)
Fixpoint read_ipv4_piece (ipv4Piece : option N) (s : string)
  : option (option N * string) :=
  match s with
  | EmptyString => Some (ipv4Piece, s)
  | String c t =>
      if is_digit c then
        let number := code c - 48 in
        match ipv4Piece with
        | None => read_ipv4_piece (Some number) t
        | Some p =>
            if p =? 0 then None
            else if 255 <? p * 10 + number then None
            else read_ipv4_piece (Some (p * 10 + number)) t
        end
      else Some (ipv4Piece, s)
  end.

(** Step 5.5: the parts of an embedded IPv4 address, from the start of the
    first of them. *)
Fixpoint ipv4_in_ipv6 (fuel : nat) (address : list N) (pieceIndex : nat)
  (numbersSeen : nat) (s : string) : option (list N * nat) :=
  match fuel with
  | O => None
  | S fuel' =>
      match s with
      | EmptyString =>
          if (numbersSeen =? 4)%nat then Some (address, pieceIndex) else None
      | String c t =>
          let after_dot :=
            if (0 <? numbersSeen)%nat then
              if (c =? ".")%char && (numbersSeen <? 4)%nat then Some t else None
            else Some s in
          match after_dot with
          | None => None
          | Some s1 =>
              match s1 with
              | EmptyString => None
              | String d _ =>
                  if negb (is_digit d) then None
                  else
                    match read_ipv4_piece None s1 with
                    | Some (Some ipv4Piece, s2) =>
                        let address' :=
                          set_piece address pieceIndex
                            (get_piece address pieceIndex * 256 + ipv4Piece) in
                        let numbersSeen' := S numbersSeen in
                        let pieceIndex' :=
                          if (numbersSeen' =? 2)%nat || (numbersSeen' =? 4)%nat
                          then S pieceIndex else pieceIndex in
                        ipv4_in_ipv6 fuel' address' pieceIndex' numbersSeen' s2
                    | _ => None
                    end
              end
          end
      end
  end.

(** Step 3: the main loop.  Every round reads at least one character, so
    fuel above the length of the text is never used up. *)
Fixpoint ipv6_loop (fuel : nat) (address : list N) (pieceIndex : nat)
  (compress : option nat) (s : string)
  : option (list N * nat * option nat) :=
  match fuel with
  | O => None
  | S fuel' =>
      match s with
      | EmptyString => Some (address, pieceIndex, compress)
      | String c t =>
          if (pieceIndex =? 8)%nat then None
          else if (c =? ":")%char then
            match compress with
            | Some _ => None
            | None =>
                ipv6_loop fuel' address (S pieceIndex) (Some (S pieceIndex)) t
            end
          else
            let '(value, length, rest) := read_hex 4 0 0 s in
            match rest with
            | EmptyString =>
                Some (set_piece address pieceIndex value, S pieceIndex,
                      compress)
            | String r rest' =>
                if (r =? ".")%char then
                  if (length =? 0)%nat then None
                  else if (6 <? pieceIndex)%nat then None
                  else
                    match ipv4_in_ipv6 fuel' address pieceIndex 0 s with
                    | Some (address', pieceIndex') =>
                        Some (address', pieceIndex', compress)
                    | None => None
                    end
                else if (r =? ":")%char then
                  if Str.is_empty rest' then None
                  else ipv6_loop fuel' (set_piece address pieceIndex value)
                         (S pieceIndex) compress rest'
                else None
            end
      end
  end.

(** Step 4: the pieces read after the compression move to the end. *)
Fixpoint ipv6_swap (swaps pieceIndex compress : nat) (address : list N)
  : list N :=
  match swaps, pieceIndex with
  | S swaps', S pieceIndex' =>
      let i := pieceIndex in
      let j := (compress + swaps - 1)%nat in
      let a := get_piece address i in
      let b := get_piece address j in
      ipv6_swap swaps' pieceIndex' compress
        (set_piece (set_piece address i b) j a)
  | _, _ => address
  end.

Definition ipv6_parse (input : string) : option (list N) :=
  let zero := repeat 0 8 in
  let fuel := S (String.length input) in
  let start :=
    match input with
    | String c t =>
        if (c =? ":")%char then
          match t with
          | String c' t' =>
              if (c' =? ":")%char then ipv6_loop fuel zero 1 (Some 1%nat) t' else None
          | EmptyString => None
          end
        else ipv6_loop fuel zero 0 None input
    | EmptyString => ipv6_loop fuel zero 0 None input
    end in
  match start with
  | None => None
  | Some (address, pieceIndex, Some compress) =>
      Some (ipv6_swap (pieceIndex - compress) 7 compress address)
  | Some (address, pieceIndex, None) =>
      if (pieceIndex =? 8)%nat then Some address else None
  end.

(** The index of the first longest run of two or more pieces that are 0. *)
Fixpoint find_compress (pieces : list N) (pieceIndex : nat)
  (longestIndex : option nat) (longestSize : nat)
  (foundIndex : option nat) (foundSize : nat) : option nat :=
  match pieces with
  | [] => if (longestSize <? foundSize)%nat then foundIndex else longestIndex
  | p :: r =>
      if p =? 0 then
        find_compress r (S pieceIndex) longestIndex longestSize
          (match foundIndex with None => Some pieceIndex | i => i end)
          (S foundSize)
      else if (longestSize <? foundSize)%nat then
        find_compress r (S pieceIndex) foundIndex foundSize None 0
      else
        find_compress r (S pieceIndex) longestIndex longestSize None 0
  end.

(** A piece in lowercase hexadecimal, without leading zeros. *)
Definition hex_piece (p : N) : string :=
  let d3 := (p / 4096) mod 16 in
  let d2 := (p / 256) mod 16 in
  let d1 := (p / 16) mod 16 in
  let d0 := p mod 16 in
  let s0 := String (hex_lower_of d0) EmptyString in
  let s1 := String (hex_lower_of d1) s0 in
  let s2 := String (hex_lower_of d2) s1 in
  let s3 := String (hex_lower_of d3) s2 in
  if 4096 <=? p then s3 else if 256 <=? p then s2
  else if 16 <=? p then s1 else s0.

Definition is_index (o : option nat) (i : nat) : bool :=
  match o with Some j => (i =? j)%nat | None => false end.

Fixpoint ipv6_pieces (compress : option nat) (ignore0 : bool)
  (pieceIndex : nat) (pieces : list N) : string :=
  match pieces with
  | [] => EmptyString
  | p :: r =>
      if ignore0 && (p =? 0) then ipv6_pieces compress true (S pieceIndex) r
      else if is_index compress pieceIndex then
        ((if (pieceIndex =? 0)%nat then "::" else ":")
         ++ ipv6_pieces compress true (S pieceIndex) r)%string
      else
        (hex_piece p ++ (if (pieceIndex =? 7)%nat then "" else ":")
         ++ ipv6_pieces compress false (S pieceIndex) r)%string
  end.

(** IPv6 serializer *)
Definition ipv6_serialize (pieces : list N) : string :=
  ipv6_pieces (find_compress pieces 0 None 1 None 0) false 0 pieces.

(** Opaque-host parser *)
Definition opaque_host_parse (input : string) : option Host :=
  if Str.any forbidden_host_code_point input then None
  else
    let h := percent_encode c0_control_set input in
    Some (if Str.is_empty h then EmptyHost else OpaqueHost h).

Definition is_ascii (c : ascii) : bool := code c <? 128.

Definition has_xn_label (domain : string) : bool :=
  existsb (Str.starts_with_ci "xn--") (Str.split "." domain).

Section HostParser.

(** Unicode ToASCII with the flags "domain to ASCII" passes when [beStrict] is
    false; [None] is failure. *)
Variable unicode_to_ascii : string -> option string.

(** Domain to ASCII, [beStrict] false *)
Definition domain_to_ascii (domain : string) : option string :=
  let result :=
    if Str.all is_ascii domain && negb (has_xn_label domain)
    then Some (Str.to_lower domain)
    else unicode_to_ascii domain in
  match result with
  | Some r => if Str.is_empty r then None else Some r
  | None => None
  end.

(** Host parser *)
Definition host_parse (isOpaque : bool) (input : string) : option Host :=
  if Str.starts_with "[" input then
    if negb (Str.ends_with "]" input) then None
    else option_map IPv6 (ipv6_parse (Str.init (Str.drop 1 input)))
  else if isOpaque then opaque_host_parse input
  else
    match domain_to_ascii (percent_decode input) with
    | None => None
    | Some asciiDomain =>
        if Str.any forbidden_domain_code_point asciiDomain then None
        else if ends_in_number asciiDomain
        then option_map IPv4 (ipv4_parse asciiDomain)
        else Some (Domain asciiDomain)
    end.

End HostParser.

(** Host serializer *)
Definition host_serialize (h : Host) : string :=
  match h with
  | Domain d => d
  | IPv4 a => ipv4_serialize a
  | IPv6 p => ("[" ++ ipv6_serialize p ++ "]")%string
  | OpaqueHost o => o
  | EmptyHost => EmptyString
  end.


(** *** The URL record and the basic URL parser *)

Inductive URLPath : Type :=
| OpaquePath (p : string)
| PathList (segments : list string).

Record URLRecord : Type := mkURL {
  scheme : string;
  host : option Host;
  port : option N;
  path : URLPath
}.

Definition is_special (scheme : string) : bool :=
  existsb (String.eqb scheme) ["ftp"; "file"; "http"; "https"; "ws"; "wss"].

Definition default_port (scheme : string) : option N :=
  if String.eqb scheme "ftp" then Some 21
  else if String.eqb scheme "http" || String.eqb scheme "ws" then Some 80
  else if String.eqb scheme "https" || String.eqb scheme "wss" then Some 443
  else None.

Definition is_slash (c : ascii) : bool := is_code 47 c.
Definition is_backslash (c : ascii) : bool := is_code 92 c.
Definition is_question (c : ascii) : bool := is_code 63 c.
Definition is_hash (c : ascii) : bool := is_code 35 c.
Definition is_colon (c : ascii) : bool := is_code 58 c.
Definition is_at (c : ascii) : bool := is_code 64 c.

Definition is_c0_control_or_space (c : ascii) : bool := code c <=? 32.
Definition is_tab_or_newline (c : ascii) : bool :=
  is_code 9 c || is_code 10 c || is_code 13 c.

Fixpoint trim_leading (s : string) : string :=
  match s with
  | EmptyString => EmptyString
  | String c t => if is_c0_control_or_space c then trim_leading t else s
  end.

Fixpoint trim_trailing (s : string) : string :=
  match s with
  | EmptyString => EmptyString
  | String c t =>
      let t' := trim_trailing t in
      if Str.is_empty t' && is_c0_control_or_space c then EmptyString
      else String c t'
  end.

(** [.], [%2e] *)
Definition is_single_dot (buffer : string) : bool :=
  String.eqb (Str.to_lower buffer) "." || String.eqb (Str.to_lower buffer) "%2e".

(** [..], [.%2e], [%2e.], [%2e%2e] *)
Definition is_double_dot (buffer : string) : bool :=
  existsb (String.eqb (Str.to_lower buffer)) [".."; ".%2e"; "%2e."; "%2e%2e"].

Definition is_windows_drive_letter (s : string) : bool :=
  match s with
  | String a (String b EmptyString) =>
      is_alpha a && (is_colon b || is_code 124 b)
  | _ => false
  end.

Definition is_normalized_windows_drive_letter (s : string) : bool :=
  match s with
  | String a (String b EmptyString) => is_alpha a && is_colon b
  | _ => false
  end.

(** Shorten a URL's path *)
Definition shorten (file : bool) (path : list string) : list string :=
  match path with
  | [p] =>
      if file && is_normalized_windows_drive_letter p then path
      else removelast path
  | _ => removelast path
  end.

(** What path state does with its buffer at a delimiter; [sep] tells [/]
    (or [\] in a special URL) from [?], [#] and the end of the input. *)
Definition end_segment (file sep : bool) (path : list string) (buffer : string)
  : list string :=
  if is_double_dot buffer then
    let path := shorten file path in
    if sep then path else path ++ [EmptyString]
  else if is_single_dot buffer then
    if sep then path else path ++ [EmptyString]
  else
    let buffer :=
      match path, buffer with
      | [], String a (String _ EmptyString) =>
          if file && is_windows_drive_letter buffer
          then String a (String ":" EmptyString) else buffer
      | _, _ => buffer
      end in
    path ++ [buffer].

(** Path state *)
Fixpoint path_state (special file : bool) (path : list string)
  (buffer : string) (s : string) : list string :=
  match s with
  | EmptyString => end_segment file false path buffer
  | String c t =>
      if is_slash c || (special && is_backslash c) then
        path_state special file (end_segment file true path buffer)
          EmptyString t
      else if is_question c || is_hash c then
        end_segment file false path buffer
      else
        path_state special file path
          (buffer ++ encode_with path_set c)%string t
  end.

(** Path start state *)
Definition path_start_state (special file : bool) (s : string) : list string :=
  match s with
  | EmptyString =>
      if special then path_state special file [] EmptyString s else []
  | String c t =>
      if special then
        if is_slash c || is_backslash c
        then path_state special file [] EmptyString t
        else path_state special file [] EmptyString s
      else if is_question c || is_hash c then []
      else if is_slash c then path_state special file [] EmptyString t
      else path_state special file [] EmptyString s
  end.

(** Opaque path state *)
Fixpoint opaque_path_state (s : string) : string :=
  match s with
  | EmptyString => EmptyString
  | String c t =>
      if is_question c || is_hash c then EmptyString
      else if is_code 32 c then
        ((if Str.starts_with "?" t || Str.starts_with "#" t
          then "%20" else " ") ++ opaque_path_state t)%string
      else (encode_with c0_control_set c ++ opaque_path_state t)%string
  end.

(** The text after the last [@] of the authority, and whether there is one. *)
Fixpoint after_last_at (s : string) : bool * string :=
  match s with
  | EmptyString => (false, EmptyString)
  | String c t =>
      let (seen, buffer) := after_last_at t in
      if seen then (true, buffer)
      else if is_at c then (true, t)
      else (false, s)
  end.

(** Host state up to its delimiter: the buffer, and the text from the first
    [:] outside brackets on. *)
Fixpoint host_scan (insideBrackets : bool) (s : string) : string * string :=
  match s with
  | EmptyString => (EmptyString, EmptyString)
  | String c t =>
      if is_colon c && negb insideBrackets then (EmptyString, s)
      else
        let inside :=
          if is_code 91 c then true
          else if is_code 93 c then false
          else insideBrackets in
        let (buffer, rest) := host_scan inside t in
        (String c buffer, rest)
  end.

Definition is_authority_end (special : bool) (c : ascii) : bool :=
  is_slash c || is_question c || is_hash c || (special && is_backslash c).

Definition is_file_host_end (c : ascii) : bool :=
  is_slash c || is_backslash c || is_question c || is_hash c.

Section Parser.

Variable unicode_to_ascii : string -> option string.

(** Host state and port state; [buffer] is the authority after its last [@]
    and [rest] the text from the delimiter that ends the authority. *)
Definition host_state (scheme : string) (special : bool)
  (buffer rest : string) : option URLRecord :=
  let (hostBuffer, after) := host_scan false buffer in
  match after with
  | String _ portBuffer =>
      if Str.is_empty hostBuffer then None
      else
        match host_parse unicode_to_ascii (negb special) hostBuffer with
        | None => None
        | Some h =>
            if negb (Str.all is_digit portBuffer) then None
            else if 65535 <? parse_radix 10 portBuffer then None
            else
              let p := parse_radix 10 portBuffer in
              let port :=
                if Str.is_empty portBuffer then None
                else
                  match default_port scheme with
                  | Some d => if d =? p then None else Some p
                  | None => Some p
                  end in
              Some (mkURL scheme (Some h) port
                      (PathList (path_start_state special false rest)))
        end
  | EmptyString =>
      if special && Str.is_empty hostBuffer then None
      else
        match host_parse unicode_to_ascii (negb special) hostBuffer with
        | None => None
        | Some h =>
            Some (mkURL scheme (Some h) None
                    (PathList (path_start_state special false rest)))
        end
  end.

(** Authority state *)
Definition authority_state (scheme : string) (special : bool) (s : string)
  : option URLRecord :=
  let (authority, rest) :=
    Str.span (fun c => negb (is_authority_end special c)) s in
  let (atSignSeen, buffer) := after_last_at authority in
  if atSignSeen && Str.is_empty buffer then None
  else host_state scheme special buffer rest.

Definition file_url (h : Host) (path : list string) : URLRecord :=
  mkURL "file" (Some h) None (PathList path).

(** File host state *)
Definition file_host_state (s : string) : option URLRecord :=
  let (buffer, rest) := Str.span (fun c => negb (is_file_host_end c)) s in
  if is_windows_drive_letter buffer then
    Some (file_url EmptyHost (path_state true true [] buffer rest))
  else if Str.is_empty buffer then
    Some (file_url EmptyHost (path_start_state true true rest))
  else
    match host_parse unicode_to_ascii false buffer with
    | None => None
    | Some h =>
        let h :=
          match h with
          | Domain d => if String.eqb d "localhost" then EmptyHost else h
          | _ => h
          end in
        Some (file_url h (path_start_state true true rest))
    end.

(** File state and file slash state, without a base URL *)
Definition file_state (s : string) : option URLRecord :=
  match s with
  | String c t =>
      if is_slash c || is_backslash c then
        match t with
        | String c' t' =>
            if is_slash c' || is_backslash c' then file_host_state t'
            else Some (file_url EmptyHost (path_state true true [] EmptyString t))
        | EmptyString =>
            Some (file_url EmptyHost (path_state true true [] EmptyString t))
        end
      else Some (file_url EmptyHost (path_state true true [] EmptyString s))
  | EmptyString =>
      Some (file_url EmptyHost (path_state true true [] EmptyString s))
  end.

Definition is_scheme_char (c : ascii) : bool :=
  is_alnum c || is_code 43 c || is_code 45 c || is_code 46 c.

(** Scheme start state and scheme state: the scheme, lowercased, and the text
    after its [:]; without a base URL anything else is failure. *)
Definition scheme_state (s : string) : option (string * string) :=
  match s with
  | String c t =>
      if is_alpha c then
        let (buffer, rest) := Str.span is_scheme_char t in
        match rest with
        | String d remaining =>
            if is_colon d
            then Some (Str.to_lower (String c buffer), remaining)
            else None
        | EmptyString => None
        end
      else None
  | EmptyString => None
  end.

(** The basic URL parser on [input], without a base URL *)
Definition basic_url_parse (input : string) : option URLRecord :=
  let input := trim_trailing (trim_leading input) in
  let input := Str.filter (fun c => negb (is_tab_or_newline c)) input in
  match scheme_state input with
  | None => None
  | Some (scheme, remaining) =>
      if String.eqb scheme "file" then file_state remaining
      else if is_special scheme then
        authority_state scheme true
          (snd (Str.span (fun c => is_slash c || is_backslash c) remaining))
      else
        match remaining with
        | String c t =>
            if is_slash c then
              match t with
              | String c' t' =>
                  if is_slash c' then authority_state scheme false t'
                  else Some (mkURL scheme None None
                               (PathList (path_state false false []
                                            EmptyString t)))
              | EmptyString =>
                  Some (mkURL scheme None None
                          (PathList (path_state false false [] EmptyString t)))
              end
            else Some (mkURL scheme None None
                         (OpaquePath (opaque_path_state remaining)))
        | EmptyString =>
            Some (mkURL scheme None None
                    (OpaquePath (opaque_path_state remaining)))
        end
  end.

End Parser.

(** The [hostname] getter *)
Definition hostname (u : URLRecord) : string :=
  match host u with
  | None => EmptyString
  | Some h => host_serialize h
  end.

(** URL path serializer, which is the [pathname] getter *)
Definition pathname (u : URLRecord) : string :=
  match path u with
  | OpaquePath p => p
  | PathList segments =>
      fold_right (fun seg out => ("/" ++ seg ++ out)%string) EmptyString
        segments
  end.

End URL.

(** ** JavaScript values, exceptions and effects *)

Module JS.

(** The exceptions the code can meet.  [TypeError] is what [new URL] throws
    on a parse failure and what reading a property of [null] throws;
    [ZodError] is what a zod schema's [parse] throws, here with the message
    of its one issue; [Error] is the [new Error(message)] of the source.
    [NetworkError] and [SyntaxError] are reasons the platform rejects
    [fetch(..)], [response.text()] and [response.json()] with. *)
Inductive Exception : Type :=
| TypeError (message : string)
| ZodError (message : string)
| Error (message : string)
| NetworkError (message : string)
| SyntaxError (message : string).

Inductive Completion (A : Type) : Type :=
| Normal (a : A)
| Throw (e : Exception).
Arguments Normal {A} a.
Arguments Throw {A} e.

(** What [JSON.parse] can build, and [undefined]; a number is kept as its
    literal. *)
#[warnings="-register-all"] Inductive Value : Type :=
| Undefined
| Null
| Bool (b : bool)
| Number (literal : string)
| Str (s : string)
| Array (items : list Value)
| Object (properties : list (string * Value)).

(** [data.name].  Reading a property of [undefined] or [null] throws a
    [TypeError]; its message is the one V8 gives it. *)
Definition get_property (data : Value) (name : string) : Completion Value :=
  match data with
  | Undefined =>
      Throw (TypeError ("Cannot read properties of undefined (reading '"
                        ++ name ++ "')")%string)
  | Null =>
      Throw (TypeError ("Cannot read properties of null (reading '"
                        ++ name ++ "')")%string)
  | Object properties =>
      match find (fun kv => String.eqb (fst kv) name) properties with
      | Some (_, v) => Normal v
      | None => Normal Undefined
      end
  | _ => Normal Undefined
  end.

Record Request : Type := mkRequest {
  request_url : string;
  request_headers : list (string * string)
}.

(** A [Response], read the way the source reads it: [text] and [json] hold
    what awaiting [response.text()] and [response.json()] gives. *)
Record Response : Type := mkResponse {
  ok : bool;
  status : N;
  statusText : string;
  text : Completion string;
  json : Completion Value
}.

(** What the outside world sees of a call. *)
Inductive Event : Type :=
| Fetched (r : Request)
| ConsoleError (label : string).

(** A computation: the events it caused, in order, and how it completed. *)
Definition Eff (A : Type) : Type := list Event * Completion A.

Definition ret {A} (a : A) : Eff A := ([], Normal a).
Definition throw {A} (e : Exception) : Eff A := ([], Throw e).
Definition lift {A} (c : Completion A) : Eff A := ([], c).

Definition bind {A B} (m : Eff A) (k : A -> Eff B) : Eff B :=
  match m with
  | (ev, Normal a) => let (ev', r) := k a in ((ev ++ ev')%list, r)
  | (ev, Throw e) => (ev, Throw e)
  end.

(** [try { body } catch (error) { handler }] *)
Definition try_catch {A} (body : Eff A) (handler : Exception -> Eff A)
  : Eff A :=
  match body with
  | (ev, Normal a) => (ev, Normal a)
  | (ev, Throw e) => let (ev', r) := handler e in ((ev ++ ev')%list, r)
  end.

Definition console_error (label : string) : Eff unit :=
  ([ConsoleError label], Normal tt).

Definition events {A} (m : Eff A) : list Event := fst m.
Definition completion {A} (m : Eff A) : Completion A := snd m.

End JS.

Declare Scope eff_scope.
Delimit Scope eff_scope with eff.
Notation "x <- m ;; k" := (JS.bind m (fun x => k))
  (at level 61, m at next level, right associativity) : eff_scope.
Notation "m ;; k" := (JS.bind m (fun _ => k))
  (at level 61, right associativity) : eff_scope.

(** ** Regular expressions of the source

    Each pattern of the source is a literal, or a literal followed by one
    greedy class with [+]; the functions below are [test] and [match] on
    patterns of these shapes. *)

Module RegExp.

(** [/literal/.test(s)]: the literal occurs somewhere in [s]. *)
Definition test_literal (literal s : string) : bool := Str.includes literal s.

(** One attempt of [/literal([class]+)/] at the start of [s]: the capture. *)
Definition attempt (ci : bool) (literal : string) (class : ascii -> bool)
  (s : string) : option string :=
  if (if ci then Str.starts_with_ci literal s else Str.starts_with literal s)
  then
    let run := fst (Str.span class (Str.drop (String.length literal) s)) in
    if Str.is_empty run then None else Some run
  else None.

(** [s.match(/literal([class]+)/)?.[1]]: the capture of the leftmost match
    ([ci] is the [i] flag). *)
Fixpoint match_capture (ci : bool) (literal : string) (class : ascii -> bool)
  (s : string) : option string :=
  match attempt ci literal class s with
  | Some run => Some run
  | None =>
      match s with
      | EmptyString => None
      | String _ t => match_capture ci literal class t
      end
  end.

(** [/^[\w-]+\/[\w.-]+$/.test(s)] *)
Definition test_shorthand (s : string) : bool :=
  let (owner, rest) := Str.span Char.is_word_hyphen s in
  negb (Str.is_empty owner) &&
  match rest with
  | String c repo =>
      URL.is_slash c && negb (Str.is_empty repo)
      && Str.all Char.is_word_dot_hyphen repo
  | EmptyString => false
  end.

(** [s.replace(/\.git$/, '')] *)
Fixpoint replace_dot_git (s : string) : string :=
  if String.eqb s ".git" then EmptyString
  else
    match s with
    | EmptyString => EmptyString
    | String c t => String c (replace_dot_git t)
    end.

End RegExp.

(** ** The parser class *)

Module GitRepoParser.

Import JS.
Local Open Scope eff_scope.

Inductive Provider : Type := github | gitlab | bitbucket.

Record GitRepoMetadata : Type := mkMetadata {
  owner : string;
  repo : string;
  branch : option string;
  commit : option string;
  provider : Provider;
  (** what [data.private] evaluated to, or [false]: the cast
      [as GitHubRepoResponse] checks nothing when the code runs *)
  isPrivate : Value
}.

Record ParsedGitUrl : Type := mkParsed {
  metadata : GitRepoMetadata;
  normalizedUrl : string;
  originalUrl : string
}.

Record ParseOptions : Type := mkOptions {
  authToken : option string
}.

(** The two failures of [parse], under the names the specification gives
    them. *)
Definition InvalidFormat : Exception :=
  ZodError "Invalid Git repository URL format".
Definition MissingOwnerOrRepo : Exception :=
  Error "Invalid repository URL: missing owner or repository name".

Inductive SafeParseReturnType : Type :=
| SafeParseSuccess (data : string)
| SafeParseError (error : Exception).

Definition success (r : SafeParseReturnType) : bool :=
  match r with SafeParseSuccess _ => true | SafeParseError _ => false end.

Definition PROVIDER_PATTERNS : list (Provider * string) :=
  [(github, "github.com"); (gitlab, "gitlab.com"); (bitbucket, "bitbucket.org")].

(** [/\/tree\/([\w.-]+)/] *)
Definition BRANCH_PATTERN (s : string) : option string :=
  RegExp.match_capture false "/tree/" Char.is_word_dot_hyphen s.

(** [/\/commit\/([a-f0-9]+)/i] *)
Definition COMMIT_PATTERN (s : string) : option string :=
  RegExp.match_capture true "/commit/" Char.is_hex_ci s.

Section Platform.

(** The platform's Unicode ToASCII (see [URL]). *)
Variable unicode_to_ascii : string -> option string.

(** [new URL(url)] *)
Definition new_URL (url : string) : Eff URL.URLRecord :=
  match URL.basic_url_parse unicode_to_ascii url with
  | Some u => ret u
  | None => throw (TypeError "Invalid URL")
  end.

(** The predicate [gitUrlSchema] refines [z.string()] with. *)
Definition gitUrlSchema_check (url : string) : Eff bool :=
  try_catch
    (if Str.includes "://" url then
       _ <- new_URL url ;;
       ret true
     else ret (RegExp.test_shorthand url))
    (fun _ => ret false).

(** [gitUrlSchema.safeParse(url)] *)
Definition gitUrlSchema_safeParse (url : string) : Eff SafeParseReturnType :=
  ok <- gitUrlSchema_check url ;;
  ret (if ok then SafeParseSuccess url else SafeParseError InvalidFormat).

(** [gitUrlSchema.parse(url)] *)
Definition gitUrlSchema_parse (url : string) : Eff string :=
  r <- gitUrlSchema_safeParse url ;;
  match r with
  | SafeParseSuccess data => ret data
  | SafeParseError error => throw error
  end.

(** [Object.entries(PROVIDER_PATTERNS).find(..)?.[0] || 'github'] *)
Definition detect_provider (hostname : string) : Provider :=
  match find (fun entry => RegExp.test_literal (snd entry) hostname)
             PROVIDER_PATTERNS with
  | Some (p, _) => p
  | None => github
  end.

(** [!!s] for [s] a string or [undefined] *)
Definition truthy (s : option string) : bool :=
  match s with
  | Some s => negb (Str.is_empty s)
  | None => false
  end.

Definition lookup_request (owner cleanRepo : string) (options : ParseOptions)
  : Request :=
  mkRequest ("https://api.github.com/repos/" ++ owner ++ "/" ++ cleanRepo)
    (("Accept", "application/vnd.github.v3+json")
     :: match authToken options with
        | Some token =>
            if Str.is_empty token then []
            else [("Authorization", "token " ++ token)]
        | None => []
        end).

Section Network.

(** What [fetch] does with a request: the response it resolves to, or the
    reason it rejects with. *)
Variable fetch : Request -> Completion Response.

Definition do_fetch (r : Request) : Eff Response := ([Fetched r], fetch r).

(** Lines 119 to 142: the value of [isPrivate] after the lookup. *)
Definition resolve_visibility (provider : Provider) (owner cleanRepo : string)
  (options : ParseOptions) : Eff Value :=
  match provider with
  | github =>
      try_catch
        (response <- do_fetch (lookup_request owner cleanRepo options) ;;
         if negb (ok response) then
           _ <- lift (text response) ;;
           console_error "GitHub API Error:" ;;
           ret (Bool false)
         else
           data <- lift (json response) ;;
           lift (get_property data "private"))
        (fun _ =>
           console_error "Failed to fetch repository visibility status:" ;;
           ret (Bool false))
  | _ => ret (Bool false)
  end.

(** [GitRepoParser.parse(url, options)] *)
Definition parse (url : string) (options : ParseOptions) : Eff ParsedGitUrl :=
  gitUrlSchema_parse url ;;
  let url :=
    if negb (Str.includes "://" url) then "https://github.com/" ++ url
    else url in
  urlObj <- new_URL url ;;
  let pathSegments :=
    Str.filter_Boolean (Str.split "/" (URL.pathname urlObj)) in
  let provider := detect_provider (URL.hostname urlObj) in
  let branch := BRANCH_PATTERN url in
  let commit := COMMIT_PATTERN url in
  let owner := nth_error pathSegments 0 in
  let repo := nth_error pathSegments 1 in
  let cleanRepo := option_map RegExp.replace_dot_git repo in
  match owner, cleanRepo with
  | Some owner, Some cleanRepo =>
      if Str.is_empty owner || Str.is_empty cleanRepo
      then throw MissingOwnerOrRepo
      else
        let normalizedUrl :=
          "https://" ++ URL.hostname urlObj ++ "/" ++ owner ++ "/"
          ++ cleanRepo in
        isPrivate <- resolve_visibility provider owner cleanRepo options ;;
        ret (mkParsed
               (mkMetadata owner cleanRepo branch commit provider isPrivate)
               normalizedUrl url)
  | _, _ => throw MissingOwnerOrRepo
  end.

End Network.

(** [GitRepoParser.validate(url)] *)
Definition validate (url : string) : Eff SafeParseReturnType :=
  gitUrlSchema_safeParse url.

(** [GitRepoParser.isValidProvider(url)] *)
Definition isValidProvider (url : string) : Eff bool :=
  try_catch
    (urlObj <- new_URL url ;;
     ret (existsb (fun entry =>
                     RegExp.test_literal (snd entry) (URL.hostname urlObj))
            PROVIDER_PATTERNS))
    (fun _ => ret false).

End Platform.

End GitRepoParser.

(** * Properties *)

(** ** Characters and strings *)

Module StrFacts.

Import Char Str.

Ltac char_cases c := destruct c as [[|] [|] [|] [|] [|] [|] [|] [|]].

(** Settles an implication between tests of one character by trying the 256
    characters. *)
Ltac by_char c :=
  char_cases c; vm_compute; intros;
  repeat match goal with H : _ /\ _ |- _ => destruct H end;
  solve [ reflexivity | discriminate | congruence | tauto
        | repeat split; (reflexivity || discriminate || congruence) ].

Lemma append_empty_r (s : string) : s ++ "" = s.
Proof. induction s; simpl; congruence. Qed.

Lemma append_assoc (a b c : string) : (a ++ b) ++ c = a ++ (b ++ c).
Proof. induction a; simpl; congruence. Qed.

Lemma is_empty_true (s : string) : is_empty s = true <-> s = "".
Proof. destruct s; simpl; split; congruence. Qed.

Lemma is_empty_false (s : string) : is_empty s = false <-> s <> "".
Proof. destruct s; simpl; split; congruence. Qed.

Lemma is_empty_app (a b : string) :
  is_empty (a ++ b) = is_empty a && is_empty b.
Proof. destruct a; reflexivity. Qed.

Lemma all_app (p : ascii -> bool) (a b : string) :
  all p (a ++ b) = all p a && all p b.
Proof.
  induction a as [|c a IH]; simpl; [reflexivity|].
  rewrite IH. apply andb_assoc.
Qed.

Lemma any_app (p : ascii -> bool) (a b : string) :
  any p (a ++ b) = any p a || any p b.
Proof.
  induction a as [|c a IH]; simpl; [reflexivity|].
  rewrite IH. apply orb_assoc.
Qed.

Lemma all_impl (p q : ascii -> bool) (s : string) :
  (forall c, p c = true -> q c = true) -> all p s = true -> all q s = true.
Proof.
  intros Hpq. induction s as [|c s IH]; simpl; [reflexivity|].
  rewrite andb_true_iff. intros [Hc Hs]. rewrite (Hpq c Hc), (IH Hs). reflexivity.
Qed.

Lemma all_none (p q : ascii -> bool) (s : string) :
  (forall c, p c = true -> q c = false) -> all p s = true -> any q s = false.
Proof.
  intros Hpq. induction s as [|c s IH]; simpl; [reflexivity|].
  rewrite andb_true_iff. intros [Hc Hs]. rewrite (Hpq c Hc), (IH Hs). reflexivity.
Qed.

Lemma any_false_all (p : ascii -> bool) (s : string) :
  any p s = false <-> all (fun c => negb (p c)) s = true.
Proof.
  induction s as [|c s IH]; simpl; [tauto|].
  rewrite orb_false_iff, andb_true_iff, negb_true_iff, IH. tauto.
Qed.

Lemma filter_all (p : ascii -> bool) (s : string) :
  all p s = true -> filter p s = s.
Proof.
  induction s as [|c s IH]; simpl; [reflexivity|].
  rewrite andb_true_iff. intros [Hc Hs]. rewrite Hc, (IH Hs). reflexivity.
Qed.

Lemma any_filter (p q : ascii -> bool) (s : string) :
  any q s = false -> any q (filter p s) = false.
Proof.
  induction s as [|c s IH]; simpl; [reflexivity|].
  rewrite orb_false_iff. intros [Hc Hs].
  destruct (p c); simpl; [rewrite Hc|]; auto.
Qed.

(** [span] splits its argument, and the first part satisfies the test. *)
Lemma span_spec (p : ascii -> bool) (s a b : string) :
  span p s = (a, b) ->
  s = a ++ b /\ all p a = true /\
  match b with String c _ => p c = false | EmptyString => True end.
Proof.
  revert a b. induction s as [|c s IH]; simpl; intros a b H.
  - inversion H; subst. simpl. auto.
  - destruct (p c) eqn:Hc.
    + destruct (span p s) as [a' b'] eqn:Hs. inversion H; subst.
      destruct (IH _ _ eq_refl) as (-> & Ha & Hb). simpl. rewrite Hc, Ha. auto.
    + inversion H; subst. simpl. auto.
Qed.

Lemma span_all (p : ascii -> bool) (a : string) :
  all p a = true -> span p a = (a, "").
Proof.
  induction a as [|c a IH]; simpl; [reflexivity|].
  rewrite andb_true_iff. intros [Hc Ha]. rewrite Hc, (IH Ha). reflexivity.
Qed.

Lemma span_app (p : ascii -> bool) (a : string) (c : ascii) (b : string) :
  all p a = true -> p c = false ->
  span p (a ++ String c b) = (a, String c b).
Proof.
  induction a as [|x a IH]; simpl; intros Ha Hc.
  - rewrite Hc. reflexivity.
  - apply andb_true_iff in Ha as [Hx Ha]. rewrite Hx, (IH Ha Hc). reflexivity.
Qed.

Lemma starts_with_app (pre s : string) : starts_with pre (pre ++ s) = true.
Proof.
  induction pre as [|c pre IH]; simpl; [reflexivity|].
  rewrite Ascii.eqb_refl, IH. reflexivity.
Qed.

Lemma starts_with_spec (pre s : string) :
  starts_with pre s = true ->
  s = pre ++ drop (String.length pre) s.
Proof.
  revert s. induction pre as [|c pre IH]; intros s H; simpl in *.
  - reflexivity.
  - destruct s as [|d s]; [discriminate|].
    apply andb_true_iff in H as [Hc Hs]. apply Ascii.eqb_eq in Hc. subst d.
    simpl. f_equal. apply IH, Hs.
Qed.

(** What a literal matches under the [i] flag is the literal up to case. *)
Lemma starts_with_ci_spec (pre s : string) :
  starts_with_ci pre s = true ->
  exists l, s = l ++ drop (String.length pre) s /\
            to_lower l = to_lower pre.
Proof.
  revert s. induction pre as [|c pre IH]; intros s H; simpl in *.
  - exists "". auto.
  - destruct s as [|d s]; [discriminate|].
    apply andb_true_iff in H as [Hc Hs]. apply Ascii.eqb_eq in Hc.
    destruct (IH _ Hs) as (l & Hl & Hlow).
    exists (String d l). simpl. split; [f_equal; exact Hl|].
    unfold to_lower in *. simpl. rewrite Hlow, Hc. reflexivity.
Qed.

Lemma includes_app (n p q : string) : includes n (p ++ n ++ q) = true.
Proof.
  induction p as [|c p IH]; simpl.
  - destruct n; simpl; [destruct q; reflexivity|].
    rewrite Ascii.eqb_refl, starts_with_app. reflexivity.
  - rewrite IH. apply orb_true_r.
Qed.

Lemma includes_spec (n s : string) :
  includes n s = true -> exists p q, s = p ++ n ++ q.
Proof.
  induction s as [|c s IH]; simpl; intros H.
  - rewrite orb_false_r in H. apply starts_with_spec in H.
    exists "", (drop (String.length n) ""). exact H.
  - apply orb_true_iff in H as [H|H].
    + apply starts_with_spec in H. exists "". eexists. exact H.
    + destruct (IH H) as (p & q & ->). exists (String c p), q. reflexivity.
Qed.

(** A needle with a character that the text lacks does not occur in it. *)
Lemma includes_none (p : ascii -> bool) (n s : string) :
  any p n = true -> any p s = false -> includes n s = false.
Proof.
  intros Hn Hs. destruct (includes n s) eqn:E; [|reflexivity].
  apply includes_spec in E as (a & b & ->).
  rewrite !any_app, Hn, orb_true_r in Hs. discriminate.
Qed.

End StrFacts.

(** ** What [parse] computes *)

Module ParseFacts.

Import JS GitRepoParser StrFacts.

Section Platform.

Variable unicode_to_ascii : string -> option string.

(** The format rule of [gitUrlSchema], as a test. *)
Definition accepts (url : string) : bool :=
  if Str.includes "://" url
  then URL.is_some (URL.basic_url_parse unicode_to_ascii url)
  else RegExp.test_shorthand url.

(** The URL [parse] works on, after line 88. *)
Definition expand (url : string) : string :=
  if negb (Str.includes "://" url) then "https://github.com/" ++ url else url.

(** [urlObj.pathname.split('/').filter(Boolean)] *)
Definition path_segments (u : URL.URLRecord) : list string :=
  Str.filter_Boolean (Str.split "/" (URL.pathname u)).

(** Lines 84 to 113 of [parse]: the parsed URL, [owner] and [cleanRepo], or
    the exception thrown on the way. *)
Definition extract (url : string)
  : Completion (URL.URLRecord * string * string) :=
  if accepts url then
    match URL.basic_url_parse unicode_to_ascii (expand url) with
    | None => Throw (TypeError "Invalid URL")
    | Some u =>
        match nth_error (path_segments u) 0,
              option_map RegExp.replace_dot_git (nth_error (path_segments u) 1)
        with
        | Some o, Some c =>
            if Str.is_empty o || Str.is_empty c then Throw MissingOwnerOrRepo
            else Normal (u, o, c)
        | _, _ => Throw MissingOwnerOrRepo
        end
    end
  else Throw InvalidFormat.

(** The result [parse] builds from what [extract] found and the value [v] of
    [isPrivate]. *)
Definition result_of (url : string) (u : URL.URLRecord) (o c : string)
  (v : Value) : ParsedGitUrl :=
  mkParsed
    (mkMetadata o c (BRANCH_PATTERN (expand url)) (COMMIT_PATTERN (expand url))
       (detect_provider (URL.hostname u)) v)
    ("https://" ++ URL.hostname u ++ "/" ++ o ++ "/" ++ c)
    (expand url).

Lemma gitUrlSchema_check_eq (url : string) :
  gitUrlSchema_check unicode_to_ascii url = ret (accepts url).
Proof.
  unfold gitUrlSchema_check, accepts, new_URL.
  destruct (Str.includes "://" url); [|reflexivity].
  destruct (URL.basic_url_parse unicode_to_ascii url); reflexivity.
Qed.

Lemma gitUrlSchema_safeParse_eq (url : string) :
  gitUrlSchema_safeParse unicode_to_ascii url =
  ret (if accepts url then SafeParseSuccess url
       else SafeParseError InvalidFormat).
Proof.
  unfold gitUrlSchema_safeParse. rewrite gitUrlSchema_check_eq. reflexivity.
Qed.

Lemma gitUrlSchema_parse_eq (url : string) :
  gitUrlSchema_parse unicode_to_ascii url =
  if accepts url then ret url else throw InvalidFormat.
Proof.
  unfold gitUrlSchema_parse. rewrite gitUrlSchema_safeParse_eq.
  destruct (accepts url); reflexivity.
Qed.

Section Network.

Variable fetch : Request -> Completion Response.

(** The lookup never throws: its [catch] has no path that does. *)
Lemma resolve_visibility_normal (p : Provider) (o c : string)
  (options : ParseOptions) :
  exists v, completion (resolve_visibility fetch p o c options) = Normal v.
Proof.
  unfold resolve_visibility.
  destruct p; try (eexists; reflexivity).
  unfold do_fetch. simpl.
  destruct (fetch _) as [resp|e]; simpl; [|eexists; reflexivity].
  destruct (ok resp); simpl.
  - destruct (json resp) as [data|e]; simpl; [|eexists; reflexivity].
    destruct (get_property data "private"); simpl; eexists; reflexivity.
  - destruct (text resp); simpl; eexists; reflexivity.
Qed.

(** [parse], read as [extract], then the lookup, then the record. *)
Lemma parse_eq (url : string) (options : ParseOptions) :
  parse unicode_to_ascii fetch url options =
  match extract url with
  | Throw e => ([], Throw e)
  | Normal (u, o, c) =>
      (events (resolve_visibility fetch (detect_provider (URL.hostname u))
                 o c options),
       match completion
               (resolve_visibility fetch (detect_provider (URL.hostname u))
                  o c options) with
       | Normal v => Normal (result_of url u o c v)
       | Throw e => Throw e
       end)
  end.
Proof.
  unfold parse, extract. rewrite gitUrlSchema_parse_eq.
  destruct (accepts url); [|reflexivity].
  fold (expand url). unfold new_URL.
  destruct (URL.basic_url_parse unicode_to_ascii (expand url)) as [u|];
    [|reflexivity].
  cbn [bind ret throw app]. fold (path_segments u).
  destruct (nth_error (path_segments u) 0) as [o|]; [|reflexivity].
  destruct (nth_error (path_segments u) 1) as [rp|]; [|reflexivity].
  cbn [option_map].
  destruct (Str.is_empty o || Str.is_empty (RegExp.replace_dot_git rp));
    [reflexivity|].
  unfold result_of, events, completion.
  destruct (resolve_visibility fetch _ o _ options) as [ev [v|e]];
    cbn; try rewrite app_nil_r; reflexivity.
Qed.

(** A successful [parse], taken apart. *)
Lemma parse_normal (url : string) (options : ParseOptions) (r : ParsedGitUrl) :
  completion (parse unicode_to_ascii fetch url options) = Normal r ->
  exists u o c v,
    extract url = Normal (u, o, c) /\
    completion (resolve_visibility fetch (detect_provider (URL.hostname u))
                  o c options) = Normal v /\
    r = result_of url u o c v.
Proof.
  rewrite parse_eq. destruct (extract url) as [[[u o] c]|e]; [|discriminate].
  unfold completion at 1. cbn [snd].
  destruct (completion _) as [v|e] eqn:Hv; [|discriminate].
  intros H. inversion H; subst. exists u, o, c, v. auto.
Qed.

(** Whether [parse] succeeds is settled before the lookup. *)
Lemma parse_succeeds (url : string) (options : ParseOptions)
  (u : URL.URLRecord) (o c : string) :
  extract url = Normal (u, o, c) ->
  exists v,
    completion (resolve_visibility fetch (detect_provider (URL.hostname u))
                  o c options) = Normal v /\
    completion (parse unicode_to_ascii fetch url options)
    = Normal (result_of url u o c v).
Proof.
  intros He. rewrite parse_eq, He.
  destruct (resolve_visibility_normal (detect_provider (URL.hostname u)) o c
              options) as [v Hv].
  exists v. split; [exact Hv|]. unfold completion at 1. cbn [snd].
  rewrite Hv. reflexivity.
Qed.

Lemma parse_throws (url : string) (options : ParseOptions) (e : Exception) :
  extract url = Throw e ->
  parse unicode_to_ascii fetch url options = ([], Throw e).
Proof. intros He. rewrite parse_eq, He. reflexivity. Qed.

End Network.

(** What a successful [extract] says. *)
Lemma extract_normal (url : string) (u : URL.URLRecord) (o c : string) :
  extract url = Normal (u, o, c) ->
  accepts url = true /\
  URL.basic_url_parse unicode_to_ascii (expand url) = Some u /\
  nth_error (path_segments u) 0 = Some o /\
  (exists rp, nth_error (path_segments u) 1 = Some rp /\
              c = RegExp.replace_dot_git rp) /\
  o <> "" /\ c <> "".
Proof.
  unfold extract. destruct (accepts url); [|discriminate].
  destruct (URL.basic_url_parse unicode_to_ascii (expand url)) as [u'|] eqn:Hu;
    [|discriminate].
  destruct (nth_error (path_segments u') 0) as [o'|] eqn:H0; [|discriminate].
  destruct (nth_error (path_segments u') 1) as [rp|] eqn:H1; [|discriminate].
  cbn [option_map].
  destruct (Str.is_empty o') eqn:Ho; [discriminate|].
  destruct (Str.is_empty (RegExp.replace_dot_git rp)) eqn:Hc; [discriminate|].
  cbn [orb]. intros H. inversion H; subst.
  apply is_empty_false in Ho, Hc.
  split; [reflexivity|]. split; [reflexivity|]. split; [exact H0|].
  split; [exists rp; auto|]. auto.
Qed.

End Platform.

End ParseFacts.

(** ** Fixtures

    The platform of the test suite ([git-repo-parser.spec.ts]): its mocks of
    [fetch], and a Unicode ToASCII that knows no Unicode (none of the inputs
    below reaches it). *)

Module Fixtures.

Import JS GitRepoParser.

Definition no_idna : string -> option string := fun _ => None.

Definition ok_response (body : Value) : Response :=
  mkResponse true 200 "OK" (Normal "") (Normal body).

(** [mockResolvedValueOnce({ ok: true, json: () => ({ private: false }) })] *)
Definition fetch_public : Request -> Completion Response :=
  fun _ => Normal (ok_response (Object [("private", Bool false)])).

(** [mockResolvedValueOnce({ ok: true, json: () => ({ private: true }) })] *)
Definition fetch_private : Request -> Completion Response :=
  fun _ => Normal (ok_response (Object [("private", Bool true)])).

(** [mockRejectedValueOnce(new Error('API Error'))] *)
Definition fetch_rejects : Request -> Completion Response :=
  fun _ => Throw (Error "API Error").

(** A success response whose body is the JSON object [{}]. *)
Definition fetch_empty_object : Request -> Completion Response :=
  fun _ => Normal (ok_response (Object [])).

Definition no_options : ParseOptions := mkOptions None.
Definition with_token : ParseOptions := mkOptions (Some "secret").

(** The result of a call, when it completed normally. *)
Definition returned {A} (m : Eff A) : option A :=
  match completion m with Normal a => Some a | Throw _ => None end.

End Fixtures.

(** ** The model on known inputs *)

Module Examples.

Import JS GitRepoParser Fixtures.

Definition url_parts (s : string) : option (string * string * string) :=
  option_map (fun u => (URL.scheme u, URL.hostname u, URL.pathname u))
    (URL.basic_url_parse no_idna s).

Example url_dot_segments :
  url_parts "https://GitHub.com:443/user/../repo/./x/?q#f"
  = Some ("https", "github.com", "/repo/x/").
Proof. reflexivity. Qed.

Example url_ipv4_number :
  url_parts "https://0x7f.1/a" = Some ("https", "127.0.0.1", "/a").
Proof. reflexivity. Qed.

Example url_ipv6_with_ipv4 :
  url_parts "https://[::ffff:1.2.3.4]/a"
  = Some ("https", "[::ffff:102:304]", "/a").
Proof. reflexivity. Qed.

Example url_ipv6_compression :
  url_parts "https://[1:0:0:0:2:0:0:0]" = Some ("https", "[1::2:0:0:0]", "/").
Proof. reflexivity. Qed.

Example url_credentials_and_port :
  url_parts "https://u:p@h@ost:8080/p q" = Some ("https", "ost", "/p%20q").
Proof. reflexivity. Qed.

Example url_opaque_host :
  url_parts "foo://EXAMPLE.com/a\b/c" = Some ("foo", "EXAMPLE.com", "/a\b/c").
Proof. reflexivity. Qed.

Example url_backslash :
  url_parts "https://EXAMPLE.com/a\b/c"
  = Some ("https", "example.com", "/a/b/c").
Proof. reflexivity. Qed.

Example url_file_drive_letter :
  url_parts "file:///C|/x/../.." = Some ("file", "", "/C:/").
Proof. reflexivity. Qed.

Example url_opaque_path :
  url_parts "a:b://c" = Some ("a", "", "b://c").
Proof. reflexivity. Qed.

Example url_no_scheme : url_parts "user/repo" = None.
Proof. reflexivity. Qed.

Example url_bad_port : url_parts "https://h:65536/" = None.
Proof. reflexivity. Qed.

(** The cases of [git-repo-parser.spec.ts]. *)

Example test_standard_https :
  returned (parse no_idna fetch_public "https://github.com/user/repo.git"
              no_options)
  = Some (mkParsed (mkMetadata "user" "repo" None None github (Bool false))
            "https://github.com/user/repo" "https://github.com/user/repo.git").
Proof. reflexivity. Qed.

Example test_shorthand :
  returned (parse no_idna fetch_public "user/repo" no_options)
  = Some (mkParsed (mkMetadata "user" "repo" None None github (Bool false))
            "https://github.com/user/repo" "https://github.com/user/repo").
Proof. reflexivity. Qed.

Example test_branch :
  returned (parse no_idna fetch_public "https://github.com/user/repo/tree/main"
              no_options)
  = Some (mkParsed
            (mkMetadata "user" "repo" (Some "main") None github (Bool false))
            "https://github.com/user/repo"
            "https://github.com/user/repo/tree/main").
Proof. reflexivity. Qed.

Example test_commit :
  returned (parse no_idna fetch_public
              "https://github.com/user/repo/commit/abc123" no_options)
  = Some (mkParsed
            (mkMetadata "user" "repo" None (Some "abc123") github (Bool false))
            "https://github.com/user/repo"
            "https://github.com/user/repo/commit/abc123").
Proof. reflexivity. Qed.

Example test_gitlab_bitbucket :
  option_map (fun r => provider (metadata r))
    (returned (parse no_idna fetch_public "https://gitlab.com/user/repo"
                 no_options)) = Some gitlab /\
  option_map (fun r => provider (metadata r))
    (returned (parse no_idna fetch_public "https://bitbucket.org/user/repo"
                 no_options)) = Some bitbucket.
Proof. split; reflexivity. Qed.

Example test_invalid_urls :
  parse no_idna fetch_public "invalid-url" no_options
  = ([], Throw InvalidFormat) /\
  parse no_idna fetch_public "https://example.com/user" no_options
  = ([], Throw MissingOwnerOrRepo).
Proof. split; reflexivity. Qed.

Example test_api_failure :
  option_map (fun r => isPrivate (metadata r))
    (returned (parse no_idna fetch_rejects "https://github.com/user/repo"
                 no_options)) = Some (Bool false).
Proof. reflexivity. Qed.

Example test_private :
  option_map (fun r => isPrivate (metadata r))
    (returned (parse no_idna fetch_private "https://github.com/user/repo"
                 no_options)) = Some (Bool true).
Proof. reflexivity. Qed.

Example test_validate :
  option_map success
    (returned (validate no_idna "https://github.com/user/repo")) = Some true /\
  option_map success (returned (validate no_idna "user/repo")) = Some true /\
  option_map success (returned (validate no_idna "invalid-url")) = Some false.
Proof. repeat split. Qed.

(** The test suite expects [validate('https://example.com/user')] to fail;
    the schema checks the format only, and this input is a URL. *)
Example validate_accepts_url_without_repo :
  option_map success
    (returned (validate no_idna "https://example.com/user")) = Some true.
Proof. reflexivity. Qed.

Example test_isValidProvider :
  returned (isValidProvider no_idna "https://github.com/user/repo")
  = Some true /\
  returned (isValidProvider no_idna "https://gitlab.com/user/repo")
  = Some true /\
  returned (isValidProvider no_idna "https://bitbucket.org/user/repo")
  = Some true /\
  returned (isValidProvider no_idna "https://example.com/user/repo")
  = Some false.
Proof. repeat split. Qed.

End Examples.

(** ** The lookup *)

Module LookupFacts.

Import JS GitRepoParser StrFacts ParseFacts.

Definition lookup_failed (r : Request) : list Event :=
  [Fetched r; ConsoleError "Failed to fetch repository visibility status:"].

Section Network.

Variable fetch : Request -> Completion Response.

(** Every path through lines 119 to 142. *)
Lemma resolve_visibility_eq (p : Provider) (o c : string)
  (options : ParseOptions) :
  resolve_visibility fetch p o c options =
  match p with
  | github =>
      let req := lookup_request o c options in
      match fetch req with
      | Throw _ => (lookup_failed req, Normal (Bool false))
      | Normal resp =>
          if ok resp then
            match json resp with
            | Throw _ => (lookup_failed req, Normal (Bool false))
            | Normal data =>
                match get_property data "private" with
                | Normal v => ([Fetched req], Normal v)
                | Throw _ => (lookup_failed req, Normal (Bool false))
                end
            end
          else
            match text resp with
            | Normal _ =>
                ([Fetched req; ConsoleError "GitHub API Error:"],
                 Normal (Bool false))
            | Throw _ => (lookup_failed req, Normal (Bool false))
            end
      end
  | _ => ([], Normal (Bool false))
  end.
Proof.
  unfold resolve_visibility, lookup_failed, do_fetch.
  destruct p; try reflexivity.
  cbn [bind try_catch]. destruct (fetch _) as [resp|e]; [|reflexivity].
  destruct (ok resp); cbn.
  - destruct (json resp) as [data|e]; [|reflexivity].
    cbn. destruct (get_property data "private"); reflexivity.
  - destruct (text resp); reflexivity.
Qed.

(** The paths of the lookup, one goal for each. *)
Ltac lookup_cases p H :=
  rewrite resolve_visibility_eq in H;
  destruct p;
  cbn zeta in H;
  [ destruct (fetch _) as [?resp|?e] eqn:?Hf;
    [ destruct (ok _) eqn:?Hok;
      [ destruct (json _) as [?data|?e] eqn:?Hj;
        [ destruct (get_property _ _) as [?w|?e] eqn:?Hg | ]
      | destruct (text _) eqn:?Ht ]
    | ]
  | | ];
  inversion H; subst; clear H.

Lemma visibility_true (p : Provider) (o c : string) (options : ParseOptions)
  (ev : list Event) (v : Value) :
  resolve_visibility fetch p o c options = (ev, Normal v) ->
  v = Bool true <->
  p = github /\
  exists resp data,
    fetch (lookup_request o c options) = Normal resp /\ ok resp = true /\
    json resp = Normal data /\
    get_property data "private" = Normal (Bool true).
Proof.
  intros Hrun. lookup_cases p Hrun;
    (split;
     [ intros Hv;
       first [ discriminate Hv
             | subst; split; [reflexivity|];
               do 2 eexists; repeat split; eassumption ]
     | intros (Hp & resp' & data' & Hr & Hok' & Hj' & Hg');
       first [ discriminate Hp | congruence ] ]).
Qed.

Lemma visibility_other_provider (p : Provider) (o c : string)
  (options : ParseOptions) (ev : list Event) (v : Value) :
  resolve_visibility fetch p o c options = (ev, Normal v) ->
  p <> github -> v = Bool false /\ ev = [].
Proof. intros Hrun Hp. lookup_cases p Hrun; try congruence; auto. Qed.

Lemma visibility_fetches (p : Provider) (o c : string)
  (options : ParseOptions) (ev : list Event) (v : Value) :
  resolve_visibility fetch p o c options = (ev, Normal v) ->
  p = github -> hd_error ev = Some (Fetched (lookup_request o c options)).
Proof.
  intros Hrun Hp. lookup_cases p Hrun; try discriminate Hp; reflexivity.
Qed.

Lemma visibility_rejected (p : Provider) (o c : string)
  (options : ParseOptions) (ev : list Event) (v : Value) (e : Exception) :
  resolve_visibility fetch p o c options = (ev, Normal v) ->
  fetch (lookup_request o c options) = Throw e -> v = Bool false.
Proof. intros Hrun Hr. lookup_cases p Hrun; congruence. Qed.

Lemma visibility_not_ok (p : Provider) (o c : string)
  (options : ParseOptions) (ev : list Event) (v : Value) (resp : Response) :
  resolve_visibility fetch p o c options = (ev, Normal v) ->
  fetch (lookup_request o c options) = Normal resp -> ok resp = false ->
  v = Bool false.
Proof. intros Hrun Hr Hk. lookup_cases p Hrun; congruence. Qed.

Lemma visibility_no_json (p : Provider) (o c : string)
  (options : ParseOptions) (ev : list Event) (v : Value) (resp : Response)
  (e : Exception) :
  resolve_visibility fetch p o c options = (ev, Normal v) ->
  fetch (lookup_request o c options) = Normal resp -> ok resp = true ->
  json resp = Throw e -> v = Bool false.
Proof. intros Hrun Hr Hk Hj'. lookup_cases p Hrun; congruence. Qed.

Lemma visibility_null (p : Provider) (o c : string)
  (options : ParseOptions) (ev : list Event) (v : Value) (resp : Response) :
  resolve_visibility fetch p o c options = (ev, Normal v) ->
  fetch (lookup_request o c options) = Normal resp -> ok resp = true ->
  json resp = Normal Null -> v = Bool false.
Proof.
  intros Hrun Hr Hk Hj'. lookup_cases p Hrun; try congruence.
  assert (data = Null) by congruence. subst data. discriminate Hg.
Qed.

Lemma visibility_property (p : Provider) (o c : string)
  (options : ParseOptions) (ev : list Event) (v : Value) (resp : Response)
  (data w : Value) :
  resolve_visibility fetch p o c options = (ev, Normal v) ->
  p = github -> fetch (lookup_request o c options) = Normal resp ->
  ok resp = true -> json resp = Normal data ->
  get_property data "private" = Normal w -> v = w.
Proof.
  intros Hrun Hp Hr Hk Hj' Hg'.
  lookup_cases p Hrun; try discriminate Hp; congruence.
Qed.

End Network.

End LookupFacts.

(** ** Visibility: what the lookup can and cannot change *)

Module VisibilitySpec.

Import JS GitRepoParser StrFacts ParseFacts LookupFacts.

Section Platform.

Variable unicode_to_ascii : string -> option string.

Lemma isPrivate_result_of (url : string) (u : URL.URLRecord) (o c : string)
  (v : Value) : isPrivate (metadata (result_of url u o c v)) = v.
Proof. reflexivity. Qed.

(** Two results that differ at most in [isPrivate]. *)
Definition same_but_isPrivate (r1 r2 : ParsedGitUrl) : Prop :=
  owner (metadata r1) = owner (metadata r2) /\
  repo (metadata r1) = repo (metadata r2) /\
  branch (metadata r1) = branch (metadata r2) /\
  commit (metadata r1) = commit (metadata r2) /\
  provider (metadata r1) = provider (metadata r2) /\
  normalizedUrl r1 = normalizedUrl r2 /\
  originalUrl r1 = originalUrl r2.

(** How [isPrivate] and the events of a call that returned [r] follow from
    what [fetch] does with the lookup request. *)
Definition visibility_contract (fetch : Request -> Completion Response)
  (options : ParseOptions) (ev : list Event) (r : ParsedGitUrl) : Prop :=
  let m := metadata r in
  let req := lookup_request (owner m) (repo m) options in
  (isPrivate m = Bool true <->
   provider m = github /\
   exists resp data,
     fetch req = Normal resp /\ ok resp = true /\ json resp = Normal data /\
     get_property data "private" = Normal (Bool true)) /\
  (provider m <> github -> isPrivate m = Bool false /\ ev = []) /\
  (provider m = github -> hd_error ev = Some (Fetched req)) /\
  (forall e, fetch req = Throw e -> isPrivate m = Bool false) /\
  (forall resp, fetch req = Normal resp -> ok resp = false ->
                isPrivate m = Bool false) /\
  (forall resp e, fetch req = Normal resp -> ok resp = true ->
                  json resp = Throw e -> isPrivate m = Bool false) /\
  (forall resp, fetch req = Normal resp -> ok resp = true ->
                json resp = Normal Null -> isPrivate m = Bool false) /\
  (forall resp data v,
     provider m = github -> fetch req = Normal resp -> ok resp = true ->
     json resp = Normal data -> get_property data "private" = Normal v ->
     isPrivate m = v).

(** C10: whatever the lookup answers and whatever token is passed, [parse]
    succeeds on the same inputs, and two successful results agree on owner,
    repo, branch, commit, provider, normalizedUrl and originalUrl; only
    [isPrivate] can differ. *)
Theorem lookup_only_decides_isPrivate
  (fetch1 fetch2 : Request -> Completion Response)
  (options1 options2 : ParseOptions) (url : string) (r1 : ParsedGitUrl) :
  completion (parse unicode_to_ascii fetch1 url options1) = Normal r1 ->
  exists r2,
    completion (parse unicode_to_ascii fetch2 url options2) = Normal r2 /\
    same_but_isPrivate r1 r2.
Proof.
  intros H1.
  destruct (parse_normal _ _ _ _ _ H1) as (u & o & c & v1 & He & _ & ->).
  destruct (parse_succeeds unicode_to_ascii fetch2 url options2 u o c He)
    as (v2 & _ & H2).
  exists (result_of url u o c v2).
  split; [exact H2|]. repeat split.
Qed.

(** C5, as the code has it: [isPrivate] is [true] exactly when the
    provider is github and [fetch] resolves to an [ok] response whose JSON
    body has a [private] property that is [true].  For another provider nothing is fetched and
    [isPrivate] is [false]; it is [false] too on every failure of the
    lookup: when [fetch] rejects, when the response is not [ok], and when
    the body does not parse as JSON or is [null].  In every case [parse]
    succeeds, as it does whatever the lookup answers.  (An [ok] response with
    any other JSON body is no failure for the code: [isPrivate] is then the
    value of the body's [private] property.) *)
Theorem isPrivate_follows_the_lookup
  (fetch : Request -> Completion Response) (url : string)
  (options : ParseOptions) (ev : list Event) (r : ParsedGitUrl) :
  parse unicode_to_ascii fetch url options = (ev, Normal r) ->
  visibility_contract fetch options ev r /\
  (forall fetch' options',
     exists r', completion (parse unicode_to_ascii fetch' url options')
                = Normal r').
Proof.
  intros Hp.
  assert (Hc : completion (parse unicode_to_ascii fetch url options) = Normal r)
    by (rewrite Hp; reflexivity).
  assert (Hev : events (parse unicode_to_ascii fetch url options) = ev)
    by (rewrite Hp; reflexivity).
  destruct (parse_normal _ _ _ _ _ Hc) as (u & o & c & v & He & Hv & ->).
  rewrite parse_eq, He in Hev. unfold events at 1 in Hev. cbn [fst] in Hev.
  assert (Hrun : resolve_visibility fetch (detect_provider (URL.hostname u))
                   o c options = (ev, Normal v)).
  { unfold events in Hev. unfold completion in Hv.
    destruct (resolve_visibility _ _ _ _ _); cbn in *; congruence. }
  split.
  - unfold visibility_contract.
    cbn zeta. cbn [metadata owner repo provider isPrivate result_of].
    split; [exact (visibility_true _ _ _ _ _ _ _ Hrun)|].
    split; [exact (visibility_other_provider _ _ _ _ _ _ _ Hrun)|].
    split; [exact (visibility_fetches _ _ _ _ _ _ _ Hrun)|].
    split; [intros e; exact (visibility_rejected _ _ _ _ _ _ _ e Hrun)|].
    split; [intros resp; exact (visibility_not_ok _ _ _ _ _ _ _ resp Hrun)|].
    split; [intros resp e; exact (visibility_no_json _ _ _ _ _ _ _ resp e Hrun)|].
    split; [intros resp; exact (visibility_null _ _ _ _ _ _ _ resp Hrun)|].
    intros resp data w. exact (visibility_property _ _ _ _ _ _ _ resp data w Hrun).
  - intros f' o'.
    destruct (parse_succeeds unicode_to_ascii f' url o' u o c He)
      as (v' & _ & H'). eauto.
Qed.

End Platform.

Import Fixtures.

Lemma lookup_only_decides_isPrivate_witness :
  completion (parse no_idna fetch_private "https://github.com/user/repo"
                with_token)
  = Normal (mkParsed (mkMetadata "user" "repo" None None github (Bool true))
              "https://github.com/user/repo" "https://github.com/user/repo")
  /\
  exists r2,
    completion (parse no_idna fetch_rejects "https://github.com/user/repo"
                  no_options) = Normal r2 /\
    same_but_isPrivate
      (mkParsed (mkMetadata "user" "repo" None None github (Bool true))
         "https://github.com/user/repo" "https://github.com/user/repo")
      r2.
Proof.
  split; [reflexivity|].
  apply (lookup_only_decides_isPrivate no_idna fetch_private fetch_rejects
           with_token no_options "https://github.com/user/repo").
  reflexivity.
Defined.

(** Bodies outside the declared type [GitHubRepoResponse]: the JSON object
    [{}] in an [ok] response is no failure of the lookup, nothing is logged,
    and [isPrivate] is [undefined], not [false]; a [private] property that
    is a string is returned as it is. *)
Lemma isPrivate_of_empty_object :
  parse no_idna fetch_empty_object "https://github.com/user/repo" no_options
  = ([Fetched (mkRequest "https://api.github.com/repos/user/repo"
                 [("Accept", "application/vnd.github.v3+json")])],
     Normal (mkParsed (mkMetadata "user" "repo" None None github Undefined)
               "https://github.com/user/repo" "https://github.com/user/repo"))
  /\
  parse no_idna
    (fun _ => Normal (ok_response (Object [("private", Str "yes")])))
    "https://github.com/user/repo" no_options
  = ([Fetched (mkRequest "https://api.github.com/repos/user/repo"
                 [("Accept", "application/vnd.github.v3+json")])],
     Normal (mkParsed (mkMetadata "user" "repo" None None github (Str "yes"))
               "https://github.com/user/repo" "https://github.com/user/repo")).
Proof. split; reflexivity. Qed.

Lemma isPrivate_follows_the_lookup_witness :
  parse no_idna fetch_private "https://github.com/user/repo" with_token
  = ([Fetched (mkRequest "https://api.github.com/repos/user/repo"
                 [("Accept", "application/vnd.github.v3+json");
                  ("Authorization", "token secret")])],
     Normal (mkParsed (mkMetadata "user" "repo" None None github (Bool true))
               "https://github.com/user/repo" "https://github.com/user/repo"))
  /\
  (visibility_contract fetch_private with_token
     [Fetched (mkRequest "https://api.github.com/repos/user/repo"
                 [("Accept", "application/vnd.github.v3+json");
                  ("Authorization", "token secret")])]
     (mkParsed (mkMetadata "user" "repo" None None github (Bool true))
        "https://github.com/user/repo" "https://github.com/user/repo")
   /\
   (forall fetch' options',
      exists r', completion (parse no_idna fetch' "https://github.com/user/repo"
                               options') = Normal r')).
Proof.
  split; [reflexivity|].
  apply (isPrivate_follows_the_lookup no_idna fetch_private
           "https://github.com/user/repo" with_token).
  reflexivity.
Defined.

End VisibilitySpec.

(** ** The patterns *)

Module RegExpFacts.

Import Char Str StrFacts RegExp.

(** What a literal matched, under the [i] flag or without it. *)
Definition matches_literal (ci : bool) (literal l : string) : Prop :=
  if ci then to_lower l = to_lower literal else l = literal.

Lemma to_lower_length (a b : string) :
  to_lower a = to_lower b -> String.length a = String.length b.
Proof.
  revert b. induction a as [|x a IH]; destruct b as [|y b]; simpl;
    try discriminate; auto.
  intros H. inversion H. f_equal. apply IH. assumption.
Qed.

Lemma starts_with_ci_app (literal l rest : string) :
  to_lower l = to_lower literal -> starts_with_ci literal (l ++ rest) = true.
Proof.
  revert l. induction literal as [|x literal IH]; intros l H; [reflexivity|].
  destruct l as [|y l]; [discriminate|]. simpl in *. inversion H.
  rewrite (IH l) by assumption. rewrite H1, Ascii.eqb_refl. reflexivity.
Qed.

Lemma drop_app (l rest : string) : drop (String.length l) (l ++ rest) = rest.
Proof. induction l; simpl; auto. Qed.

Lemma literal_starts (ci : bool) (literal l rest : string) :
  matches_literal ci literal l ->
  (if ci then starts_with_ci literal (l ++ rest)
   else starts_with literal (l ++ rest)) = true /\
  drop (String.length literal) (l ++ rest) = rest.
Proof.
  destruct ci; simpl; intros H.
  - split; [apply starts_with_ci_app, H|].
    rewrite <- (to_lower_length _ _ H). apply drop_app.
  - subst l. split; [apply starts_with_app | apply drop_app].
Qed.

Lemma attempt_spec (ci : bool) (literal : string) (class : ascii -> bool)
  (s run : string) :
  attempt ci literal class s = Some run ->
  run <> "" /\ all class run = true /\
  exists l post,
    s = l ++ run ++ post /\ matches_literal ci literal l /\
    match post with String x _ => class x = false | EmptyString => True end.
Proof.
  unfold attempt.
  destruct (if ci then _ else _) eqn:Hs; [|discriminate].
  destruct (span class (drop (String.length literal) s)) as [a b] eqn:Hsp.
  cbn [fst]. destruct (is_empty a) eqn:Ha; [discriminate|].
  intros H. inversion H; subst a. apply is_empty_false in Ha.
  destruct (span_spec _ _ _ _ Hsp) as (Hd & Hall & Hb).
  split; [exact Ha|]. split; [exact Hall|].
  destruct ci.
  - destruct (starts_with_ci_spec _ _ Hs) as (l & Hl & Hlow).
    exists l, b. rewrite <- Hd. auto.
  - exists literal, b. rewrite <- Hd.
    split; [apply starts_with_spec, Hs|]. split; [reflexivity|exact Hb].
Qed.

(** A capture is a non-empty run of the class, right after the literal. *)
Lemma match_capture_spec (ci : bool) (literal : string)
  (class : ascii -> bool) (s run : string) :
  match_capture ci literal class s = Some run ->
  run <> "" /\ all class run = true /\
  exists pre l post,
    s = pre ++ l ++ run ++ post /\ matches_literal ci literal l /\
    match post with String x _ => class x = false | EmptyString => True end.
Proof.
  induction s as [|c s IH]; simpl.
  - destruct (attempt ci literal class "") eqn:Ha; [|discriminate].
    intros H; inversion H; subst.
    destruct (attempt_spec _ _ _ _ _ Ha) as (Hn & Hall & l & post & Hs & Hl & Hp).
    split; [exact Hn|]. split; [exact Hall|]. exists "", l, post. auto.
  - destruct (attempt ci literal class (String c s)) eqn:Ha.
    + intros H; inversion H; subst.
      destruct (attempt_spec _ _ _ _ _ Ha)
        as (Hn & Hall & l & post & Hs & Hl & Hp).
      split; [exact Hn|]. split; [exact Hall|]. exists "", l, post. auto.
    + intros H. destruct (IH H) as (Hn & Hall & pre & l & post & Hs & Hl & Hp).
      split; [exact Hn|]. split; [exact Hall|].
      exists (String c pre), l, post. simpl. rewrite <- Hs. auto.
Qed.

(** No capture: wherever the literal occurs, no character of the class
    follows it. *)
Lemma match_capture_none (ci : bool) (literal : string)
  (class : ascii -> bool) (s : string) :
  match_capture ci literal class s = None ->
  forall pre l x post,
    s = pre ++ l ++ String x post -> matches_literal ci literal l ->
    class x = false.
Proof.
  intros H pre. revert s H.
  induction pre as [|c pre IH]; intros s H l x post Hs Hl.
  - simpl in Hs. subst s.
    assert (Ha : attempt ci literal class (l ++ String x post) = None).
    { destruct l; simpl in H;
        destruct (attempt ci literal class _); congruence. }
    unfold attempt in Ha.
    destruct (literal_starts ci literal l (String x post) Hl) as [Hst Hdrop].
    rewrite Hst, Hdrop in Ha. simpl in Ha.
    destruct (class x); [|reflexivity].
    destruct (span class post); discriminate.
  - simpl in Hs. subst s. simpl in H.
    destruct (attempt ci literal class _); [discriminate|].
    eapply IH; eauto.
Qed.

(** [replace(/\.git$/, '')] strips one [.git] from the end, if there is one. *)
Lemma replace_dot_git_spec (s : string) :
  (ends_with ".git" s = true /\ s = replace_dot_git s ++ ".git") \/
  (ends_with ".git" s = false /\ replace_dot_git s = s).
Proof.
  induction s as [|c s IH].
  - right. split; reflexivity.
  - cbn [replace_dot_git ends_with].
    rewrite (String.eqb_sym ".git").
    destruct (String.eqb (String c s) ".git") eqn:E.
    + left. apply String.eqb_eq in E. rewrite E. split; reflexivity.
    + cbn [orb]. destruct IH as [[He Hs]|[He Hs]].
      * left. split; [exact He|]. simpl. f_equal. exact Hs.
      * right. split; [exact He|]. f_equal. exact Hs.
Qed.

Lemma replace_dot_git_empty (s : string) :
  replace_dot_git s = "" <-> s = "" \/ s = ".git".
Proof.
  split.
  - destruct s as [|c s]; [auto|]. cbn [replace_dot_git].
    destruct (String.eqb (String c s) ".git") eqn:E.
    + apply String.eqb_eq in E. auto.
    + discriminate.
  - intros [->| ->]; reflexivity.
Qed.

End RegExpFacts.

(** ** Format validation, provider and commit *)

Module FieldSpec.

Import JS GitRepoParser StrFacts ParseFacts RegExpFacts.

(** The first of the patterns github, gitlab, bitbucket that the host name
    matches, and github when none does. *)
Definition first_match (hostname : string) (p : Provider) : Prop :=
  let hit pattern := RegExp.test_literal pattern hostname in
  (hit "github.com" = true -> p = github) /\
  (hit "github.com" = false -> hit "gitlab.com" = true -> p = gitlab) /\
  (hit "github.com" = false -> hit "gitlab.com" = false ->
   hit "bitbucket.org" = true -> p = bitbucket) /\
  (hit "github.com" = false -> hit "gitlab.com" = false ->
   hit "bitbucket.org" = false -> p = github).

Lemma detect_provider_first_match (hostname : string) :
  first_match hostname (detect_provider hostname).
Proof.
  unfold first_match, detect_provider, PROVIDER_PATTERNS. cbn [find snd].
  destruct (RegExp.test_literal "github.com" hostname);
    destruct (RegExp.test_literal "gitlab.com" hostname);
    destruct (RegExp.test_literal "bitbucket.org" hostname);
    repeat split; intros; congruence.
Qed.

Section Platform.

Variable unicode_to_ascii : string -> option string.

Lemma extract_invalid_format (url : string) :
  extract unicode_to_ascii url = Throw InvalidFormat <->
  accepts unicode_to_ascii url = false.
Proof.
  unfold extract. destruct (accepts unicode_to_ascii url).
  - split; [|discriminate].
    destruct (URL.basic_url_parse _ _) as [u|]; [|discriminate].
    destruct (nth_error _ 0); [|discriminate].
    destruct (option_map _ _); [|discriminate].
    destruct (_ || _); discriminate.
  - split; reflexivity.
Qed.

Lemma parse_throw_inv (fetch : Request -> Completion Response) (url : string)
  (options : ParseOptions) (e : Exception) :
  completion (parse unicode_to_ascii fetch url options) = Throw e <->
  extract unicode_to_ascii url = Throw e.
Proof.
  rewrite parse_eq.
  destruct (extract unicode_to_ascii url) as [[[u o] c]|e'];
    [|cbn; split; intros H; inversion H; reflexivity].
  destruct (resolve_visibility_normal fetch (detect_provider (URL.hostname u))
              o c options) as [v Hv].
  unfold completion at 1. cbn [snd]. rewrite Hv. split; discriminate.
Qed.

(** C7: [validate] completes normally on every input, causes no event (so
    no network call), and its result is settled by the format rule alone
    (nothing of owner or repo enters it): it reports success exactly when the
    format step of [parse], [gitUrlSchema.parse(url)], accepts the input,
    which is exactly when [parse] does not fail with InvalidFormat. *)
Theorem validate_is_the_format_step
  (fetch : Request -> Completion Response) (url : string)
  (options : ParseOptions) :
  exists r,
    validate unicode_to_ascii url = ([], Normal r) /\
    r = (if accepts unicode_to_ascii url then SafeParseSuccess url
         else SafeParseError InvalidFormat) /\
    (success r = true <->
     gitUrlSchema_parse unicode_to_ascii url = ([], Normal url)) /\
    (success r = true <->
     completion (parse unicode_to_ascii fetch url options)
     <> Throw InvalidFormat).
Proof.
  unfold validate. rewrite gitUrlSchema_safeParse_eq, gitUrlSchema_parse_eq.
  eexists. split; [reflexivity|]. split; [reflexivity|].
  rewrite parse_throw_inv, extract_invalid_format.
  destruct (accepts unicode_to_ascii url); cbn.
  - split; split; auto. intros _. discriminate.
  - split; split; try discriminate. intros H. exfalso. apply H. reflexivity.
Qed.

(** C8: the provider of a successful [parse] is the first of github,
    gitlab, bitbucket whose pattern the host name of the expanded URL
    matches, and github when none matches; and a URL that passed the format
    step and has an owner and a repository name parses successfully
    whatever its host is. *)
Theorem provider_is_first_match
  (fetch : Request -> Completion Response) (url : string)
  (options : ParseOptions) :
  (forall r,
     completion (parse unicode_to_ascii fetch url options) = Normal r ->
     exists u,
       URL.basic_url_parse unicode_to_ascii (expand url) = Some u /\
       first_match (URL.hostname u) (provider (metadata r))) /\
  (forall u o rp,
     accepts unicode_to_ascii url = true ->
     URL.basic_url_parse unicode_to_ascii (expand url) = Some u ->
     nth_error (path_segments u) 0 = Some o ->
     nth_error (path_segments u) 1 = Some rp ->
     o <> "" -> RegExp.replace_dot_git rp <> "" ->
     exists r,
       completion (parse unicode_to_ascii fetch url options) = Normal r /\
       first_match (URL.hostname u) (provider (metadata r))).
Proof.
  split.
  - intros r Hr.
    destruct (parse_normal _ _ _ _ _ Hr) as (u & o & c & v & He & _ & ->).
    exists u. split; [apply (extract_normal _ _ _ _ _ He)|].
    apply detect_provider_first_match.
  - intros u o rp Ha Hu Ho Hrp Hne Hce.
    assert (He : extract unicode_to_ascii url
                 = Normal (u, o, RegExp.replace_dot_git rp)).
    { unfold extract. rewrite Ha, Hu, Ho, Hrp. cbn [option_map].
      apply is_empty_false in Hne, Hce. rewrite Hne, Hce. reflexivity. }
    destruct (parse_succeeds unicode_to_ascii fetch url options _ _ _ He)
      as (v & _ & Hp).
    eexists. split; [exact Hp|]. apply detect_provider_first_match.
Qed.

(** C4, as the code has it: a commit, when present, is a non-empty string of
    hexadecimal digits of either case; it stands in the expanded URL right
    after a text that is [/commit/] up to case.  When there is no commit,
    no hexadecimal digit follows such a text anywhere in the expanded URL. *)
Theorem commit_is_hex_after_commit_segment
  (fetch : Request -> Completion Response) (url : string)
  (options : ParseOptions) (r : ParsedGitUrl) :
  completion (parse unicode_to_ascii fetch url options) = Normal r ->
  originalUrl r = expand url /\
  (forall c,
     commit (metadata r) = Some c ->
     c <> "" /\ Str.all Char.is_hex_digit c = true /\
     exists pre l post,
       expand url = pre ++ l ++ c ++ post /\ Str.to_lower l = "/commit/") /\
  (commit (metadata r) = None ->
   forall pre l x post,
     expand url = pre ++ l ++ String x post -> Str.to_lower l = "/commit/" ->
     Char.is_hex_digit x = false).
Proof.
  intros Hr.
  destruct (parse_normal _ _ _ _ _ Hr) as (u & o & c & v & He & _ & ->).
  cbn [originalUrl metadata commit result_of]. split; [reflexivity|]. split.
  - intros k Hk. unfold COMMIT_PATTERN in Hk.
    destruct (match_capture_spec _ _ _ _ _ Hk)
      as (Hn & Hall & pre & l & post & Hs & Hl & _).
    split; [exact Hn|]. split; [exact Hall|]. exists pre, l, post. auto.
  - intros Hk pre l x post Hs Hl. unfold COMMIT_PATTERN in Hk.
    exact (match_capture_none _ _ _ _ Hk pre l x post Hs Hl).
Qed.

End Platform.

Import Fixtures.

Lemma provider_is_first_match_witness :
  (completion (parse no_idna fetch_public "https://gitlab.com/user/repo"
                 no_options)
   = Normal (mkParsed
               (mkMetadata "user" "repo" None None gitlab (Bool false))
               "https://gitlab.com/user/repo" "https://gitlab.com/user/repo")
   /\
   exists u,
     URL.basic_url_parse no_idna (expand "https://gitlab.com/user/repo")
     = Some u /\
     first_match (URL.hostname u) gitlab)
  /\
  exists r,
    completion (parse no_idna fetch_public "https://example.com/user/repo"
                  no_options) = Normal r /\
    first_match "example.com" (provider (metadata r)).
Proof.
  split.
  - split; [reflexivity|].
    apply (proj1 (provider_is_first_match no_idna fetch_public
                    "https://gitlab.com/user/repo" no_options)
             (mkParsed
                (mkMetadata "user" "repo" None None gitlab (Bool false))
                "https://gitlab.com/user/repo" "https://gitlab.com/user/repo")).
    reflexivity.
  - apply (proj2 (provider_is_first_match no_idna fetch_public
                    "https://example.com/user/repo" no_options)
             (URL.mkURL "https" (Some (URL.Domain "example.com")) None
                (URL.PathList ["user"; "repo"]))
             "user" "repo");
      first [ reflexivity | discriminate ].
Defined.

(** An uppercase commit is returned as it is written. *)
Lemma commit_keeps_uppercase :
  option_map (fun r => commit (metadata r))
    (returned (parse no_idna fetch_public
                 "https://github.com/user/repo/commit/ABC123" no_options))
  = Some (Some "ABC123")
  /\ Str.all Char.is_hex_lower "ABC123" = false.
Proof. split; reflexivity. Qed.

Lemma commit_is_hex_after_commit_segment_witness :
  completion (parse no_idna fetch_public
                "https://github.com/user/repo/commit/ABC123" no_options)
  = Normal (mkParsed
              (mkMetadata "user" "repo" None (Some "ABC123") github
                 (Bool false))
              "https://github.com/user/repo"
              "https://github.com/user/repo/commit/ABC123")
  /\
  ("https://github.com/user/repo/commit/ABC123"
   = expand "https://github.com/user/repo/commit/ABC123" /\
   (forall c,
      Some "ABC123" = Some c ->
      c <> "" /\ Str.all Char.is_hex_digit c = true /\
      exists pre l post,
        expand "https://github.com/user/repo/commit/ABC123"
        = pre ++ l ++ c ++ post /\ Str.to_lower l = "/commit/") /\
   (Some "ABC123" = None ->
    forall pre l x post,
      expand "https://github.com/user/repo/commit/ABC123"
      = pre ++ l ++ String x post ->
      Str.to_lower l = "/commit/" -> Char.is_hex_digit x = false)).
Proof.
  split; [reflexivity|].
  apply (commit_is_hex_after_commit_segment no_idna fetch_public
           "https://github.com/user/repo/commit/ABC123" no_options
           (mkParsed
              (mkMetadata "user" "repo" None (Some "ABC123") github
                 (Bool false))
              "https://github.com/user/repo"
              "https://github.com/user/repo/commit/ABC123")).
  reflexivity.
Defined.

End FieldSpec.

(** ** The URL parser on inputs without a colon and on plain URLs *)

Module URLFacts.

Import Char Str StrFacts URL.

(** *** No colon, no URL *)

Lemma any_trim_leading (p : ascii -> bool) (s : string) :
  any p s = false -> any p (trim_leading s) = false.
Proof.
  induction s as [|c s IH]; simpl; [reflexivity|].
  rewrite orb_false_iff. intros [Hc Hs].
  destruct (is_c0_control_or_space c); simpl; [auto|].
  rewrite Hc, Hs. reflexivity.
Qed.

Lemma any_trim_trailing (p : ascii -> bool) (s : string) :
  any p s = false -> any p (trim_trailing s) = false.
Proof.
  induction s as [|c s IH]; simpl; [reflexivity|].
  rewrite orb_false_iff. intros [Hc Hs].
  destruct (is_empty (trim_trailing s) && is_c0_control_or_space c);
    simpl; [reflexivity|].
  rewrite Hc, (IH Hs). reflexivity.
Qed.

Lemma scheme_state_no_colon (s : string) :
  any is_colon s = false -> scheme_state s = None.
Proof.
  destruct s as [|c t]; [reflexivity|]. simpl.
  rewrite orb_false_iff. intros [_ Ht].
  destruct (is_alpha c); [|reflexivity].
  destruct (span is_scheme_char t) as [buffer rest] eqn:Hsp.
  destruct rest as [|d remaining]; [reflexivity|].
  destruct (is_colon d) eqn:Hd; [|reflexivity].
  apply span_spec in Hsp as (-> & _ & _).
  rewrite any_app in Ht. simpl in Ht. rewrite Hd in Ht.
  rewrite orb_true_r in Ht. discriminate.
Qed.

Section Parser.

Variable unicode_to_ascii : string -> option string.

(** Without a base URL, an input without a colon has no scheme and is not a
    URL. *)
Lemma no_colon_no_url (s : string) :
  any is_colon s = false -> basic_url_parse unicode_to_ascii s = None.
Proof.
  intros H. unfold basic_url_parse.
  rewrite scheme_state_no_colon; [reflexivity|].
  apply any_filter, any_trim_trailing, any_trim_leading, H.
Qed.

End Parser.

(** *** Plain host names *)

(** A character of a plain host name: ASCII, no uppercase letter, and not
    a forbidden domain code point. *)
Definition is_host_char (c : ascii) : bool :=
  is_ascii c && negb (is_upper c) && negb (forbidden_domain_code_point c).

(** A host name that the host parser of a special URL gives back as it is: a
    lowercase ASCII domain that does not end in a number (so is no IPv4
    address) and has no label for Unicode ToASCII to decode. *)
Definition plain_host (h : string) : bool :=
  negb (is_empty h) && all is_host_char h && negb (ends_in_number h)
  && negb (has_xn_label h).

Lemma plain_host_spec (h : string) :
  plain_host h = true ->
  h <> "" /\ all is_host_char h = true /\ ends_in_number h = false /\
  has_xn_label h = false.
Proof.
  unfold plain_host. rewrite !andb_true_iff, !negb_true_iff.
  intros [[[H1 H2] H3] H4]. apply is_empty_false in H1. auto.
Qed.

Lemma host_char_ascii (c : ascii) : is_host_char c = true -> is_ascii c = true.
Proof. by_char c. Qed.

Lemma host_char_lower (c : ascii) :
  is_host_char c = true -> Char.to_lower c = c.
Proof. by_char c. Qed.

Lemma host_char_not_percent (c : ascii) :
  is_host_char c = true -> is_code 37 c = false.
Proof. by_char c. Qed.

Lemma host_char_allowed (c : ascii) :
  is_host_char c = true -> forbidden_domain_code_point c = false.
Proof. by_char c. Qed.

Lemma host_char_not_end (c : ascii) :
  is_host_char c = true -> negb (is_authority_end true c) = true.
Proof. by_char c. Qed.

Lemma host_char_not_at (c : ascii) : is_host_char c = true -> is_at c = false.
Proof. by_char c. Qed.

Lemma host_char_scan (c : ascii) :
  is_host_char c = true ->
  is_colon c = false /\ is_code 91 c = false /\ is_code 93 c = false.
Proof. by_char c. Qed.

Lemma host_char_not_bracket (c : ascii) :
  is_host_char c = true -> Ascii.eqb "[" c = false.
Proof. by_char c. Qed.

Lemma host_char_not_slash (c : ascii) :
  is_host_char c = true -> is_slash c || is_backslash c = false.
Proof. by_char c. Qed.

Lemma host_char_not_space (c : ascii) :
  is_host_char c = true -> negb (is_c0_control_or_space c) = true.
Proof. by_char c. Qed.

Lemma map_fixed (f : ascii -> ascii) (p : ascii -> bool) (s : string) :
  (forall c, p c = true -> f c = c) -> all p s = true -> map f s = s.
Proof.
  intros Hf. induction s as [|c s IH]; simpl; [reflexivity|].
  rewrite andb_true_iff. intros [Hc Hs]. rewrite (Hf c Hc), (IH Hs). reflexivity.
Qed.

Lemma percent_decode_plain (s : string) :
  any (is_code 37) s = false -> percent_decode s = s.
Proof.
  induction s as [|c s IH]; simpl; [reflexivity|].
  rewrite orb_false_iff. intros [Hc Hs]. rewrite Hc, (IH Hs). reflexivity.
Qed.

Lemma host_scan_plain (h : string) :
  all is_host_char h = true -> host_scan false h = (h, "").
Proof.
  induction h as [|c h IH]; simpl; [reflexivity|].
  rewrite andb_true_iff. intros [Hc Hh].
  destruct (host_char_scan c Hc) as (H1 & H2 & H3).
  rewrite H1, H2, H3, (IH Hh). reflexivity.
Qed.

Lemma after_last_at_none (s : string) :
  any is_at s = false -> after_last_at s = (false, s).
Proof.
  induction s as [|c s IH]; simpl; [reflexivity|].
  rewrite orb_false_iff. intros [Hc Hs]. rewrite (IH Hs), Hc. reflexivity.
Qed.

Lemma trim_trailing_id (s : string) :
  all (fun c => negb (is_c0_control_or_space c)) s = true ->
  trim_trailing s = s.
Proof.
  induction s as [|c s IH]; simpl; [reflexivity|].
  rewrite andb_true_iff, negb_true_iff. intros [Hc Hs].
  rewrite (IH Hs), Hc, andb_false_r. reflexivity.
Qed.

Lemma not_space_not_tab (c : ascii) :
  negb (is_c0_control_or_space c) = true -> negb (is_tab_or_newline c) = true.
Proof. by_char c. Qed.

Section PlainHost.

Variable unicode_to_ascii : string -> option string.

Lemma host_parse_plain (h : string) :
  plain_host h = true ->
  host_parse unicode_to_ascii false h = Some (Domain h).
Proof.
  intros Hp. destruct (plain_host_spec h Hp) as (Hne & Hall & Hnum & Hxn).
  unfold host_parse.
  destruct h as [|c t]; [congruence|].
  assert (Hc : is_host_char c = true)
    by (simpl in Hall; apply andb_true_iff in Hall; tauto).
  cbn [starts_with]. rewrite (host_char_not_bracket c Hc). cbn [andb].
  rewrite percent_decode_plain
    by (eapply all_none; [apply host_char_not_percent|exact Hall]).
  unfold domain_to_ascii.
  rewrite (all_impl _ _ _ host_char_ascii Hall), Hxn. cbn [andb negb].
  unfold Str.to_lower. rewrite (map_fixed _ _ _ host_char_lower Hall).
  cbn [is_empty].
  rewrite (all_none _ _ _ host_char_allowed Hall), Hnum. reflexivity.
Qed.

(** Authority, host and path start state on a plain host followed by a
    path. *)
Lemma authority_plain (h p : string) :
  plain_host h = true ->
  authority_state unicode_to_ascii "https" true (h ++ String "/" p)
  = Some (mkURL "https" (Some (Domain h)) None
            (PathList (path_state true false [] "" p))).
Proof.
  intros Hp. destruct (plain_host_spec h Hp) as (Hne & Hall & _ & _).
  unfold authority_state.
  rewrite (span_app _ h "/" p (all_impl _ _ _ host_char_not_end Hall) eq_refl).
  rewrite after_last_at_none
    by (eapply all_none; [apply host_char_not_at|exact Hall]).
  cbn [andb]. unfold host_state. rewrite (host_scan_plain h Hall).
  apply is_empty_false in Hne. rewrite Hne. cbn [andb negb].
  rewrite (host_parse_plain h Hp). reflexivity.
Qed.

(** The parser on [https://<plain host>/<path>]. *)
Lemma parse_https_plain (h p : string) :
  plain_host h = true ->
  all (fun c => negb (is_c0_control_or_space c)) p = true ->
  basic_url_parse unicode_to_ascii ("https://" ++ h ++ String "/" p)
  = Some (mkURL "https" (Some (Domain h)) None
            (PathList (path_state true false [] "" p))).
Proof.
  intros Hp Hpath.
  destruct (plain_host_spec h Hp) as (Hne & Hall & _ & _).
  assert (Hclean : all (fun c => negb (is_c0_control_or_space c))
                     ("https://" ++ h ++ String "/" p) = true).
  { rewrite !all_app. cbn [all].
    rewrite (all_impl _ _ _ host_char_not_space Hall), Hpath. reflexivity. }
  unfold basic_url_parse.
  change (trim_leading ("https://" ++ h ++ String "/" p))
    with ("https://" ++ h ++ String "/" p).
  rewrite (trim_trailing_id _ Hclean).
  rewrite (filter_all _ _ (all_impl _ _ _ not_space_not_tab Hclean)).
  change (scheme_state ("https://" ++ h ++ String "/" p))
    with (Some ("https", "//" ++ h ++ String "/" p)).
  cbv beta iota.
  change (String.eqb "https" "file") with false.
  change (is_special "https") with true. cbv iota.
  destruct h as [|c t]; [congruence|].
  assert (Hc : is_host_char c = true)
    by (simpl in Hall; apply andb_true_iff in Hall; tauto).
  replace (snd (span (fun c0 => is_slash c0 || is_backslash c0)
                  ("//" ++ String c t ++ String "/" p)))
    with (String c t ++ String "/" p)
    by (simpl; rewrite (host_char_not_slash c Hc); reflexivity).
  apply authority_plain, Hp.
Qed.

End PlainHost.

End URLFacts.

(** ** Paths and their segments *)

Module PathFacts.

Import Char Str StrFacts URL URLFacts.

(** *** Splitting on a character *)

Lemma is_slash_eqb (c : ascii) : Ascii.eqb c "/" = is_slash c.
Proof. by_char c. Qed.

Lemma split_not_nil (sep : ascii) (s : string) : split sep s <> [].
Proof.
  induction s as [|c s IH]; simpl; [discriminate|].
  destruct (Ascii.eqb c sep); [discriminate|].
  destruct (split sep s); [contradiction|discriminate].
Qed.

Lemma split_app (sep : ascii) (p q : string) :
  split sep (p ++ String sep q) = (split sep p ++ split sep q)%list.
Proof.
  induction p as [|c p IH]; simpl.
  - rewrite Ascii.eqb_refl. reflexivity.
  - destruct (Ascii.eqb c sep); [rewrite IH; reflexivity|].
    rewrite IH. destruct (split sep p) as [|x r] eqn:E.
    + exfalso. exact (split_not_nil _ _ E).
    + reflexivity.
Qed.

Lemma split_one (s : string) : any is_slash s = false -> split "/" s = [s].
Proof.
  induction s as [|c s IH]; simpl; [reflexivity|].
  rewrite orb_false_iff. intros [Hc Hs].
  rewrite is_slash_eqb, Hc, (IH Hs). reflexivity.
Qed.

Lemma split_pieces (s x : string) :
  In x (split "/" s) -> any is_slash x = false.
Proof.
  revert x. induction s as [|c s IH]; simpl; intros x Hx.
  - destruct Hx as [<-|[]]. reflexivity.
  - rewrite is_slash_eqb in Hx. destruct (is_slash c) eqn:Hc.
    + destruct Hx as [<-|Hx]; [reflexivity|auto].
    + destruct (split "/" s) as [|y r].
      * destruct Hx as [<-|[]]. simpl. rewrite Hc. reflexivity.
      * destruct Hx as [<-|Hx].
        -- simpl. rewrite Hc. apply IH. left. reflexivity.
        -- apply IH. right. exact Hx.
Qed.

Lemma filter_Boolean_In (xs : list string) (x : string) :
  In x (filter_Boolean xs) -> In x xs /\ x <> "".
Proof.
  unfold filter_Boolean. rewrite filter_In, negb_true_iff.
  intros [H1 H2]. apply is_empty_false in H2. auto.
Qed.

(** Where [/w/] can occur in a text: [w] is a piece of it, neither the first
    nor the last. *)
Lemma includes_piece (w x s : string) :
  any is_slash w = false ->
  includes (String "/" (w ++ String "/" x)) s = true ->
  exists before after,
    split "/" s = (before ++ w :: after)%list /\ before <> [] /\ after <> [].
Proof.
  intros Hw H. apply includes_spec in H as (p & q & ->).
  exists (split "/" p), (split "/" (x ++ q)).
  split; [|split; apply split_not_nil].
  change (p ++ String "/" (w ++ String "/" x) ++ q)
    with (p ++ String "/" ((w ++ String "/" x) ++ q)).
  rewrite split_app, append_assoc.
  change (String "/" x ++ q) with (String "/" (x ++ q)).
  rewrite split_app, (split_one w Hw). reflexivity.
Qed.

(** *** Path state on characters it keeps *)

(** A character path state of a special URL appends as it is: no delimiter
    and nothing of the path percent-encode set. *)
Definition is_segment_char (c : ascii) : bool :=
  negb (path_set c) && negb (is_slash c) && negb (is_backslash c).

Lemma segment_char_spec (c : ascii) :
  is_segment_char c = true ->
  is_slash c || true && is_backslash c = false /\
  is_question c || is_hash c = false /\
  encode_with path_set c = String c "".
Proof. by_char c. Qed.

Lemma segment_char_not_space (c : ascii) :
  is_segment_char c = true -> negb (is_c0_control_or_space c) = true.
Proof. by_char c. Qed.

Lemma path_state_sep (file : bool) (o rest : string) :
  all is_segment_char o = true ->
  forall path buffer,
    path_state true file path buffer (o ++ String "/" rest)
    = path_state true file (end_segment file true path (buffer ++ o)) "" rest.
Proof.
  induction o as [|c o IH]; simpl; intros Ho path buffer.
  - rewrite append_empty_r. reflexivity.
  - apply andb_true_iff in Ho as [Hc Ho].
    destruct (segment_char_spec c Hc) as (H1 & H2 & H3).
    simpl in H1. rewrite H1, H2, H3, (IH Ho), append_assoc. reflexivity.
Qed.

Lemma path_state_end (file : bool) (o : string) :
  all is_segment_char o = true ->
  forall path buffer,
    path_state true file path buffer o
    = end_segment file false path (buffer ++ o).
Proof.
  induction o as [|c o IH]; simpl; intros Ho path buffer.
  - rewrite append_empty_r. reflexivity.
  - apply andb_true_iff in Ho as [Hc Ho].
    destruct (segment_char_spec c Hc) as (H1 & H2 & H3).
    simpl in H1. rewrite H1, H2, H3, (IH Ho), append_assoc. reflexivity.
Qed.

(** *** Dot segments *)

Definition is_percent (c : ascii) : bool := is_code 37 c.

Lemma to_lower_percent (c : ascii) :
  is_percent c = false -> is_percent (Char.to_lower c) = false.
Proof. by_char c. Qed.

Lemma to_lower_dot (c : ascii) :
  Ascii.eqb (Char.to_lower c) "." = Ascii.eqb c ".".
Proof. by_char c. Qed.

Lemma any_to_lower_percent (s : string) :
  any is_percent s = false -> any is_percent (to_lower s) = false.
Proof.
  induction s as [|c s IH]; simpl; [reflexivity|].
  rewrite !orb_false_iff. intros [Hc Hs].
  split; [apply to_lower_percent, Hc|apply IH, Hs].
Qed.

Lemma eqb_percent (s k : string) :
  any is_percent s = false -> any is_percent k = true -> String.eqb s k = false.
Proof.
  intros Hs Hk. apply String.eqb_neq. intros ->. congruence.
Qed.

(** Without a percent sign the dot segments are [.] and [..] themselves. *)
Lemma single_dot_plain (s : string) :
  any is_percent s = false -> is_single_dot s = String.eqb s ".".
Proof.
  intros Hs. unfold is_single_dot.
  rewrite (eqb_percent (to_lower s) "%2e" (any_to_lower_percent s Hs) eq_refl).
  rewrite orb_false_r.
  destruct s as [|a [|b s]]; try reflexivity; simpl.
  - rewrite to_lower_dot. reflexivity.
  - rewrite to_lower_dot. reflexivity.
Qed.

Lemma double_dot_plain (s : string) :
  any is_percent s = false -> is_double_dot s = String.eqb s "..".
Proof.
  intros Hs. unfold is_double_dot. cbn [existsb].
  rewrite (eqb_percent (to_lower s) ".%2e" (any_to_lower_percent s Hs) eq_refl).
  rewrite (eqb_percent (to_lower s) "%2e." (any_to_lower_percent s Hs) eq_refl).
  rewrite (eqb_percent (to_lower s) "%2e%2e" (any_to_lower_percent s Hs)
             eq_refl).
  rewrite !orb_false_r.
  destruct s as [|a [|b [|c s]]]; try reflexivity; simpl;
    rewrite ?to_lower_dot; reflexivity.
Qed.

(** Outside the [file] scheme a buffer that is no dot segment is appended as
    it is. *)
Lemma end_segment_plain (sep : bool) (path : list string) (buffer : string) :
  is_single_dot buffer = false -> is_double_dot buffer = false ->
  end_segment false sep path buffer = (path ++ [buffer])%list.
Proof.
  intros H1 H2. unfold end_segment. rewrite H1, H2.
  destruct path; [|reflexivity].
  destruct buffer as [|a [|b [|c s]]]; reflexivity.
Qed.

End PathFacts.

(** ** Shorthand, owner and repository name *)

Module ShorthandSpec.

Import JS GitRepoParser StrFacts ParseFacts RegExpFacts URLFacts PathFacts.

(** What the shorthand pattern matches. *)
Lemma test_shorthand_spec (url : string) :
  RegExp.test_shorthand url = true ->
  exists o rp,
    url = o ++ String "/" rp /\ o <> "" /\ rp <> "" /\
    Str.all Char.is_word_hyphen o = true /\
    Str.all Char.is_word_dot_hyphen rp = true.
Proof.
  unfold RegExp.test_shorthand.
  destruct (Str.span Char.is_word_hyphen url) as [o rest] eqn:Hsp.
  apply span_spec in Hsp as (-> & Ho & _).
  rewrite andb_true_iff, negb_true_iff. intros [Hne H].
  destruct rest as [|c rp]; [discriminate|].
  apply andb_true_iff in H as [H Hrp]. apply andb_true_iff in H as [Hc Hn].
  apply negb_true_iff in Hn. apply is_empty_false in Hne, Hn.
  assert (c = "/"%char) as -> by (revert Hc; by_char c).
  exists o, rp. auto.
Qed.

Lemma test_shorthand_intro (o rp : string) :
  o <> "" -> rp <> "" ->
  Str.all Char.is_word_hyphen o = true ->
  Str.all Char.is_word_dot_hyphen rp = true ->
  RegExp.test_shorthand (o ++ String "/" rp) = true.
Proof.
  intros Ho Hrp Hao Harp. unfold RegExp.test_shorthand.
  rewrite (span_app _ o "/" rp Hao eq_refl).
  apply is_empty_false in Ho, Hrp. rewrite Ho, Hrp, Harp. reflexivity.
Qed.

Lemma word_hyphen_char (c : ascii) :
  Char.is_word_hyphen c = true ->
  URL.is_colon c = false /\ is_segment_char c = true /\
  is_percent c = false /\ Ascii.eqb c "." = false.
Proof. by_char c. Qed.

Lemma word_dot_hyphen_char (c : ascii) :
  Char.is_word_dot_hyphen c = true ->
  URL.is_colon c = false /\ is_segment_char c = true /\
  is_percent c = false /\ URL.is_slash c = false.
Proof. by_char c. Qed.

Lemma shorthand_no_colon (url : string) :
  RegExp.test_shorthand url = true -> Str.any URL.is_colon url = false.
Proof.
  intros H. destruct (test_shorthand_spec url H) as (o & rp & -> & _ & _ & Ho & Hrp).
  rewrite any_app. cbn [Str.any].
  rewrite (all_none _ _ o (fun c Hc => proj1 (word_hyphen_char c Hc)) Ho).
  rewrite (all_none _ _ rp (fun c Hc => proj1 (word_dot_hyphen_char c Hc)) Hrp).
  reflexivity.
Qed.

Lemma no_colon_no_scheme_separator (url : string) :
  Str.any URL.is_colon url = false -> Str.includes "://" url = false.
Proof. apply (includes_none URL.is_colon). reflexivity. Qed.

Section Platform.

Variable unicode_to_ascii : string -> option string.

(** What [isValidProvider] returns. *)
Lemma isValidProvider_eq (url : string) :
  isValidProvider unicode_to_ascii url =
  ([], Normal
         match URL.basic_url_parse unicode_to_ascii url with
         | Some u =>
             RegExp.test_literal "github.com" (URL.hostname u)
             || RegExp.test_literal "gitlab.com" (URL.hostname u)
             || RegExp.test_literal "bitbucket.org" (URL.hostname u)
         | None => false
         end).
Proof.
  unfold isValidProvider, new_URL.
  destruct (URL.basic_url_parse unicode_to_ascii url) as [u|]; [|reflexivity].
  cbn. rewrite orb_false_r, orb_assoc. reflexivity.
Qed.

(** C9, as the code has it: [isValidProvider] never throws and causes no
    event; it returns [true] exactly when the input parses as an absolute
    URL whose host name matches one of the three provider patterns.  It
    returns [false] on every input that matches the shorthand pattern
    [owner/repo], indeed on every input without a colon, and on every URL
    whose host name matches none of the patterns. *)
Theorem isValidProvider_spec (url : string) :
  exists b,
    isValidProvider unicode_to_ascii url = ([], Normal b) /\
    (b = true <->
     exists u,
       URL.basic_url_parse unicode_to_ascii url = Some u /\
       (RegExp.test_literal "github.com" (URL.hostname u) = true \/
        RegExp.test_literal "gitlab.com" (URL.hostname u) = true \/
        RegExp.test_literal "bitbucket.org" (URL.hostname u) = true)) /\
    (RegExp.test_shorthand url = true -> b = false) /\
    (Str.any URL.is_colon url = false -> b = false) /\
    (forall u,
       URL.basic_url_parse unicode_to_ascii url = Some u ->
       RegExp.test_literal "github.com" (URL.hostname u) = false ->
       RegExp.test_literal "gitlab.com" (URL.hostname u) = false ->
       RegExp.test_literal "bitbucket.org" (URL.hostname u) = false ->
       b = false).
Proof.
  rewrite isValidProvider_eq. eexists. split; [reflexivity|].
  assert (Hcolon : Str.any URL.is_colon url = false ->
                   match URL.basic_url_parse unicode_to_ascii url with
                   | Some u =>
                       RegExp.test_literal "github.com" (URL.hostname u)
                       || RegExp.test_literal "gitlab.com" (URL.hostname u)
                       || RegExp.test_literal "bitbucket.org" (URL.hostname u)
                   | None => false
                   end = false).
  { intros H. rewrite (no_colon_no_url unicode_to_ascii url H). reflexivity. }
  split; [|split; [|split]].
  - destruct (URL.basic_url_parse unicode_to_ascii url) as [u|].
    + rewrite !orb_true_iff. split.
      * intros H. exists u. split; [reflexivity|tauto].
      * intros (u' & Hu & H). inversion Hu; subst. tauto.
    + split; [discriminate|]. intros (u' & Hu & _). discriminate.
  - intros H. apply Hcolon, shorthand_no_colon, H.
  - exact Hcolon.
  - intros u Hu H1 H2 H3. rewrite Hu, H1, H2, H3. reflexivity.
Qed.

End Platform.

Import Fixtures.

Lemma isValidProvider_spec_witness :
  (RegExp.test_shorthand "user/repo" = true /\
   exists b,
     isValidProvider no_idna "user/repo" = ([], Normal b) /\ b = false)
  /\
  (URL.basic_url_parse no_idna "https://example.com/user/repo"
   = Some (URL.mkURL "https" (Some (URL.Domain "example.com")) None
             (URL.PathList ["user"; "repo"]))
   /\
   exists b,
     isValidProvider no_idna "https://example.com/user/repo"
     = ([], Normal b) /\ b = false)
  /\
  (URL.basic_url_parse no_idna "https://gitlab.com/user/repo"
   = Some (URL.mkURL "https" (Some (URL.Domain "gitlab.com")) None
             (URL.PathList ["user"; "repo"]))
   /\
   exists b,
     isValidProvider no_idna "https://gitlab.com/user/repo"
     = ([], Normal b) /\ b = true).
Proof.
  split; [|split]; (split; [reflexivity|]).
  - destruct (isValidProvider_spec no_idna "user/repo")
      as (b & Hb & _ & Hs & _).
    exists b. split; [exact Hb|]. apply Hs. reflexivity.
  - destruct (isValidProvider_spec no_idna "https://example.com/user/repo")
      as (b & Hb & _ & _ & _ & Hu).
    exists b. split; [exact Hb|].
    apply (Hu (URL.mkURL "https" (Some (URL.Domain "example.com")) None
                 (URL.PathList ["user"; "repo"]))); reflexivity.
  - destruct (isValidProvider_spec no_idna "https://gitlab.com/user/repo")
      as (b & Hb & Ht & _).
    exists b. split; [exact Hb|]. apply Ht.
    exists (URL.mkURL "https" (Some (URL.Domain "gitlab.com")) None
              (URL.PathList ["user"; "repo"])).
    split; [reflexivity|]. right. left. reflexivity.
Defined.

(** An input without [://] that is a URL of a known provider: the URL
    parser does not need the two slashes after the scheme of a special URL.
    Such an input does not match the shorthand pattern, and [parse] rejects
    it at the format step. *)
Lemma isValidProvider_without_slashes :
  isValidProvider no_idna "https:github.com/user/repo" = ([], Normal true) /\
  Str.includes "://" "https:github.com/user/repo" = false /\
  RegExp.test_shorthand "https:github.com/user/repo" = false.
Proof. repeat split. Qed.

End ShorthandSpec.

(** ** Owner and repository name *)

Module OwnerRepoSpec.

Import JS GitRepoParser StrFacts ParseFacts RegExpFacts URLFacts PathFacts.
Import ShorthandSpec.

(** *** The path a parsed URL gives back *)

Lemma split_serialized (segments : list string) :
  Forall (fun x => Str.any URL.is_slash x = false) segments ->
  forall x,
    Str.any URL.is_slash x = false ->
    Str.split "/"
      (x ++ fold_right (fun seg out => String "/" (seg ++ out)) "" segments)
    = x :: segments.
Proof.
  induction segments as [|y r IH]; intros Hall x Hx.
  - cbn [fold_right]. rewrite append_empty_r. apply split_one, Hx.
  - inversion Hall as [|? ? Hy Hr]; subst.
    cbn [fold_right append].
    rewrite split_app, (split_one x Hx), (IH Hr y Hy). reflexivity.
Qed.

Lemma split_pathname (segments : list string) :
  Forall (fun x => Str.any URL.is_slash x = false) segments ->
  segments <> [] ->
  forall s h p,
    Str.split "/" (URL.pathname (URL.mkURL s h p (URL.PathList segments)))
    = "" :: segments.
Proof.
  intros Hall Hne s h p. unfold URL.pathname. cbn [URL.path].
  destruct segments as [|x r]; [congruence|].
  inversion Hall as [|? ? Hx Hr]; subst.
  cbn [fold_right append Str.split].
  change (Ascii.eqb "/" "/") with true. cbv iota.
  rewrite (split_serialized r Hr x Hx). reflexivity.
Qed.

(** The segments [parse] reads are the non-empty segments of the path. *)
Lemma path_segments_list (segments : list string) (s : string)
  (h : option URL.Host) (p : option N) :
  Forall (fun x => Str.any URL.is_slash x = false) segments ->
  path_segments (URL.mkURL s h p (URL.PathList segments))
  = Str.filter_Boolean segments.
Proof.
  intros Hall. unfold path_segments.
  destruct segments as [|x r]; [reflexivity|].
  rewrite (split_pathname (x :: r) Hall ltac:(discriminate)). reflexivity.
Qed.

Lemma word_hyphen_not_dot (o : string) :
  o <> "" -> Str.all Char.is_word_hyphen o = true ->
  URL.is_single_dot o = false /\ URL.is_double_dot o = false.
Proof.
  intros Hne Ho.
  assert (Hp : Str.any is_percent o = false).
  { eapply all_none; [|exact Ho]. intros c Hc. apply (word_hyphen_char c Hc). }
  rewrite (single_dot_plain o Hp), (double_dot_plain o Hp).
  destruct o as [|c o]; [congruence|].
  simpl in Ho. apply andb_true_iff in Ho as [Hc _].
  destruct (word_hyphen_char c Hc) as (_ & _ & _ & Hd).
  simpl. rewrite Hd. auto.
Qed.

Section Platform.

Variable unicode_to_ascii : string -> option string.

(** The URL a shorthand input expands to, parsed. *)
Lemma shorthand_url (o rp : string) :
  o <> "" ->
  Str.all Char.is_word_hyphen o = true ->
  Str.all Char.is_word_dot_hyphen rp = true ->
  URL.basic_url_parse unicode_to_ascii
    ("https://github.com/" ++ o ++ String "/" rp)
  = Some (URL.mkURL "https" (Some (URL.Domain "github.com")) None
            (URL.PathList (URL.end_segment false false [o] rp))).
Proof.
  intros Hne Ho Hrp.
  assert (Hso : Str.all is_segment_char o = true).
  { eapply all_impl; [|exact Ho]. intros c Hc. apply (word_hyphen_char c Hc). }
  assert (Hsr : Str.all is_segment_char rp = true).
  { eapply all_impl; [|exact Hrp]. intros c Hc.
    apply (word_dot_hyphen_char c Hc). }
  change ("https://github.com/" ++ o ++ String "/" rp)
    with ("https://" ++ "github.com" ++ String "/" (o ++ String "/" rp)).
  rewrite parse_https_plain; [|reflexivity|].
  - rewrite (path_state_sep false o rp Hso), (path_state_end false rp Hsr).
    cbn [append].
    destruct (word_hyphen_not_dot o Hne Ho) as [H1 H2].
    rewrite (end_segment_plain true [] o H1 H2). reflexivity.
  - rewrite all_app. cbn [Str.all].
    rewrite (all_impl _ _ _ segment_char_not_space Hso).
    rewrite (all_impl _ _ _ segment_char_not_space Hsr). reflexivity.
Qed.

(** What [extract] finds on a shorthand input. *)
Lemma shorthand_extract (o rp : string) :
  o <> "" -> rp <> "" ->
  Str.all Char.is_word_hyphen o = true ->
  Str.all Char.is_word_dot_hyphen rp = true ->
  extract unicode_to_ascii (o ++ String "/" rp) =
  if String.eqb rp "." || String.eqb rp ".." || String.eqb rp ".git"
  then Throw MissingOwnerOrRepo
  else Normal (URL.mkURL "https" (Some (URL.Domain "github.com")) None
                 (URL.PathList [o; rp]),
               o, RegExp.replace_dot_git rp).
Proof.
  intros Hne Hnr Ho Hrp.
  assert (Hsh : RegExp.test_shorthand (o ++ String "/" rp) = true)
    by (apply test_shorthand_intro; assumption).
  assert (Hinc : Str.includes "://" (o ++ String "/" rp) = false)
    by (apply no_colon_no_scheme_separator, shorthand_no_colon, Hsh).
  unfold extract, accepts, expand. rewrite Hinc, Hsh. cbn [negb].
  rewrite (shorthand_url o rp Hne Ho Hrp).
  assert (Hslo : Str.any URL.is_slash o = false).
  { eapply all_none; [|exact Ho]. intros c Hc.
    destruct (word_hyphen_char c Hc) as (_ & Hs & _). revert Hs. by_char c. }
  assert (Hslr : Str.any URL.is_slash rp = false).
  { eapply all_none; [|exact Hrp]. intros c Hc.
    apply (word_dot_hyphen_char c Hc). }
  assert (Hp : Str.any is_percent rp = false).
  { eapply all_none; [|exact Hrp]. intros c Hc.
    apply (word_dot_hyphen_char c Hc). }
  apply is_empty_false in Hne as Heo. apply is_empty_false in Hnr as Her.
  destruct (String.eqb rp ".") eqn:E1.
  { apply String.eqb_eq in E1. subst rp. cbn [orb].
    change (URL.end_segment false false [o] ".") with ([o; ""]).
    rewrite path_segments_list by (repeat constructor; assumption).
    unfold Str.filter_Boolean. cbn [filter Str.is_empty negb].
    rewrite Heo. reflexivity. }
  destruct (String.eqb rp "..") eqn:E2.
  { apply String.eqb_eq in E2. subst rp. cbn [orb].
    change (URL.end_segment false false [o] "..") with ([""]).
    reflexivity. }
  cbn [orb].
  rewrite (end_segment_plain false [o] rp)
    by (rewrite ?(single_dot_plain rp Hp), ?(double_dot_plain rp Hp);
        assumption).
  cbn [app].
  rewrite path_segments_list by (repeat constructor; assumption).
  assert (Hfb : Str.filter_Boolean [o; rp] = [o; rp])
    by (unfold Str.filter_Boolean; cbn [filter]; rewrite Heo, Her; reflexivity).
  rewrite Hfb. cbn [nth_error option_map]. rewrite Heo. cbn [orb].
  destruct (String.eqb rp ".git") eqn:E3.
  - apply String.eqb_eq in E3. subst rp. reflexivity.
  - destruct (Str.is_empty (RegExp.replace_dot_git rp)) eqn:E4; [|reflexivity].
    apply is_empty_true, replace_dot_git_empty in E4.
    apply String.eqb_neq in E3. destruct E4; congruence.
Qed.

Section Network.

Variable fetch : Request -> Completion Response.

(** What [parse] does with an input that has no [://]. *)
Definition shorthand_outcome (url : string) (options : ParseOptions) : Prop :=
  (RegExp.test_shorthand url = false /\
   parse unicode_to_ascii fetch url options = ([], Throw InvalidFormat))
  \/
  (RegExp.test_shorthand url = true /\
   exists o rp,
     url = o ++ String "/" rp /\
     (((rp = "." \/ rp = ".." \/ rp = ".git") /\
       parse unicode_to_ascii fetch url options
       = ([], Throw MissingOwnerOrRepo))
      \/
      (rp <> "." /\ rp <> ".." /\ rp <> ".git" /\
       exists r,
         completion (parse unicode_to_ascii fetch url options) = Normal r /\
         provider (metadata r) = github /\
         owner (metadata r) = o /\
         repo (metadata r) = RegExp.replace_dot_git rp /\
         normalizedUrl r
         = "https://github.com/" ++ o ++ "/" ++ RegExp.replace_dot_git rp))).

(** C1, as the code has it: an input without [://] that does not match the
    shorthand pattern fails with InvalidFormat.  One that matches it is
    [owner/repo]; [parse] succeeds on it, with provider github, unless
    [repo] is [.], [..] or [.git], and then it fails with
    MissingOwnerOrRepo. *)
Theorem shorthand_parse (url : string) (options : ParseOptions) :
  Str.includes "://" url = false -> shorthand_outcome url options.
Proof.
  intros Hinc. unfold shorthand_outcome.
  destruct (RegExp.test_shorthand url) eqn:Hsh.
  - right. split; [reflexivity|].
    destruct (test_shorthand_spec url Hsh) as (o & rp & -> & Hne & Hnr & Ho & Hrp).
    exists o, rp. split; [reflexivity|].
    pose proof (shorthand_extract o rp Hne Hnr Ho Hrp) as He.
    destruct (String.eqb rp ".") eqn:E1.
    { left. apply String.eqb_eq in E1. split; [auto|].
      apply parse_throws. exact He. }
    destruct (String.eqb rp "..") eqn:E2.
    { left. apply String.eqb_eq in E2. split; [auto|].
      apply parse_throws. exact He. }
    destruct (String.eqb rp ".git") eqn:E3.
    { left. apply String.eqb_eq in E3. split; [auto|].
      apply parse_throws. exact He. }
    right. cbn [orb] in He.
    apply String.eqb_neq in E1, E2, E3.
    split; [exact E1|]. split; [exact E2|]. split; [exact E3|].
    destruct (parse_succeeds unicode_to_ascii fetch _ options _ _ _ He)
      as (v & _ & Hp).
    eexists. split; [exact Hp|]. repeat split.
  - left. split; [reflexivity|]. apply parse_throws.
    unfold extract, accepts. rewrite Hinc, Hsh. reflexivity.
Qed.

(** How [parse] ends on an input the format step accepted, by what the path
    of the URL yields. *)
Definition owner_repo_outcome (url : string) (options : ParseOptions) : Prop :=
  exists u,
    URL.basic_url_parse unicode_to_ascii (expand url) = Some u /\
    let first := nth_error (path_segments u) 0 in
    let second :=
      option_map RegExp.replace_dot_git (nth_error (path_segments u) 1) in
    (truthy first && truthy second = false ->
     parse unicode_to_ascii fetch url options
     = ([], Throw MissingOwnerOrRepo)) /\
    (truthy first && truthy second = true ->
     exists r,
       completion (parse unicode_to_ascii fetch url options) = Normal r /\
       first = Some (owner (metadata r)) /\
       second = Some (repo (metadata r))).

(** C6: a successful result has a non-empty owner and a non-empty repo; and
    once the format step has accepted the input, the expanded URL parses,
    and [parse] fails with MissingOwnerOrRepo whenever the first non-empty
    segment of its path, or the second with a trailing [.git] removed, is
    missing or empty. *)
Theorem owner_and_repo_or_failure (url : string) (options : ParseOptions) :
  (forall r,
     completion (parse unicode_to_ascii fetch url options) = Normal r ->
     owner (metadata r) <> "" /\ repo (metadata r) <> "") /\
  (accepts unicode_to_ascii url = true -> owner_repo_outcome url options).
Proof.
  split.
  - intros r Hr.
    destruct (parse_normal _ _ _ _ _ Hr) as (u & o & c & v & He & _ & ->).
    destruct (extract_normal _ _ _ _ _ He) as (_ & _ & _ & _ & Ho & Hc).
    auto.
  - intros Ha. unfold owner_repo_outcome.
    assert (Hu : exists u,
               URL.basic_url_parse unicode_to_ascii (expand url) = Some u).
    { unfold accepts in Ha. unfold expand.
      destruct (Str.includes "://" url) eqn:Hinc; cbn [negb].
      - destruct (URL.basic_url_parse unicode_to_ascii url) as [u|];
          [eauto|discriminate].
      - destruct (test_shorthand_spec url Ha)
          as (o & rp & -> & Hne & _ & Ho & Hrp).
        rewrite (shorthand_url o rp Hne Ho Hrp). eauto. }
    destruct Hu as [u Hu]. exists u. split; [exact Hu|]. cbn zeta.
    assert (He : extract unicode_to_ascii url
                 = match nth_error (path_segments u) 0,
                         option_map RegExp.replace_dot_git
                           (nth_error (path_segments u) 1) with
                   | Some o, Some c =>
                       if Str.is_empty o || Str.is_empty c
                       then Throw MissingOwnerOrRepo else Normal (u, o, c)
                   | _, _ => Throw MissingOwnerOrRepo
                   end)
      by (unfold extract; rewrite Ha, Hu; reflexivity).
    destruct (nth_error (path_segments u) 0) as [o|];
      destruct (option_map RegExp.replace_dot_git
                  (nth_error (path_segments u) 1)) as [c|];
      cbn [truthy andb]; try (split; [intros _|discriminate];
                              apply parse_throws; exact He).
    + destruct (Str.is_empty o); destruct (Str.is_empty c); cbn in *;
        try (split; [intros _|discriminate]; apply parse_throws; exact He).
      split; [discriminate|]. intros _.
      destruct (parse_succeeds unicode_to_ascii fetch _ options _ _ _ He)
        as (v & _ & Hp).
      eexists. split; [exact Hp|]. split; reflexivity.
    + destruct (negb (Str.is_empty o)); cbn;
        split; try discriminate; intros _; apply parse_throws; exact He.
Qed.

End Network.

End Platform.

Import Fixtures.

(** A repository name that is only [.git] passes the pattern and leaves no
    repository name. *)
Lemma shorthand_dot_git_fails :
  Str.includes "://" "user/.git" = false /\
  RegExp.test_shorthand "user/.git" = true /\
  parse no_idna fetch_public "user/.git" no_options
  = ([], Throw MissingOwnerOrRepo).
Proof. repeat split. Qed.

Lemma shorthand_parse_witness :
  Str.includes "://" "user/repo" = false /\
  shorthand_outcome no_idna fetch_public "user/repo" no_options.
Proof.
  split; [reflexivity|].
  apply (shorthand_parse no_idna fetch_public "user/repo" no_options).
  reflexivity.
Defined.

Lemma owner_and_repo_or_failure_witness :
  (completion (parse no_idna fetch_public "https://github.com/user/repo.git"
                 no_options)
   = Normal (mkParsed (mkMetadata "user" "repo" None None github (Bool false))
               "https://github.com/user/repo"
               "https://github.com/user/repo.git")
   /\ "user" <> "" /\ "repo" <> "")
  /\
  accepts no_idna "https://example.com/user" = true /\
  owner_repo_outcome no_idna fetch_public "https://example.com/user"
    no_options.
Proof.
  split; [split; [reflexivity|]|split; [reflexivity|]].
  - apply (proj1 (owner_and_repo_or_failure no_idna fetch_public
                    "https://github.com/user/repo.git" no_options)
             (mkParsed
                (mkMetadata "user" "repo" None None github (Bool false))
                "https://github.com/user/repo"
                "https://github.com/user/repo.git")).
    reflexivity.
  - apply (proj2 (owner_and_repo_or_failure no_idna fetch_public
                    "https://example.com/user" no_options)).
    reflexivity.
Defined.

End OwnerRepoSpec.

(** ** Host names have no slash *)

Module HostFacts.

Import Char Str StrFacts URL URLFacts PathFacts.

Local Open Scope N_scope.

Definition below (k : nat) : list N := List.map N.of_nat (seq 0 k).

Lemma in_below (k : nat) (n : N) : n < N.of_nat k -> In n (below k).
Proof.
  intros H. unfold below. apply in_map_iff. exists (N.to_nat n).
  split; [apply N2Nat.id|]. apply in_seq. lia.
Qed.

(** A test that holds of every number below [k], by trying them. *)
Lemma checked_below (k : nat) (P : N -> bool) :
  forallb P (below k) = true -> forall n, n < N.of_nat k -> P n = true.
Proof.
  intros H n Hn. rewrite forallb_forall in H. apply H, in_below, Hn.
Qed.

Lemma decimal_byte_no_slash (n : N) :
  n < 256 -> any is_slash (decimal_byte n) = false.
Proof.
  intros H. apply negb_true_iff.
  apply (checked_below 256 (fun n => negb (any is_slash (decimal_byte n))));
    [vm_compute; reflexivity|exact H].
Qed.

Lemma ipv4_serialize_no_slash (a : N) : any is_slash (ipv4_serialize a) = false.
Proof.
  unfold ipv4_serialize. repeat rewrite any_app. cbn [any].
  rewrite !decimal_byte_no_slash by (apply N.mod_lt; discriminate).
  reflexivity.
Qed.

Lemma hex_lower_no_slash (n : N) : n < 16 -> is_slash (hex_lower_of n) = false.
Proof.
  intros H. apply negb_true_iff.
  apply (checked_below 16 (fun n => negb (is_slash (hex_lower_of n))));
    [vm_compute; reflexivity|exact H].
Qed.

Lemma hex_piece_no_slash (p : N) : any is_slash (hex_piece p) = false.
Proof.
  unfold hex_piece.
  destruct (4096 <=? p); [|destruct (256 <=? p); [|destruct (16 <=? p)]];
    cbn [any];
    rewrite !hex_lower_no_slash by (apply N.mod_lt; discriminate);
    reflexivity.
Qed.

Lemma ipv6_pieces_no_slash (compress : option nat) (pieces : list N) :
  forall ignore0 pieceIndex,
    any is_slash (ipv6_pieces compress ignore0 pieceIndex pieces) = false.
Proof.
  induction pieces as [|p r IH]; intros ignore0 pieceIndex; [reflexivity|].
  cbn [ipv6_pieces].
  destruct (ignore0 && (p =? 0)); [apply IH|].
  destruct (is_index compress pieceIndex).
  - rewrite any_app, IH. destruct (pieceIndex =? 0)%nat; reflexivity.
  - rewrite !any_app, IH, hex_piece_no_slash.
    destruct (pieceIndex =? 7)%nat; reflexivity.
Qed.

Lemma percent_encode_byte_no_slash (c : ascii) :
  any is_slash (percent_encode_byte c) = false.
Proof. by_char c. Qed.

Lemma percent_encode_no_slash (set : ascii -> bool) (s : string) :
  any is_slash s = false -> any is_slash (percent_encode set s) = false.
Proof.
  induction s as [|c s IH]; simpl; [reflexivity|].
  rewrite orb_false_iff. intros [Hc Hs]. rewrite any_app, (IH Hs).
  unfold encode_with. destruct (set c).
  - rewrite percent_encode_byte_no_slash. reflexivity.
  - simpl. rewrite Hc. reflexivity.
Qed.

Lemma any_weaken (p q : ascii -> bool) (s : string) :
  (forall c, q c = true -> p c = true) -> any p s = false -> any q s = false.
Proof.
  intros Hqp. induction s as [|c s IH]; simpl; [reflexivity|].
  rewrite !orb_false_iff. intros [Hc Hs]. split; [|auto].
  destruct (q c) eqn:E; [|reflexivity]. rewrite (Hqp c E) in Hc. discriminate.
Qed.

Lemma slash_forbidden_host (c : ascii) :
  is_slash c = true -> forbidden_host_code_point c = true.
Proof. by_char c. Qed.

Lemma slash_forbidden_domain (c : ascii) :
  is_slash c = true -> forbidden_domain_code_point c = true.
Proof. by_char c. Qed.

Definition host_ok (h : Host) : Prop :=
  any is_slash (host_serialize h) = false.

Section Parser.

Variable unicode_to_ascii : string -> option string.

Lemma host_parse_ok (isOpaque : bool) (input : string) (h : Host) :
  host_parse unicode_to_ascii isOpaque input = Some h -> host_ok h.
Proof.
  unfold host_parse, host_ok.
  destruct (starts_with "[" input).
  - destruct (negb (ends_with "]" input)); [discriminate|].
    destruct (ipv6_parse _) as [pieces|]; [|discriminate].
    intros H; inversion H; subst. cbn [host_serialize].
    rewrite !any_app. unfold ipv6_serialize.
    rewrite ipv6_pieces_no_slash. reflexivity.
  - destruct isOpaque.
    + unfold opaque_host_parse.
      destruct (any forbidden_host_code_point input) eqn:Hf; [discriminate|].
      intros H; inversion H; subst.
      destruct (is_empty _); [reflexivity|]. cbn [host_serialize].
      apply percent_encode_no_slash.
      exact (any_weaken _ _ _ slash_forbidden_host Hf).
    + destruct (domain_to_ascii unicode_to_ascii (percent_decode input))
        as [d|]; [|discriminate].
      destruct (any forbidden_domain_code_point d) eqn:Hf; [discriminate|].
      destruct (ends_in_number d).
      * destruct (ipv4_parse d) as [a|]; [|discriminate].
        intros H; inversion H; subst. apply ipv4_serialize_no_slash.
      * intros H; inversion H; subst. cbn [host_serialize].
        exact (any_weaken _ _ _ slash_forbidden_domain Hf).
Qed.

Definition url_host_ok (u : URLRecord) : Prop :=
  any is_slash (hostname u) = false.

Lemma host_state_ok (sch : string) (special : bool) (buffer rest : string)
  (u : URLRecord) :
  host_state unicode_to_ascii sch special buffer rest = Some u ->
  url_host_ok u.
Proof.
  unfold host_state, url_host_ok.
  destruct (host_scan false buffer) as [hb after].
  destruct after as [|c portBuffer].
  - destruct (special && is_empty hb); [discriminate|].
    destruct (host_parse _ _ hb) as [h|] eqn:Hh; [|discriminate].
    intros H; inversion H; subst. exact (host_parse_ok _ _ _ Hh).
  - destruct (is_empty hb); [discriminate|].
    destruct (host_parse _ _ hb) as [h|] eqn:Hh; [|discriminate].
    destruct (negb (all is_digit portBuffer)); [discriminate|].
    destruct (65535 <? parse_radix 10 portBuffer); [discriminate|].
    intros H; inversion H; subst. exact (host_parse_ok _ _ _ Hh).
Qed.

Lemma authority_state_ok (sch : string) (special : bool) (s : string)
  (u : URLRecord) :
  authority_state unicode_to_ascii sch special s = Some u -> url_host_ok u.
Proof.
  unfold authority_state.
  destruct (span _ s) as [authority rest].
  destruct (after_last_at authority) as [seen buffer].
  destruct (seen && is_empty buffer); [discriminate|].
  apply host_state_ok.
Qed.

Lemma file_host_state_ok (s : string) (u : URLRecord) :
  file_host_state unicode_to_ascii s = Some u -> url_host_ok u.
Proof.
  unfold file_host_state, url_host_ok.
  destruct (span _ s) as [buffer rest].
  destruct (is_windows_drive_letter buffer);
    [intros H; inversion H; reflexivity|].
  destruct (is_empty buffer); [intros H; inversion H; reflexivity|].
  destruct (host_parse _ _ buffer) as [h|] eqn:Hh; [|discriminate].
  pose proof (host_parse_ok _ _ _ Hh) as Hok.
  intros H; inversion H; subst. unfold hostname. cbn [host file_url].
  destruct h as [d| | | |]; try exact Hok.
  destruct (String.eqb d "localhost"); [reflexivity|exact Hok].
Qed.

Lemma file_state_ok (s : string) (u : URLRecord) :
  file_state unicode_to_ascii s = Some u -> url_host_ok u.
Proof.
  unfold file_state, url_host_ok.
  destruct s as [|c t]; [intros H; inversion H; reflexivity|].
  destruct (is_slash c || is_backslash c);
    [|intros H; inversion H; reflexivity].
  destruct t as [|c' t']; [intros H; inversion H; reflexivity|].
  destruct (is_slash c' || is_backslash c');
    [apply file_host_state_ok|intros H; inversion H; reflexivity].
Qed.

(** The host name of a parsed URL has no slash. *)
Lemma hostname_no_slash (s : string) (u : URLRecord) :
  basic_url_parse unicode_to_ascii s = Some u ->
  any is_slash (hostname u) = false.
Proof.
  unfold basic_url_parse.
  destruct (scheme_state _) as [[sch remaining]|]; [|discriminate].
  destruct (String.eqb sch "file"); [apply file_state_ok|].
  destruct (is_special sch); [apply authority_state_ok|].
  destruct remaining as [|c t]; [intros H; inversion H; reflexivity|].
  destruct (is_slash c); [|intros H; inversion H; reflexivity].
  destruct t as [|c' t']; [intros H; inversion H; reflexivity|].
  destruct (is_slash c');
    [apply authority_state_ok|intros H; inversion H; reflexivity].
Qed.

End Parser.

End HostFacts.

(** ** The normalized URL *)

Module NormalizedUrlSpec.

Import JS GitRepoParser StrFacts ParseFacts RegExpFacts URLFacts PathFacts.
Import HostFacts.

Lemma any_replace_dot_git (p : ascii -> bool) (s : string) :
  Str.any p s = false -> Str.any p (RegExp.replace_dot_git s) = false.
Proof.
  induction s as [|c s IH]; [reflexivity|].
  cbn [RegExp.replace_dot_git Str.any].
  destruct (String.eqb (String c s) ".git"); [reflexivity|].
  rewrite !orb_false_iff. intros [Hc Hs]. cbn [Str.any].
  rewrite Hc, (IH Hs). reflexivity.
Qed.

Lemma split_normalized (h o c : string) :
  Str.any URL.is_slash h = false -> Str.any URL.is_slash o = false ->
  Str.any URL.is_slash c = false ->
  Str.split "/" ("https://" ++ h ++ "/" ++ o ++ "/" ++ c)
  = ["https:"; ""; h; o; c].
Proof.
  intros Hh Ho Hc.
  change ("https://" ++ h ++ "/" ++ o ++ "/" ++ c)
    with ("https:" ++ String "/"
            ("" ++ String "/" (h ++ String "/" (o ++ String "/" c)))).
  rewrite !split_app, (split_one h Hh), (split_one o Ho), (split_one c Hc).
  reflexivity.
Qed.

Lemma middle_piece (w a b c d e : string) (before after : list string) :
  (before ++ w :: after)%list = [a; b; c; d; e] ->
  before <> [] -> after <> [] -> w = b \/ w = c \/ w = d.
Proof.
  intros H Hb Ha.
  destruct before as [|x1 [|x2 [|x3 [|x4 [|x5 r]]]]];
    cbn in H; inversion H; subst; auto; try congruence.
  destruct r; discriminate.
Qed.

(** A text [/w/..] occurs in [https://h/o/c] only if [w] is empty, the host
    or the owner. *)
Lemma includes_normalized (w x h o c : string) :
  Str.any URL.is_slash w = false ->
  Str.any URL.is_slash h = false -> Str.any URL.is_slash o = false ->
  Str.any URL.is_slash c = false ->
  w <> "" -> w <> h -> w <> o ->
  Str.includes (String "/" (w ++ String "/" x))
    ("https://" ++ h ++ "/" ++ o ++ "/" ++ c) = false.
Proof.
  intros Hw Hh Ho Hc Hne Hwh Hwo.
  destruct (Str.includes _ _) eqn:E; [|reflexivity].
  destruct (includes_piece w x _ Hw E) as (before & after & Hs & Hb & Ha).
  rewrite (split_normalized h o c Hh Ho Hc) in Hs.
  destruct (middle_piece _ _ _ _ _ _ _ _ (eq_sym Hs) Hb Ha) as [H|[H|H]];
    congruence.
Qed.

Section Platform.

Variable unicode_to_ascii : string -> option string.

(** Host, owner and repo of a successful [extract] have no slash. *)
Lemma extract_no_slash (url : string) (u : URL.URLRecord) (o c : string) :
  extract unicode_to_ascii url = Normal (u, o, c) ->
  Str.any URL.is_slash (URL.hostname u) = false /\
  Str.any URL.is_slash o = false /\ Str.any URL.is_slash c = false.
Proof.
  intros He.
  destruct (extract_normal _ _ _ _ _ He)
    as (_ & Hu & Ho & (rp & Hrp & ->) & _ & _).
  split; [exact (hostname_no_slash _ _ _ Hu)|].
  apply nth_error_In, filter_Boolean_In in Ho as [Ho _].
  apply nth_error_In, filter_Boolean_In in Hrp as [Hrp _].
  split; [exact (split_pieces _ _ Ho)|].
  apply any_replace_dot_git. exact (split_pieces _ _ Hrp).
Qed.

(** C3, as the code has it: the normalized URL of a successful [parse] is
    exactly [https://<host>/<owner>/<repo>], with the host name of the
    expanded URL, and none of the three parts has a slash.  So it contains
    [/tree/<branch>] only when the host name or the owner is [tree], and
    [/commit/<commit>] only when the host name or the owner is [commit]. *)
Theorem normalizedUrl_shape
  (fetch : Request -> Completion Response) (url : string)
  (options : ParseOptions) (r : ParsedGitUrl) :
  completion (parse unicode_to_ascii fetch url options) = Normal r ->
  exists u,
    URL.basic_url_parse unicode_to_ascii (expand url) = Some u /\
    normalizedUrl r
    = "https://" ++ URL.hostname u ++ "/" ++ owner (metadata r) ++ "/"
      ++ repo (metadata r) /\
    Str.any URL.is_slash (URL.hostname u) = false /\
    Str.any URL.is_slash (owner (metadata r)) = false /\
    Str.any URL.is_slash (repo (metadata r)) = false /\
    (forall b,
       branch (metadata r) = Some b ->
       URL.hostname u <> "tree" -> owner (metadata r) <> "tree" ->
       Str.includes ("/tree/" ++ b) (normalizedUrl r) = false) /\
    (forall c,
       commit (metadata r) = Some c ->
       URL.hostname u <> "commit" -> owner (metadata r) <> "commit" ->
       Str.includes ("/commit/" ++ c) (normalizedUrl r) = false).
Proof.
  intros Hr.
  destruct (parse_normal _ _ _ _ _ Hr) as (u & o & c & v & He & _ & ->).
  destruct (extract_no_slash url u o c He) as (Hh & Ho & Hc).
  exists u. cbn [normalizedUrl metadata owner repo branch commit result_of].
  split; [apply (extract_normal _ _ _ _ _ He)|].
  split; [reflexivity|]. split; [exact Hh|]. split; [exact Ho|].
  split; [exact Hc|]. split.
  - intros b _ H1 H2.
    apply (includes_normalized "tree" b); auto; congruence.
  - intros k _ H1 H2.
    apply (includes_normalized "commit" k); auto; congruence.
Qed.

End Platform.

Import Fixtures.

(** A repository whose owner is named [tree]: the branch read from the URL
    is in the normalized URL. *)
Lemma branch_segment_in_normalizedUrl :
  returned (parse no_idna fetch_public "https://github.com/tree/main"
              no_options)
  = Some (mkParsed
            (mkMetadata "tree" "main" (Some "main") None github (Bool false))
            "https://github.com/tree/main" "https://github.com/tree/main")
  /\ Str.includes ("/tree/" ++ "main") "https://github.com/tree/main" = true.
Proof. split; reflexivity. Qed.

Lemma normalizedUrl_shape_witness :
  completion (parse no_idna fetch_public
                "https://github.com/user/repo/tree/main" no_options)
  = Normal (mkParsed
              (mkMetadata "user" "repo" (Some "main") None github (Bool false))
              "https://github.com/user/repo"
              "https://github.com/user/repo/tree/main")
  /\
  exists u,
    URL.basic_url_parse no_idna
      (expand "https://github.com/user/repo/tree/main") = Some u /\
    "https://github.com/user/repo"
    = "https://" ++ URL.hostname u ++ "/" ++ "user" ++ "/" ++ "repo" /\
    Str.any URL.is_slash (URL.hostname u) = false /\
    Str.any URL.is_slash "user" = false /\
    Str.any URL.is_slash "repo" = false /\
    (forall b,
       Some "main" = Some b ->
       URL.hostname u <> "tree" -> "user" <> "tree" ->
       Str.includes ("/tree/" ++ b) "https://github.com/user/repo" = false) /\
    (forall c,
       @None string = Some c ->
       URL.hostname u <> "commit" -> "user" <> "commit" ->
       Str.includes ("/commit/" ++ c) "https://github.com/user/repo" = false).
Proof.
  split; [reflexivity|].
  apply (normalizedUrl_shape no_idna fetch_public
           "https://github.com/user/repo/tree/main" no_options
           (mkParsed
              (mkMetadata "user" "repo" (Some "main") None github (Bool false))
              "https://github.com/user/repo"
              "https://github.com/user/repo/tree/main")).
  reflexivity.
Defined.

End NormalizedUrlSpec.

(** ** Normalizing twice *)

Module IdempotenceSpec.

Import JS GitRepoParser StrFacts ParseFacts RegExpFacts URLFacts PathFacts.
Import OwnerRepoSpec.

(** *** What path state leaves in a segment *)

(** A character of a segment of a parsed path: it is not [/] and needs no
    percent-encoding. *)
Definition is_output_char (c : ascii) : bool :=
  negb (URL.path_set c) && negb (URL.is_slash c).

Definition segment_ok (seg : string) : bool :=
  Str.all is_output_char seg && negb (URL.is_single_dot seg)
  && negb (URL.is_double_dot seg).

Lemma segment_ok_spec (seg : string) :
  segment_ok seg = true ->
  Str.all is_output_char seg = true /\ URL.is_single_dot seg = false /\
  URL.is_double_dot seg = false.
Proof.
  unfold segment_ok. rewrite !andb_true_iff, !negb_true_iff. tauto.
Qed.

Lemma encode_output (c : ascii) :
  URL.is_slash c = false ->
  Str.all is_output_char (URL.encode_with URL.path_set c) = true.
Proof. by_char c. Qed.

Lemma drive_letter_ok (a b : ascii) :
  URL.is_windows_drive_letter (String a (String b "")) = true ->
  segment_ok (String a (String ":" "")) = true.
Proof.
  cbn [URL.is_windows_drive_letter]. rewrite andb_true_iff. intros [Ha _].
  revert Ha. by_char a.
Qed.

Lemma alpha_output (c : ascii) :
  Char.is_alpha c = true -> is_output_char c = true.
Proof. by_char c. Qed.

Lemma drive_mark_output (c : ascii) :
  URL.is_colon c || Char.is_code 124 c = true -> is_output_char c = true.
Proof. by_char c. Qed.

Lemma output_char_not_slash (c : ascii) :
  is_output_char c = true -> URL.is_slash c = false.
Proof. by_char c. Qed.

Lemma segment_char_split (c : ascii) :
  is_output_char c = true -> URL.is_backslash c = false ->
  is_segment_char c = true.
Proof. by_char c. Qed.

Lemma all_segment_char (s : string) :
  Str.all is_output_char s = true -> Str.any URL.is_backslash s = false ->
  Str.all is_segment_char s = true.
Proof.
  induction s as [|c s IH]; simpl; [reflexivity|].
  rewrite andb_true_iff, orb_false_iff. intros [Hc Hs] [Hb Hbs].
  rewrite (segment_char_split c Hc Hb), (IH Hs Hbs). reflexivity.
Qed.

Lemma all_replace_dot_git (p : ascii -> bool) (s : string) :
  Str.all p s = true -> Str.all p (RegExp.replace_dot_git s) = true.
Proof.
  induction s as [|c s IH]; [reflexivity|].
  cbn [RegExp.replace_dot_git Str.all].
  destruct (String.eqb (String c s) ".git"); [reflexivity|].
  rewrite !andb_true_iff. intros [Hc Hs]. cbn [Str.all].
  rewrite Hc, (IH Hs). reflexivity.
Qed.

Definition segments_ok (path : list string) : Prop :=
  Forall (fun seg => segment_ok seg = true) path.

Lemma segments_ok_removelast (path : list string) :
  segments_ok path -> segments_ok (removelast path).
Proof.
  unfold segments_ok. induction path as [|x r IH]; intros H; [constructor|].
  inversion H; subst. cbn [removelast].
  destruct r; [constructor|]. constructor; auto.
Qed.

Lemma segments_ok_snoc (path : list string) (seg : string) :
  segments_ok path -> segment_ok seg = true -> segments_ok (path ++ [seg]).
Proof.
  intros Hp Hs. apply Forall_app. split; [exact Hp|].
  constructor; [exact Hs|constructor].
Qed.

Lemma shorten_ok (file : bool) (path : list string) :
  segments_ok path -> segments_ok (URL.shorten file path).
Proof.
  intros H. unfold URL.shorten.
  destruct path as [|p [|q r]]; try (apply segments_ok_removelast, H).
  destruct (file && URL.is_normalized_windows_drive_letter p);
    [exact H|constructor].
Qed.

Lemma end_segment_ok (file sep : bool) (path : list string) (buffer : string) :
  segments_ok path -> Str.all is_output_char buffer = true ->
  segments_ok (URL.end_segment file sep path buffer).
Proof.
  intros Hp Hb. unfold URL.end_segment.
  destruct (URL.is_double_dot buffer) eqn:Hdd.
  { destruct sep; [apply shorten_ok, Hp|].
    apply segments_ok_snoc; [apply shorten_ok, Hp|reflexivity]. }
  destruct (URL.is_single_dot buffer) eqn:Hsd.
  { destruct sep; [exact Hp|]. apply segments_ok_snoc; [exact Hp|reflexivity]. }
  assert (Hok : segment_ok buffer = true)
    by (unfold segment_ok; rewrite Hb, Hsd, Hdd; reflexivity).
  apply segments_ok_snoc; [exact Hp|].
  destruct path; [|exact Hok].
  destruct buffer as [|a [|b [|c s]]]; try exact Hok.
  destruct (file && URL.is_windows_drive_letter (String a (String b "")))
    eqn:Hd; [|exact Hok].
  apply andb_true_iff in Hd as [_ Hd]. exact (drive_letter_ok a b Hd).
Qed.

Lemma path_state_ok (special file : bool) (s : string) :
  forall path buffer,
    segments_ok path -> Str.all is_output_char buffer = true ->
    segments_ok (URL.path_state special file path buffer s).
Proof.
  induction s as [|c s IH]; intros path buffer Hp Hb; cbn [URL.path_state].
  - apply end_segment_ok; assumption.
  - destruct (URL.is_slash c || special && URL.is_backslash c) eqn:Hsep.
    + apply IH; [apply end_segment_ok; assumption|reflexivity].
    + destruct (URL.is_question c || URL.is_hash c).
      * apply end_segment_ok; assumption.
      * apply IH; [exact Hp|]. rewrite all_app, Hb.
        apply orb_false_iff in Hsep as [Hsl _].
        rewrite (encode_output c Hsl). reflexivity.
Qed.

Lemma path_start_state_ok (special file : bool) (s : string) :
  segments_ok (URL.path_start_state special file s).
Proof.
  unfold URL.path_start_state.
  destruct s as [|c t].
  - destruct special; [|constructor].
    apply path_state_ok; [constructor|reflexivity].
  - destruct special.
    + destruct (URL.is_slash c || URL.is_backslash c);
        apply path_state_ok; (constructor || reflexivity).
    + destruct (URL.is_question c || URL.is_hash c); [constructor|].
      destruct (URL.is_slash c);
        apply path_state_ok; (constructor || reflexivity).
Qed.

(** A parsed URL has a list of good segments for its path, or no host. *)
Definition url_path_ok (u : URL.URLRecord) : Prop :=
  match URL.path u with
  | URL.PathList segments => segments_ok segments
  | URL.OpaquePath _ => URL.hostname u = ""
  end.

Section Parser.

Variable unicode_to_ascii : string -> option string.

Lemma host_state_path (sch : string) (special : bool) (buffer rest : string)
  (u : URL.URLRecord) :
  URL.host_state unicode_to_ascii sch special buffer rest = Some u ->
  url_path_ok u.
Proof.
  unfold URL.host_state, url_path_ok.
  destruct (URL.host_scan false buffer) as [hb after].
  destruct after as [|c portBuffer].
  - destruct (special && Str.is_empty hb); [discriminate|].
    destruct (URL.host_parse _ _ hb) as [h|]; [|discriminate].
    intros H; injection H as <-. apply path_start_state_ok.
  - destruct (Str.is_empty hb); [discriminate|].
    destruct (URL.host_parse _ _ hb) as [h|]; [|discriminate].
    destruct (negb (Str.all Char.is_digit portBuffer)); [discriminate|].
    destruct (N.ltb 65535 (URL.parse_radix 10 portBuffer)); [discriminate|].
    intros H; injection H as <-. apply path_start_state_ok.
Qed.

Lemma authority_state_path (sch : string) (special : bool) (s : string)
  (u : URL.URLRecord) :
  URL.authority_state unicode_to_ascii sch special s = Some u ->
  url_path_ok u.
Proof.
  unfold URL.authority_state.
  destruct (Str.span _ s) as [authority rest].
  destruct (URL.after_last_at authority) as [seen buffer].
  destruct (seen && Str.is_empty buffer); [discriminate|].
  apply host_state_path.
Qed.

Lemma file_host_state_path (s : string) (u : URL.URLRecord) :
  URL.file_host_state unicode_to_ascii s = Some u -> url_path_ok u.
Proof.
  unfold URL.file_host_state, url_path_ok.
  destruct (Str.span _ s) as [buffer rest].
  destruct (URL.is_windows_drive_letter buffer) eqn:Hd.
  { intros H; injection H as <-. cbn [URL.path URL.file_url].
    apply path_state_ok; [constructor|].
    destruct buffer as [|a [|b [|c t]]]; try discriminate Hd.
    cbn [URL.is_windows_drive_letter] in Hd.
    apply andb_true_iff in Hd as [Ha Hb]. cbn [Str.all].
    rewrite (alpha_output a Ha), (drive_mark_output b Hb). reflexivity. }
  destruct (Str.is_empty buffer).
  { intros H; injection H as <-. apply path_start_state_ok. }
  destruct (URL.host_parse _ _ buffer) as [h|]; [|discriminate].
  intros H; injection H as <-. apply path_start_state_ok.
Qed.

Lemma file_path_ok (h : URL.Host) (t : string) :
  url_path_ok (URL.file_url h (URL.path_state true true [] "" t)).
Proof. apply path_state_ok; [constructor|reflexivity]. Qed.

Lemma file_state_path (s : string) (u : URL.URLRecord) :
  URL.file_state unicode_to_ascii s = Some u -> url_path_ok u.
Proof.
  unfold URL.file_state.
  destruct s as [|c t];
    [intros H; injection H as <-; exact (file_path_ok _ "")|].
  destruct (URL.is_slash c || URL.is_backslash c);
    [|intros H; injection H as <-; exact (file_path_ok _ (String c t))].
  destruct t as [|c' t'];
    [intros H; injection H as <-; exact (file_path_ok _ "")|].
  destruct (URL.is_slash c' || URL.is_backslash c');
    [apply file_host_state_path|].
  intros H; injection H as <-. exact (file_path_ok _ (String c' t')).
Qed.

Lemma plain_path_ok (sch : string) (t : string) :
  url_path_ok
    (URL.mkURL sch None None
       (URL.PathList (URL.path_state false false [] "" t))).
Proof. apply path_state_ok; [constructor|reflexivity]. Qed.

Lemma basic_url_parse_path (s : string) (u : URL.URLRecord) :
  URL.basic_url_parse unicode_to_ascii s = Some u -> url_path_ok u.
Proof.
  unfold URL.basic_url_parse.
  destruct (URL.scheme_state _) as [[sch remaining]|]; [|discriminate].
  destruct (String.eqb sch "file"); [apply file_state_path|].
  destruct (URL.is_special sch); [apply authority_state_path|].
  destruct remaining as [|c t]; [intros H; injection H as <-; reflexivity|].
  destruct (URL.is_slash c); [|intros H; injection H as <-; reflexivity].
  destruct t as [|c' t'];
    [intros H; injection H as <-; exact (plain_path_ok sch "")|].
  destruct (URL.is_slash c'); [apply authority_state_path|].
  intros H; injection H as <-. exact (plain_path_ok sch (String c' t')).
Qed.

End Parser.

Lemma filter_Boolean_pair (o c : string) :
  o <> "" -> c <> "" -> Str.filter_Boolean [o; c] = [o; c].
Proof.
  intros Ho Hc. apply is_empty_false in Ho, Hc.
  unfold Str.filter_Boolean. cbn [filter]. rewrite Ho, Hc. reflexivity.
Qed.

Section Platform.

Variable unicode_to_ascii : string -> option string.

(** [extract] on a URL that is in normal form already. *)
Lemma canonical_extract (h o c : string) :
  plain_host h = true -> o <> "" -> c <> "" ->
  Str.all is_segment_char o = true -> Str.all is_segment_char c = true ->
  URL.is_single_dot o = false -> URL.is_double_dot o = false ->
  URL.is_single_dot c = false -> URL.is_double_dot c = false ->
  Str.ends_with ".git" c = false ->
  extract unicode_to_ascii ("https://" ++ h ++ "/" ++ o ++ "/" ++ c)
  = Normal (URL.mkURL "https" (Some (URL.Domain h)) None
              (URL.PathList [o; c]), o, c).
Proof.
  intros Hh Hno Hnc Ho Hc Hso Hdo Hsc Hdc Hgit.
  assert (Hurl : URL.basic_url_parse unicode_to_ascii
                   ("https://" ++ h ++ "/" ++ o ++ "/" ++ c)
                 = Some (URL.mkURL "https" (Some (URL.Domain h)) None
                           (URL.PathList [o; c]))).
  { change ("https://" ++ h ++ "/" ++ o ++ "/" ++ c)
      with ("https://" ++ h ++ String "/" (o ++ String "/" c)).
    rewrite parse_https_plain; [|exact Hh|].
    - rewrite (path_state_sep false o c Ho), (path_state_end false c Hc).
      cbn [append].
      rewrite (end_segment_plain true [] o Hso Hdo).
      rewrite (end_segment_plain false _ c Hsc Hdc). reflexivity.
    - rewrite all_app. cbn [Str.all].
      rewrite (all_impl _ _ _ segment_char_not_space Ho).
      rewrite (all_impl _ _ _ segment_char_not_space Hc). reflexivity. }
  assert (Hinc : Str.includes "://" ("https://" ++ h ++ "/" ++ o ++ "/" ++ c)
                 = true)
    by (exact (includes_app "://" "https" (h ++ "/" ++ o ++ "/" ++ c))).
  assert (Hslash : forall x, Str.all is_segment_char x = true ->
                             Str.any URL.is_slash x = false).
  { intros x Hx. eapply all_none; [|exact Hx]. clear. intros ch. by_char ch. }
  unfold extract, accepts, expand. rewrite Hinc. cbn [negb]. rewrite Hurl.
  cbn [URL.is_some].
  rewrite path_segments_list by (repeat constructor; auto).
  rewrite (filter_Boolean_pair o c Hno Hnc). cbn [nth_error option_map].
  destruct (replace_dot_git_spec c) as [[Hg _]|[_ Hg]]; [congruence|].
  rewrite Hg. apply is_empty_false in Hno, Hnc. rewrite Hno, Hnc. reflexivity.
Qed.

(** C2, as the code has it: when the normalized URL of a successful [parse]
    has a plain lowercase host name, and its repository name does not end in
    [.git], is no dot segment, and with the owner has no backslash, [parse]
    succeeds on the normalized URL and returns the same normalized URL, owner
    and repo. *)
Theorem normalization_idempotent
  (fetch fetch' : Request -> Completion Response) (url : string)
  (options options' : ParseOptions) (r : ParsedGitUrl) (u : URL.URLRecord) :
  completion (parse unicode_to_ascii fetch url options) = Normal r ->
  URL.basic_url_parse unicode_to_ascii (expand url) = Some u ->
  plain_host (URL.hostname u) = true ->
  Str.any URL.is_backslash (owner (metadata r)) = false ->
  Str.any URL.is_backslash (repo (metadata r)) = false ->
  Str.ends_with ".git" (repo (metadata r)) = false ->
  URL.is_single_dot (repo (metadata r)) = false ->
  URL.is_double_dot (repo (metadata r)) = false ->
  exists r',
    completion (parse unicode_to_ascii fetch' (normalizedUrl r) options')
    = Normal r' /\
    normalizedUrl r' = normalizedUrl r /\
    owner (metadata r') = owner (metadata r) /\
    repo (metadata r') = repo (metadata r).
Proof.
  intros Hr Hu Hh Hbo Hbc Hgit Hsc Hdc.
  destruct (parse_normal _ _ _ _ _ Hr) as (u0 & o & c & v & He & _ & ->).
  destruct (extract_normal _ _ _ _ _ He)
    as (_ & Hu0 & Ho & (rp & Hrp & Hc) & Hno & Hnc).
  assert (u0 = u) by congruence. subst u0.
  cbn [normalizedUrl metadata owner repo result_of] in *.
  (* the path of [u] is a list of good segments that holds [o] and [rp] *)
  pose proof (basic_url_parse_path _ _ _ Hu) as Hpath.
  destruct (plain_host_spec _ Hh) as (Hhne & _).
  destruct u as [sch hst prt [opaque|segments]];
    unfold url_path_ok in Hpath; cbn [URL.path] in Hpath; [congruence|].
  assert (Hns : Forall (fun x => Str.any URL.is_slash x = false) segments).
  { eapply Forall_impl; [|exact Hpath]. intros x Hx.
    destruct (segment_ok_spec x Hx) as (Hx' & _).
    eapply all_none; [|exact Hx']. apply output_char_not_slash. }
  rewrite (path_segments_list segments sch hst prt Hns) in Ho, Hrp.
  assert (Hin : forall x n,
             nth_error (Str.filter_Boolean segments) n = Some x ->
             segment_ok x = true).
  { intros x n Hx. apply nth_error_In, filter_Boolean_In in Hx as [Hx _].
    unfold segments_ok in Hpath. rewrite Forall_forall in Hpath. auto. }
  destruct (segment_ok_spec o (Hin o _ Ho)) as (Hoo & Hso & Hdo).
  destruct (segment_ok_spec rp (Hin rp _ Hrp)) as (Hor & _ & _).
  assert (Hoc : Str.all is_output_char c = true)
    by (subst c; apply all_replace_dot_git, Hor).
  pose proof (canonical_extract _ o c Hh Hno Hnc
                (all_segment_char o Hoo Hbo) (all_segment_char c Hoc Hbc)
                Hso Hdo Hsc Hdc Hgit) as He'.
  destruct (parse_succeeds unicode_to_ascii fetch' _ options' _ _ _ He')
    as (v' & _ & Hp').
  eexists. split; [exact Hp'|]. repeat split.
Qed.

End Platform.

Import Fixtures.

(** Two [.git] suffixes: the normalized URL still ends in [.git], and
    normalizing it again gives another URL. *)
Lemma normalizing_twice_differs :
  option_map normalizedUrl
    (returned (parse no_idna fetch_public
                 "https://github.com/user/repo.git.git" no_options))
  = Some "https://github.com/user/repo.git"
  /\
  option_map normalizedUrl
    (returned (parse no_idna fetch_public "https://github.com/user/repo.git"
                 no_options))
  = Some "https://github.com/user/repo".
Proof. split; reflexivity. Qed.

(** Remarks: why the other conditions are there.  A host name a
    non-special scheme kept in uppercase is lowercased the second time; a URL
    without a host gives a normalized URL whose owner becomes the host; a
    repository name that [.git] leaves as a dot segment disappears; a
    backslash an owner of a non-special URL holds splits it the second
    time. *)
Example uppercase_host_is_lowercased :
  option_map normalizedUrl
    (returned (parse no_idna fetch_public "foo://EXAMPLE.com/user/repo"
                 no_options))
  = Some "https://EXAMPLE.com/user/repo"
  /\
  option_map normalizedUrl
    (returned (parse no_idna fetch_public "https://EXAMPLE.com/user/repo"
                 no_options))
  = Some "https://example.com/user/repo".
Proof. split; reflexivity. Qed.

Example empty_host_is_not_stable :
  option_map normalizedUrl
    (returned (parse no_idna fetch_public "file:///user/repo" no_options))
  = Some "https:///user/repo"
  /\
  parse no_idna fetch_public "https:///user/repo" no_options
  = ([], Throw MissingOwnerOrRepo).
Proof. split; reflexivity. Qed.

Example dot_segment_repo_is_not_stable :
  option_map normalizedUrl
    (returned (parse no_idna fetch_public "https://github.com/user/..git"
                 no_options))
  = Some "https://github.com/user/."
  /\
  parse no_idna fetch_public "https://github.com/user/." no_options
  = ([], Throw MissingOwnerOrRepo).
Proof. split; reflexivity. Qed.

Example backslash_owner_is_split :
  option_map normalizedUrl
    (returned (parse no_idna fetch_public "foo://host/a\b/c" no_options))
  = Some "https://host/a\b/c"
  /\
  option_map normalizedUrl
    (returned (parse no_idna fetch_public "https://host/a\b/c" no_options))
  = Some "https://host/a/b".
Proof. split; reflexivity. Qed.

Lemma normalization_idempotent_witness :
  (completion (parse no_idna fetch_public "user/repo.git" no_options)
   = Normal (mkParsed
               (mkMetadata "user" "repo" None None github (Bool false))
               "https://github.com/user/repo"
               "https://github.com/user/repo.git")
   /\
   URL.basic_url_parse no_idna (expand "user/repo.git")
   = Some (URL.mkURL "https" (Some (URL.Domain "github.com")) None
             (URL.PathList ["user"; "repo.git"]))
   /\ plain_host "github.com" = true
   /\ Str.any URL.is_backslash "user" = false
   /\ Str.any URL.is_backslash "repo" = false
   /\ Str.ends_with ".git" "repo" = false
   /\ URL.is_single_dot "repo" = false
   /\ URL.is_double_dot "repo" = false)
  /\
  exists r',
    completion (parse no_idna fetch_rejects "https://github.com/user/repo"
                  with_token) = Normal r' /\
    normalizedUrl r' = "https://github.com/user/repo" /\
    owner (metadata r') = "user" /\
    repo (metadata r') = "repo".
Proof.
  split; [repeat split|].
  apply (normalization_idempotent no_idna fetch_public fetch_rejects
           "user/repo.git" no_options with_token
           (mkParsed
              (mkMetadata "user" "repo" None None github (Bool false))
              "https://github.com/user/repo"
              "https://github.com/user/repo.git")
           (URL.mkURL "https" (Some (URL.Domain "github.com")) None
              (URL.PathList ["user"; "repo.git"])));
    reflexivity.
Defined.

End IdempotenceSpec.

(** * Further properties of [parse] *)

(** ** The branch *)

Module BranchSpec.

Import JS GitRepoParser StrFacts ParseFacts RegExpFacts.

Lemma attempt_none (ci : bool) (literal : string) (class : ascii -> bool)
  (l post : string) (x : ascii) :
  RegExp.attempt ci literal class (l ++ String x post) = None ->
  matches_literal ci literal l -> class x = false.
Proof.
  intros Ha Hl. unfold RegExp.attempt in Ha.
  destruct (literal_starts ci literal l (String x post) Hl) as [Hst Hdrop].
  rewrite Hst, Hdrop in Ha. simpl in Ha.
  destruct (class x); [|reflexivity].
  destruct (Str.span class post); discriminate.
Qed.

(** A capture belongs to the leftmost place where the pattern matches. *)
Lemma match_capture_leftmost (ci : bool) (literal : string)
  (class : ascii -> bool) (s run : string) :
  RegExp.match_capture ci literal class s = Some run ->
  exists pre l post,
    s = pre ++ l ++ run ++ post /\ matches_literal ci literal l /\
    match post with String x _ => class x = false | EmptyString => True end /\
    forall pre' l' x post',
      s = pre' ++ l' ++ String x post' -> matches_literal ci literal l' ->
      String.length pre' < String.length pre -> class x = false.
Proof.
  induction s as [|c s IH]; simpl.
  - destruct (RegExp.attempt ci literal class "") eqn:Ha; [|discriminate].
    intros H; inversion H; subst.
    destruct (attempt_spec _ _ _ _ _ Ha) as (_ & _ & l & post & Hs & Hl & Hp).
    exists "", l, post. repeat split; auto.
    intros pre' l' x post' _ _ Hlt. simpl in Hlt. lia.
  - destruct (RegExp.attempt ci literal class (String c s)) eqn:Ha.
    + intros H; inversion H; subst.
      destruct (attempt_spec _ _ _ _ _ Ha) as (_ & _ & l & post & Hs & Hl & Hp).
      exists "", l, post. repeat split; auto.
      intros pre' l' x post' _ _ Hlt. simpl in Hlt. lia.
    + intros H. destruct (IH H) as (pre & l & post & Hs & Hl & Hp & Hfirst).
      exists (String c pre), l, post. simpl. rewrite <- Hs.
      repeat split; auto.
      intros pre' l' x post' Hs' Hl' Hlt.
      destruct pre' as [|c' pre'].
      * simpl in Hs'. rewrite Hs' in Ha. exact (attempt_none _ _ _ _ _ _ Ha Hl').
      * simpl in Hs'. inversion Hs'; subst c'.
        apply (Hfirst pre' l' x post'); auto. simpl in Hlt. lia.
Qed.

Lemma word_dot_hyphen_not_slash (c : ascii) :
  Char.is_word_dot_hyphen c = true -> URL.is_slash c = false.
Proof. by_char c. Qed.

Section Platform.

Variable unicode_to_ascii : string -> option string.

(** X1: the branch of a successful [parse], when present, is the non-empty
    run of letters, digits, [_], [.] and [-] that follows the leftmost
    [/tree/] of the expanded URL that has such a character after it; the run
    is as long as it can be, so it has no slash and stops at the first one.
    When there is no branch, no such character follows a [/tree/] anywhere
    in the expanded URL. *)
Theorem branch_is_run_after_tree_segment
  (fetch : Request -> Completion Response) (url : string)
  (options : ParseOptions) (r : ParsedGitUrl) :
  completion (parse unicode_to_ascii fetch url options) = Normal r ->
  (forall b,
     branch (metadata r) = Some b ->
     b <> "" /\ Str.all Char.is_word_dot_hyphen b = true /\
     Str.any URL.is_slash b = false /\
     exists pre post,
       expand url = pre ++ "/tree/" ++ b ++ post /\
       match post with
       | String x _ => Char.is_word_dot_hyphen x = false
       | EmptyString => True
       end /\
       forall pre' x post',
         expand url = pre' ++ "/tree/" ++ String x post' ->
         String.length pre' < String.length pre ->
         Char.is_word_dot_hyphen x = false) /\
  (branch (metadata r) = None ->
   forall pre x post,
     expand url = pre ++ "/tree/" ++ String x post ->
     Char.is_word_dot_hyphen x = false).
Proof.
  intros Hr.
  destruct (parse_normal _ _ _ _ _ Hr) as (u & o & c & v & He & _ & ->).
  cbn [metadata branch result_of]. unfold BRANCH_PATTERN. split.
  - intros b Hb.
    destruct (match_capture_spec _ _ _ _ _ Hb) as (Hn & Hall & _).
    destruct (match_capture_leftmost _ _ _ _ _ Hb)
      as (pre & l & post & Hs & Hl & Hp & Hfirst).
    cbn [matches_literal] in Hl. subst l.
    split; [exact Hn|]. split; [exact Hall|].
    split; [exact (all_none _ _ b word_dot_hyphen_not_slash Hall)|].
    exists pre, post. split; [exact Hs|]. split; [exact Hp|].
    intros pre' x post' Hs' Hlt.
    exact (Hfirst pre' "/tree/" x post' Hs' eq_refl Hlt).
  - intros Hb pre x post Hs.
    exact (match_capture_none _ _ _ _ Hb pre "/tree/" x post Hs eq_refl).
Qed.

End Platform.

Import Fixtures.

Lemma branch_is_run_after_tree_segment_witness :
  completion (parse no_idna fetch_public
                "https://github.com/user/repo/tree/feature/login" no_options)
  = Normal (mkParsed
              (mkMetadata "user" "repo" (Some "feature") None github
                 (Bool false))
              "https://github.com/user/repo"
              "https://github.com/user/repo/tree/feature/login")
  /\
  ((forall b,
      Some "feature" = Some b ->
      b <> "" /\ Str.all Char.is_word_dot_hyphen b = true /\
      Str.any URL.is_slash b = false /\
      exists pre post,
        expand "https://github.com/user/repo/tree/feature/login"
        = pre ++ "/tree/" ++ b ++ post /\
        match post with
        | String x _ => Char.is_word_dot_hyphen x = false
        | EmptyString => True
        end /\
        forall pre' x post',
          expand "https://github.com/user/repo/tree/feature/login"
          = pre' ++ "/tree/" ++ String x post' ->
          String.length pre' < String.length pre ->
          Char.is_word_dot_hyphen x = false) /\
   (Some "feature" = None ->
    forall pre x post,
      expand "https://github.com/user/repo/tree/feature/login"
      = pre ++ "/tree/" ++ String x post ->
      Char.is_word_dot_hyphen x = false)).
Proof.
  split; [reflexivity|].
  apply (branch_is_run_after_tree_segment no_idna fetch_public
           "https://github.com/user/repo/tree/feature/login" no_options
           (mkParsed
              (mkMetadata "user" "repo" (Some "feature") None github
                 (Bool false))
              "https://github.com/user/repo"
              "https://github.com/user/repo/tree/feature/login")).
  reflexivity.
Defined.

End BranchSpec.

(** ** Failures, events and the lookup request *)

Module CallSpec.

Import JS GitRepoParser StrFacts ParseFacts RegExpFacts LookupFacts.
Import ShorthandSpec OwnerRepoSpec FieldSpec.

Definition api_error (r : Request) : list Event :=
  [Fetched r; ConsoleError "GitHub API Error:"].

Definition accept_header : string * string :=
  ("Accept", "application/vnd.github.v3+json").

Section Platform.

Variable unicode_to_ascii : string -> option string.

(** Once the format step has accepted an input, [new URL] of line 91 does
    not throw. *)
Lemma accepted_url_parses (url : string) :
  accepts unicode_to_ascii url = true ->
  exists u, URL.basic_url_parse unicode_to_ascii (expand url) = Some u.
Proof.
  intros Ha. unfold accepts in Ha. unfold expand.
  destruct (Str.includes "://" url) eqn:Hinc; cbn [negb].
  - destruct (URL.basic_url_parse unicode_to_ascii url) as [u|];
      [eauto|discriminate].
  - destruct (test_shorthand_spec url Ha) as (o & rp & -> & Hne & _ & Ho & Hrp).
    rewrite (shorthand_url unicode_to_ascii o rp Hne Ho Hrp). eauto.
Qed.

Lemma extract_throws (url : string) (e : Exception) :
  extract unicode_to_ascii url = Throw e ->
  (e = InvalidFormat /\ accepts unicode_to_ascii url = false) \/
  (e = MissingOwnerOrRepo /\ accepts unicode_to_ascii url = true).
Proof.
  unfold extract. destruct (accepts unicode_to_ascii url) eqn:Ha.
  - destruct (accepted_url_parses url Ha) as [u ->].
    intros H. right. split; [|reflexivity].
    destruct (nth_error (path_segments u) 0); [|congruence].
    destruct (option_map _ _); [|congruence].
    destruct (_ || _); congruence.
  - intros H. left. split; congruence.
Qed.

Lemma accepts_expand (url : string) :
  accepts unicode_to_ascii url = true ->
  accepts unicode_to_ascii (expand url) = true /\
  expand (expand url) = expand url.
Proof.
  intros Ha. destruct (accepted_url_parses url Ha) as [u Hu].
  unfold accepts, expand in *.
  destruct (Str.includes "://" url) eqn:Hinc; cbn [negb] in *.
  - rewrite !Hinc. cbn [negb]. rewrite ?Hinc. auto.
  - assert (Hi : Str.includes "://" ("https://github.com/" ++ url) = true)
      by (exact (includes_app "://" "https" ("github.com/" ++ url))).
    rewrite Hi. cbn [negb]. rewrite Hu. auto.
Qed.

Section Network.

Variable fetch : Request -> Completion Response.

(** A call that returned, taken apart with its events. *)
Lemma parse_run (url : string) (options : ParseOptions) (ev : list Event)
  (r : ParsedGitUrl) :
  parse unicode_to_ascii fetch url options = (ev, Normal r) ->
  exists u o c v,
    extract unicode_to_ascii url = Normal (u, o, c) /\
    resolve_visibility fetch (detect_provider (URL.hostname u)) o c options
    = (ev, Normal v) /\
    r = result_of url u o c v.
Proof.
  rewrite parse_eq.
  destruct (extract unicode_to_ascii url) as [[[u o] c]|e] eqn:He;
    [|discriminate].
  unfold events, completion.
  destruct (resolve_visibility fetch _ o c options) as [ev' [v|e]] eqn:Hrun;
    cbn [fst snd]; intros H; inversion H; subst.
  exists u, o, c, v. auto.
Qed.

(** X2: [parse] fails in two ways only, and before it has done anything: a
    failing call has caused no event (no request, no log line), and its
    error is InvalidFormat, when the format step rejects the input, or
    MissingOwnerOrRepo, when it accepts it.  The [TypeError] of [new URL] on
    line 91 never leaves [parse]. *)
Theorem parse_fails_before_any_event (url : string) (options : ParseOptions)
  (ev : list Event) (e : Exception) :
  parse unicode_to_ascii fetch url options = (ev, Throw e) ->
  ev = [] /\
  ((e = InvalidFormat /\ accepts unicode_to_ascii url = false) \/
   (e = MissingOwnerOrRepo /\ accepts unicode_to_ascii url = true)).
Proof.
  rewrite parse_eq.
  destruct (extract unicode_to_ascii url) as [[[u o] c]|e'] eqn:He.
  - destruct (resolve_visibility_normal fetch
                (detect_provider (URL.hostname u)) o c options) as [v Hv].
    rewrite Hv. discriminate.
  - intros H. inversion H; subst. split; [reflexivity|].
    exact (extract_throws url e He).
Qed.

(** X3: what a successful call shows of itself.  For a provider other than
    github there is no event.  For github there is exactly one request, the
    lookup, and after it at most one line on the error console; a line is
    written exactly when the lookup gave no value, and then [isPrivate] is
    [false].  The line is [GitHub API Error:] exactly when [fetch] resolved
    to a response that is not [ok] and whose text could be read. *)
Theorem events_of_a_successful_parse (url : string) (options : ParseOptions)
  (ev : list Event) (r : ParsedGitUrl) :
  parse unicode_to_ascii fetch url options = (ev, Normal r) ->
  let m := metadata r in
  let req := lookup_request (owner m) (repo m) options in
  ((provider m <> github /\ ev = []) \/
   (provider m = github /\
    (ev = [Fetched req] \/
     (isPrivate m = Bool false /\
      (ev = api_error req \/ ev = lookup_failed req))))) /\
  (ev = [Fetched req] <->
   provider m = github /\
   exists resp data,
     fetch req = Normal resp /\ ok resp = true /\ json resp = Normal data /\
     get_property data "private" = Normal (isPrivate m)) /\
  (ev = api_error req <->
   provider m = github /\
   exists resp body,
     fetch req = Normal resp /\ ok resp = false /\ text resp = Normal body).
Proof.
  intros Hp. destruct (parse_run _ _ _ _ Hp) as (u & o & c & v & _ & Hrun & ->).
  cbn zeta. cbn [metadata owner repo provider isPrivate result_of].
  rewrite resolve_visibility_eq in Hrun. unfold api_error, lookup_failed in *.
  destruct (detect_provider (URL.hostname u)).
  2,3: inversion Hrun; subst;
       (split; [left; split; [discriminate|reflexivity]|]);
       split; (split; [discriminate|intros [H _]; discriminate H]).
  cbn zeta in Hrun.
  destruct (fetch (lookup_request o c options)) as [resp|e] eqn:Hf.
  - destruct (ok resp) eqn:Hok.
    + destruct (json resp) as [data|e] eqn:Hj.
      * destruct (get_property data "private") as [w|e] eqn:Hg;
          inversion Hrun; subst.
        -- split; [right; split; [reflexivity|left; reflexivity]|].
           split; split; try discriminate.
           ++ intros _. split; [reflexivity|]. exists resp, data. auto.
           ++ reflexivity.
           ++ intros (_ & resp' & body & Hr' & Hk' & _). congruence.
        -- split; [right; split; [reflexivity|right; split; [reflexivity|]];
                   right; reflexivity|].
           split; split; try discriminate.
           ++ intros (_ & resp' & data' & Hr' & _ & Hj' & Hg'). congruence.
           ++ intros (_ & resp' & body & Hr' & Hk' & _). congruence.
      * inversion Hrun; subst.
        split; [right; split; [reflexivity|right; split; [reflexivity|]];
                right; reflexivity|].
        split; split; try discriminate.
        -- intros (_ & resp' & data' & Hr' & _ & Hj' & _). congruence.
        -- intros (_ & resp' & body & Hr' & Hk' & _). congruence.
    + destruct (text resp) as [body|e] eqn:Ht; inversion Hrun; subst.
      * split; [right; split; [reflexivity|right; split; [reflexivity|]];
                left; reflexivity|].
        split; split; try discriminate.
        -- intros (_ & resp' & data' & Hr' & Hk' & _). congruence.
        -- intros _. split; [reflexivity|]. exists resp, body. auto.
        -- reflexivity.
      * split; [right; split; [reflexivity|right; split; [reflexivity|]];
                right; reflexivity|].
        split; split; try discriminate.
        -- intros (_ & resp' & data' & Hr' & Hk' & _). congruence.
        -- intros (_ & resp' & body & Hr' & _ & Ht'). congruence.
  - inversion Hrun; subst.
    split; [right; split; [reflexivity|right; split; [reflexivity|]];
            right; reflexivity|].
    split; split; try discriminate.
    + intros (_ & resp' & data' & Hr' & _). congruence.
    + intros (_ & resp' & body & Hr' & _). congruence.
Qed.

(** The events of a successful call: none, the lookup, or the lookup and a
    line on the error console. *)
Lemma events_shape (url : string) (options : ParseOptions)
  (ev : list Event) (r : ParsedGitUrl) :
  parse unicode_to_ascii fetch url options = (ev, Normal r) ->
  let q := lookup_request (owner (metadata r)) (repo (metadata r)) options in
  ev = [] \/ ev = [Fetched q] \/ exists l, ev = [Fetched q; ConsoleError l].
Proof.
  intros Hp.
  destruct (parse_run _ _ _ _ Hp) as (u & o & c & v & _ & Hrun & ->).
  cbn zeta. cbn [metadata owner repo result_of].
  rewrite resolve_visibility_eq in Hrun. unfold lookup_failed in Hrun.
  destruct (detect_provider (URL.hostname u));
    [|inversion Hrun; auto|inversion Hrun; auto].
  cbn zeta in Hrun.
  destruct (fetch _) as [resp|e]; [|inversion Hrun; eauto].
  destruct (ok resp).
  - destruct (json resp) as [data|e]; [|inversion Hrun; eauto].
    destruct (get_property data "private"); inversion Hrun; eauto.
  - destruct (text resp); inversion Hrun; eauto.
Qed.

(** Every request of a successful call is the lookup request. *)
Lemma fetched_is_lookup (url : string) (options : ParseOptions)
  (ev : list Event) (r : ParsedGitUrl) (q : Request) :
  parse unicode_to_ascii fetch url options = (ev, Normal r) ->
  In (Fetched q) ev ->
  q = lookup_request (owner (metadata r)) (repo (metadata r)) options.
Proof.
  intros Hp Hin.
  destruct (events_shape _ _ _ _ Hp) as [->|[->|[l ->]]]; cbn [In] in Hin.
  - contradiction.
  - destruct Hin as [H|[]]. congruence.
  - destruct Hin as [H|[H|[]]]; congruence.
Qed.

(** X4: whatever the input is, a request that [parse] sends goes to
    [https://api.github.com/repos/<owner>/<repo>], with the owner and repo
    it returns, which have no slash.  It carries the [Accept] header, and an
    [Authorization] header [token <t>] exactly when a non-empty token [t]
    was passed: an empty token is sent no more than a missing one. *)
Theorem request_of_the_lookup (url : string) (options : ParseOptions)
  (ev : list Event) (r : ParsedGitUrl) (q : Request) :
  parse unicode_to_ascii fetch url options = (ev, Normal r) ->
  In (Fetched q) ev ->
  let m := metadata r in
  request_url q = "https://api.github.com/repos/" ++ owner m ++ "/" ++ repo m /\
  Str.any URL.is_slash (owner m) = false /\
  Str.any URL.is_slash (repo m) = false /\
  (forall t,
     authToken options = Some t -> t <> "" ->
     request_headers q = [accept_header; ("Authorization", "token " ++ t)]) /\
  (authToken options = None \/ authToken options = Some "" ->
   request_headers q = [accept_header]).
Proof.
  intros Hp Hin. rewrite (fetched_is_lookup _ _ _ _ _ Hp Hin).
  destruct (parse_run _ _ _ _ Hp) as (u & o & c & v & He & _ & ->).
  destruct (NormalizedUrlSpec.extract_no_slash _ _ _ _ _ He) as (_ & Ho & Hc).
  cbn zeta. cbn [metadata owner repo result_of lookup_request request_url
                 request_headers].
  split; [reflexivity|]. split; [exact Ho|]. split; [exact Hc|]. split.
  - intros t -> Ht. apply is_empty_false in Ht. rewrite Ht. reflexivity.
  - intros [-> | ->]; reflexivity.
Qed.

(** X5: [parse] does not ask whether the host is GitHub's.  When the host
    name of a successfully parsed URL matches none of the three provider
    patterns, the provider is github all the same, the lookup is sent to
    the GitHub API for the owner and repo of that URL, and [isPrivate] is
    whatever that lookup yields. *)
Theorem unknown_host_is_looked_up_on_github (url : string)
  (options : ParseOptions) (ev : list Event) (r : ParsedGitUrl)
  (u : URL.URLRecord) :
  parse unicode_to_ascii fetch url options = (ev, Normal r) ->
  URL.basic_url_parse unicode_to_ascii (expand url) = Some u ->
  RegExp.test_literal "github.com" (URL.hostname u) = false ->
  RegExp.test_literal "gitlab.com" (URL.hostname u) = false ->
  RegExp.test_literal "bitbucket.org" (URL.hostname u) = false ->
  let m := metadata r in
  let req :=
    mkRequest ("https://api.github.com/repos/" ++ owner m ++ "/" ++ repo m)
      (request_headers (lookup_request (owner m) (repo m) options)) in
  provider m = github /\
  normalizedUrl r = "https://" ++ URL.hostname u ++ "/" ++ owner m ++ "/"
                    ++ repo m /\
  hd_error ev = Some (Fetched req) /\
  (forall resp data v,
     fetch req = Normal resp -> ok resp = true -> json resp = Normal data ->
     get_property data "private" = Normal v -> isPrivate m = v).
Proof.
  intros Hp Hu H1 H2 H3.
  destruct (parse_run _ _ _ _ Hp) as (u' & o & c & v & He & Hrun & ->).
  destruct (extract_normal _ _ _ _ _ He) as (_ & Hu' & _).
  assert (u' = u) by congruence. subst u'.
  cbn zeta. cbn [metadata owner repo provider isPrivate normalizedUrl result_of].
  assert (Hg : detect_provider (URL.hostname u) = github).
  { destruct (detect_provider_first_match (URL.hostname u))
      as (_ & _ & _ & Hnone). apply Hnone; assumption. }
  rewrite Hg in *.
  split; [reflexivity|]. split; [reflexivity|].
  split; [exact (visibility_fetches _ _ _ _ _ _ _ Hrun eq_refl)|].
  intros resp data w Hr Hk Hj Hw.
  exact (visibility_property _ _ _ _ _ _ _ resp data w Hrun eq_refl Hr Hk Hj Hw).
Qed.

(** X6: the expansion of line 88 is all that separates an input from its
    [originalUrl].  On an input the format step accepts, [parse] of the
    expanded URL is the same computation as [parse] of the input: the same
    events and the same result or error.  So the shorthand [owner/repo] and
    [https://github.com/owner/repo] parse alike, and parsing the
    [originalUrl] of a result gives that result again. *)
Theorem originalUrl_parses_alike (url : string) (options : ParseOptions) :
  accepts unicode_to_ascii url = true ->
  parse unicode_to_ascii fetch (expand url) options
  = parse unicode_to_ascii fetch url options /\
  (Str.includes "://" url = false ->
   parse unicode_to_ascii fetch ("https://github.com/" ++ url) options
   = parse unicode_to_ascii fetch url options) /\
  (forall r,
     completion (parse unicode_to_ascii fetch url options) = Normal r ->
     originalUrl r = expand url /\
     completion (parse unicode_to_ascii fetch (originalUrl r) options)
     = Normal r).
Proof.
  intros Ha. destruct (accepts_expand url Ha) as [Ha' Hee].
  assert (Heq : parse unicode_to_ascii fetch (expand url) options
                = parse unicode_to_ascii fetch url options).
  { rewrite !parse_eq. unfold extract, result_of. rewrite Ha, Ha', Hee.
    reflexivity. }
  split; [exact Heq|]. split.
  - intros Hinc. unfold expand in Heq. rewrite Hinc in Heq. exact Heq.
  - intros r Hr.
    destruct (parse_normal _ _ _ _ _ Hr) as (u & o & c & v & _ & _ & Hres).
    assert (Ho : originalUrl r = expand url) by (rewrite Hres; reflexivity).
    split; [exact Ho|]. rewrite Ho, Heq. exact Hr.
Qed.

End Network.

(** X7: [isValidProvider] tells whether [parse] found the provider or fell
    back on its default.  For an input with [://] on which [parse] succeeds,
    [isValidProvider] returns [true] exactly when the pattern of the
    returned provider occurs in the host name; when it returns [false] the
    provider is github by default. *)
Theorem isValidProvider_tells_the_default
  (fetch : Request -> Completion Response) (url : string)
  (options : ParseOptions) (r : ParsedGitUrl) :
  Str.includes "://" url = true ->
  completion (parse unicode_to_ascii fetch url options) = Normal r ->
  exists u b,
    URL.basic_url_parse unicode_to_ascii url = Some u /\
    isValidProvider unicode_to_ascii url = ([], Normal b) /\
    (b = true <->
     exists pattern,
       In (provider (metadata r), pattern) PROVIDER_PATTERNS /\
       RegExp.test_literal pattern (URL.hostname u) = true) /\
    (b = false -> provider (metadata r) = github).
Proof.
  intros Hinc Hr.
  destruct (parse_normal _ _ _ _ _ Hr) as (u & o & c & v & He & _ & ->).
  destruct (extract_normal _ _ _ _ _ He) as (_ & Hu & _).
  unfold expand in Hu. rewrite Hinc in Hu. cbn [negb] in Hu.
  exists u. eexists. split; [exact Hu|].
  rewrite isValidProvider_eq, Hu. split; [reflexivity|].
  cbn [metadata provider result_of].
  unfold detect_provider, PROVIDER_PATTERNS. cbn [find snd In].
  destruct (RegExp.test_literal "github.com" (URL.hostname u)) eqn:H1;
    [|destruct (RegExp.test_literal "gitlab.com" (URL.hostname u)) eqn:H2;
      [|destruct (RegExp.test_literal "bitbucket.org" (URL.hostname u)) eqn:H3]];
    cbn [orb]; (split; [split|]); try discriminate; try reflexivity; intros H.
  - exists "github.com". auto.
  - exists "gitlab.com". auto.
  - exists "bitbucket.org". auto 6.
  - destruct H as (p & [Hp|[Hp|[Hp|[]]]] & Ht); inversion Hp; subst; congruence.
Qed.

End Platform.

Import Fixtures.

Lemma parse_fails_before_any_event_witness :
  parse no_idna fetch_private "https://github.com/user" with_token
  = ([], Throw MissingOwnerOrRepo)
  /\
  ([] = @nil Event /\
   ((MissingOwnerOrRepo = InvalidFormat /\
     accepts no_idna "https://github.com/user" = false) \/
    (MissingOwnerOrRepo = MissingOwnerOrRepo /\
     accepts no_idna "https://github.com/user" = true))).
Proof.
  split; [reflexivity|].
  apply (parse_fails_before_any_event no_idna fetch_private
           "https://github.com/user" with_token).
  reflexivity.
Defined.

(** A response that is not [ok], as the API gives for a repository it does
    not show. *)
Definition fetch_not_found : Request -> Completion Response :=
  fun _ => Normal (mkResponse false 404 "Not Found" (Normal "{}")
                     (Normal (Object []))).

Lemma events_of_a_successful_parse_witness :
  parse no_idna fetch_not_found "user/repo" no_options
  = (api_error (mkRequest "https://api.github.com/repos/user/repo"
                  [accept_header]),
     Normal (mkParsed (mkMetadata "user" "repo" None None github (Bool false))
               "https://github.com/user/repo" "https://github.com/user/repo"))
  /\
  (((github <> github /\
     api_error (mkRequest "https://api.github.com/repos/user/repo"
                  [accept_header]) = []) \/
    (github = github /\
     (api_error (mkRequest "https://api.github.com/repos/user/repo"
                   [accept_header])
      = [Fetched (lookup_request "user" "repo" no_options)] \/
      (Bool false = Bool false /\
       (api_error (mkRequest "https://api.github.com/repos/user/repo"
                     [accept_header])
        = api_error (lookup_request "user" "repo" no_options) \/
        api_error (mkRequest "https://api.github.com/repos/user/repo"
                     [accept_header])
        = lookup_failed (lookup_request "user" "repo" no_options)))))) /\
   (api_error (mkRequest "https://api.github.com/repos/user/repo"
                 [accept_header])
    = [Fetched (lookup_request "user" "repo" no_options)] <->
    github = github /\
    exists resp data,
      fetch_not_found (lookup_request "user" "repo" no_options) = Normal resp /\
      ok resp = true /\ json resp = Normal data /\
      get_property data "private" = Normal (Bool false)) /\
   (api_error (mkRequest "https://api.github.com/repos/user/repo"
                 [accept_header])
    = api_error (lookup_request "user" "repo" no_options) <->
    github = github /\
    exists resp body,
      fetch_not_found (lookup_request "user" "repo" no_options) = Normal resp /\
      ok resp = false /\ text resp = Normal body)).
Proof.
  split; [reflexivity|].
  apply (events_of_a_successful_parse no_idna fetch_not_found "user/repo"
           no_options
           (api_error (mkRequest "https://api.github.com/repos/user/repo"
                         [accept_header]))
           (mkParsed (mkMetadata "user" "repo" None None github (Bool false))
              "https://github.com/user/repo" "https://github.com/user/repo")).
  reflexivity.
Defined.

Lemma request_of_the_lookup_witness :
  parse no_idna fetch_private "https://github.com/user/repo" with_token
  = ([Fetched (mkRequest "https://api.github.com/repos/user/repo"
                 [accept_header; ("Authorization", "token secret")])],
     Normal (mkParsed (mkMetadata "user" "repo" None None github (Bool true))
               "https://github.com/user/repo" "https://github.com/user/repo"))
  /\
  ("https://api.github.com/repos/user/repo"
   = "https://api.github.com/repos/" ++ "user" ++ "/" ++ "repo" /\
   Str.any URL.is_slash "user" = false /\
   Str.any URL.is_slash "repo" = false /\
   (forall t,
      authToken with_token = Some t -> t <> "" ->
      [accept_header; ("Authorization", "token secret")]
      = [accept_header; ("Authorization", "token " ++ t)]) /\
   (authToken with_token = None \/ authToken with_token = Some "" ->
    [accept_header; ("Authorization", "token secret")] = [accept_header])).
Proof.
  split; [reflexivity|].
  apply (request_of_the_lookup no_idna fetch_private
           "https://github.com/user/repo" with_token
           [Fetched (mkRequest "https://api.github.com/repos/user/repo"
                       [accept_header; ("Authorization", "token secret")])]
           (mkParsed (mkMetadata "user" "repo" None None github (Bool true))
              "https://github.com/user/repo" "https://github.com/user/repo")
           (mkRequest "https://api.github.com/repos/user/repo"
              [accept_header; ("Authorization", "token secret")])).
  - reflexivity.
  - left. reflexivity.
Defined.

Lemma unknown_host_is_looked_up_on_github_witness :
  parse no_idna fetch_private "https://example.com/user/repo" no_options
  = ([Fetched (mkRequest "https://api.github.com/repos/user/repo"
                 [accept_header])],
     Normal (mkParsed (mkMetadata "user" "repo" None None github (Bool true))
               "https://example.com/user/repo"
               "https://example.com/user/repo"))
  /\
  (github = github /\
   "https://example.com/user/repo"
   = "https://" ++ "example.com" ++ "/" ++ "user" ++ "/" ++ "repo" /\
   hd_error [Fetched (mkRequest "https://api.github.com/repos/user/repo"
                        [accept_header])]
   = Some (Fetched (mkRequest "https://api.github.com/repos/user/repo"
                      [accept_header])) /\
   (forall resp data v,
      fetch_private (mkRequest "https://api.github.com/repos/user/repo"
                       [accept_header]) = Normal resp ->
      ok resp = true -> json resp = Normal data ->
      get_property data "private" = Normal v -> Bool true = v)).
Proof.
  split; [reflexivity|].
  apply (unknown_host_is_looked_up_on_github no_idna fetch_private
           "https://example.com/user/repo" no_options
           [Fetched (mkRequest "https://api.github.com/repos/user/repo"
                       [accept_header])]
           (mkParsed (mkMetadata "user" "repo" None None github (Bool true))
              "https://example.com/user/repo" "https://example.com/user/repo")
           (URL.mkURL "https" (Some (URL.Domain "example.com")) None
              (URL.PathList ["user"; "repo"])));
    reflexivity.
Defined.

Lemma originalUrl_parses_alike_witness :
  accepts no_idna "user/repo.git" = true /\
  (parse no_idna fetch_private (expand "user/repo.git") with_token
   = parse no_idna fetch_private "user/repo.git" with_token /\
   (Str.includes "://" "user/repo.git" = false ->
    parse no_idna fetch_private ("https://github.com/" ++ "user/repo.git")
      with_token
    = parse no_idna fetch_private "user/repo.git" with_token) /\
   (forall r,
      completion (parse no_idna fetch_private "user/repo.git" with_token)
      = Normal r ->
      originalUrl r = expand "user/repo.git" /\
      completion (parse no_idna fetch_private (originalUrl r) with_token)
      = Normal r)).
Proof.
  split; [reflexivity|].
  apply (originalUrl_parses_alike no_idna fetch_private "user/repo.git"
           with_token).
  reflexivity.
Defined.

Lemma isValidProvider_tells_the_default_witness :
  (Str.includes "://" "https://example.com/user/repo" = true /\
   completion (parse no_idna fetch_public "https://example.com/user/repo"
                 no_options)
   = Normal (mkParsed (mkMetadata "user" "repo" None None github (Bool false))
               "https://example.com/user/repo"
               "https://example.com/user/repo"))
  /\
  exists u b,
    URL.basic_url_parse no_idna "https://example.com/user/repo" = Some u /\
    isValidProvider no_idna "https://example.com/user/repo"
    = ([], Normal b) /\
    (b = true <->
     exists pattern,
       In (github, pattern) PROVIDER_PATTERNS /\
       RegExp.test_literal pattern (URL.hostname u) = true) /\
    (b = false -> github = github).
Proof.
  split; [split; reflexivity|].
  apply (isValidProvider_tells_the_default no_idna fetch_public
           "https://example.com/user/repo" no_options
           (mkParsed (mkMetadata "user" "repo" None None github (Bool false))
              "https://example.com/user/repo" "https://example.com/user/repo"));
    reflexivity.
Defined.

End CallSpec.

(** * The route

    [action] of [api.repo.ts]: it reads the JSON body of the request, hands
    its [url] to [GitRepoParser.parse] and answers with the result, or with
    an error envelope. *)

Module ApiRepo.

Import JS GitRepoParser.
Local Open Scope eff_scope.

(** The [Response] that [action] builds.  The body is the text
    [JSON.stringify] writes; it is kept here as the JSON value that text
    denotes. *)
Record ActionResponse : Type := mkActionResponse {
  response_status : N;
  response_headers : list (string * string);
  response_body : Value
}.

Definition is_undefined (v : Value) : bool :=
  match v with Undefined => true | _ => false end.

Definition value_of_option (s : option string) : Value :=
  match s with Some s => Str s | None => Undefined end.

Definition provider_name (p : Provider) : string :=
  match p with
  | github => "github"
  | gitlab => "gitlab"
  | bitbucket => "bitbucket"
  end.

(** A [ParsedGitUrl] as the object it is. *)
Definition value_of_result (r : ParsedGitUrl) : Value :=
  let m := metadata r in
  Object
    [("metadata",
      Object [("owner", Str (owner m));
              ("repo", Str (repo m));
              ("branch", value_of_option (branch m));
              ("commit", value_of_option (commit m));
              ("provider", Str (provider_name (provider m)));
              ("isPrivate", isPrivate m)]);
     ("normalizedUrl", Str (normalizedUrl r));
     ("originalUrl", Str (originalUrl r))].

(** [error instanceof Error]: each exception of the model is an [Error]. *)
Definition instanceof_Error (e : Exception) : bool :=
  match e with
  | TypeError _ | ZodError _ | Error _ | NetworkError _ | SyntaxError _ => true
  end.

Definition json_headers : list (string * string) :=
  [("Content-Type", "application/json")].

Section Platform.

Variable unicode_to_ascii : string -> option string.

(** zod: the [message] of a [ZodError], from the message of its one issue;
    and the message of the issue [z.string()] raises on a value that is not
    a string. *)
Variable zod_message : string -> string.
Variable not_a_string : Value -> string.

(** The engine: the message of the [TypeError] it throws when [url] is
    destructured from [null] or [undefined]. *)
Variable not_destructurable : Value -> string.

(** [JSON.stringify] on the number a literal denotes: the number as JSON
    writes it, and [null] when the number is not finite. *)
Variable number_to_json : string -> Value.

Variable fetch : Request -> Completion Response.

(** What [JSON.stringify] writes of a value: a property that holds
    [undefined] is left out, an item of an array that is [undefined] is
    written as [null], a number is written anew. *)
Fixpoint stringify (v : Value) : Value :=
  match v with
  | Number literal => number_to_json literal
  | Array items =>
      Array (List.map
               (fun x => if is_undefined x then Null else stringify x) items)
  | Object properties =>
      Object (List.filter (fun kv => negb (is_undefined (snd kv)))
                (List.map (fun kv => (fst kv, stringify (snd kv))) properties))
  | _ => v
  end.

(** [error.message] *)
Definition error_message (e : Exception) : string :=
  match e with
  | ZodError issue => zod_message issue
  | TypeError m | Error m | NetworkError m | SyntaxError m => m
  end.

(** [const { url } = body] *)
Definition destructure_url (body : Value) : Completion Value :=
  match body with
  | Undefined | Null => Throw (TypeError (not_destructurable body))
  | _ => get_property body "url"
  end.

(** [GitRepoParser.parse(url)] on whatever the body holds under [url]: the
    type [{ url: string }] is checked by nobody, and [z.string()] rejects a
    value that is not a string on line 84. *)
Definition parse_value (url : Value) : Eff ParsedGitUrl :=
  match url with
  | Str s => parse unicode_to_ascii fetch s (mkOptions None)
  | _ => throw (ZodError (not_a_string url))
  end.

(** [action({ request })]; [request_json] is what awaiting [request.json()]
    gives. *)
Definition action (request_json : Completion Value) : Eff ActionResponse :=
  try_catch
    (body <- lift request_json ;;
     url <- lift (destructure_url body) ;;
     result <- parse_value url ;;
     ret (mkActionResponse 200 json_headers
            (stringify (value_of_result result))))
    (fun error =>
       let errorResponse :=
         Object
           [("error",
             Object [("code", Str "INVALID_REPOSITORY_URL");
                     ("message",
                      Str (if instanceof_Error error then error_message error
                           else "Failed to parse repository URL"))])] in
       ret (mkActionResponse 400 json_headers (stringify errorResponse))).

End Platform.

End ApiRepo.

(** ** What the route answers *)

Module ApiRepoSpec.

Import JS GitRepoParser StrFacts ParseFacts CallSpec ApiRepo.

Definition error_envelope (message : string) : Value :=
  Object [("error",
           Object [("code", Str "INVALID_REPOSITORY_URL");
                   ("message", Str message)])].

Definition is_string (v : Value) : bool :=
  match v with Str _ => true | _ => false end.

Section Platform.

Variable unicode_to_ascii : string -> option string.
Variable zod_message : string -> string.
Variable not_a_string : Value -> string.
Variable not_destructurable : Value -> string.
Variable number_to_json : string -> Value.

Definition failure (e : Exception) : ActionResponse :=
  mkActionResponse 400 json_headers
    (error_envelope (error_message zod_message e)).

Definition answer (r : ParsedGitUrl) : ActionResponse :=
  mkActionResponse 200 json_headers
    (stringify number_to_json (value_of_result r)).

Lemma catch_failure (e : Exception) :
  (if instanceof_Error e then error_message zod_message e
   else "Failed to parse repository URL") = error_message zod_message e.
Proof. destruct e; reflexivity. Qed.

(** Destructuring reads the property, unless there is nothing to read it
    from. *)
Lemma destructure_url_normal (body v : Value) :
  destructure_url not_destructurable body = Normal v <->
  get_property body "url" = Normal v.
Proof. destruct body; cbn; split; intros H; try discriminate H; exact H. Qed.

Lemma destructure_url_throw (body : Value) (e : Exception) :
  destructure_url not_destructurable body = Throw e ->
  (body = Null \/ body = Undefined) /\ e = TypeError (not_destructurable body).
Proof.
  destruct body; cbn; intros H; try discriminate H;
    try (inversion H; subst; auto; fail).
  destruct (find _ _) as [[k w]|]; discriminate H.
Qed.

(** What decides the status: the request alone. *)
Definition settled (request_json : Completion Value) : bool :=
  match request_json with
  | Throw _ => false
  | Normal body =>
      match destructure_url not_destructurable body with
      | Normal (Str s) =>
          match extract unicode_to_ascii s with
          | Normal _ => true
          | Throw _ => false
          end
      | _ => false
      end
  end.

Lemma extract_normal_iff (s : string) :
  (exists t, extract unicode_to_ascii s = Normal t) <->
  exists u o segment,
    accepts unicode_to_ascii s = true /\
    URL.basic_url_parse unicode_to_ascii (expand s) = Some u /\
    nth_error (path_segments u) 0 = Some o /\
    nth_error (path_segments u) 1 = Some segment /\
    RegExp.replace_dot_git segment <> "".
Proof.
  split.
  - intros [[[u o] c] He].
    destruct (extract_normal _ _ _ _ _ He)
      as (Ha & Hu & Ho & (rp & Hrp & ->) & _ & Hc).
    exists u, o, rp. auto.
  - intros (u & o & rp & Ha & Hu & Ho & Hrp & Hc).
    destruct (PathFacts.filter_Boolean_In _ _ (nth_error_In _ _ Ho))
      as [_ Hno].
    exists (u, o, RegExp.replace_dot_git rp).
    unfold extract. rewrite Ha, Hu, Ho, Hrp. cbn [option_map].
    apply is_empty_false in Hno, Hc. rewrite Hno, Hc. reflexivity.
Qed.

Lemma settled_iff (request_json : Completion Value) :
  settled request_json = true <->
  exists body s u o segment,
    request_json = Normal body /\
    get_property body "url" = Normal (Str s) /\
    accepts unicode_to_ascii s = true /\
    URL.basic_url_parse unicode_to_ascii (expand s) = Some u /\
    nth_error (path_segments u) 0 = Some o /\
    nth_error (path_segments u) 1 = Some segment /\
    RegExp.replace_dot_git segment <> "".
Proof.
  unfold settled. split.
  - destruct request_json as [body|e]; [|discriminate].
    destruct (destructure_url not_destructurable body) as [url|e] eqn:Hd;
      [|discriminate].
    destruct url as [| |b|n|s|items|properties]; try discriminate.
    destruct (extract unicode_to_ascii s) as [t|e] eqn:He; [|discriminate].
    intros _. apply destructure_url_normal in Hd.
    destruct (proj1 (extract_normal_iff s) (ex_intro _ t He))
      as (u & o & rp & H).
    exists body, s, u, o, rp. tauto.
  - intros (body & s & u & o & rp & -> & Hg & H).
    apply destructure_url_normal in Hg. rewrite Hg.
    destruct (proj2 (extract_normal_iff s)) as [t ->]; [|reflexivity].
    exists u, o, rp. exact H.
Qed.

Section Network.

Variable fetch : Request -> Completion Response.

(** Every path through [action]. *)
Lemma action_eq (request_json : Completion Value) :
  action unicode_to_ascii zod_message not_a_string not_destructurable
    number_to_json fetch request_json =
  match request_json with
  | Throw e => ([], Normal (failure e))
  | Normal body =>
      match destructure_url not_destructurable body with
      | Throw e => ([], Normal (failure e))
      | Normal url =>
          match url with
          | Str s =>
              match parse unicode_to_ascii fetch s (mkOptions None) with
              | (ev, Normal r) => (ev, Normal (answer r))
              | (ev, Throw e) => (ev, Normal (failure e))
              end
          | _ => ([], Normal (failure (ZodError (not_a_string url))))
          end
      end
  end.
Proof.
  unfold action, failure, answer, error_envelope.
  destruct request_json as [body|e];
    [|cbn; rewrite catch_failure; reflexivity].
  cbn [lift bind].
  destruct (destructure_url not_destructurable body) as [url|e];
    [|cbn; rewrite catch_failure; reflexivity].
  destruct url as [| |b|n|s|items|properties]; try (cbn; reflexivity).
  cbn [parse_value].
  destruct (parse unicode_to_ascii fetch s (mkOptions None)) as [ev [r|e]].
  - cbn. rewrite app_nil_r. reflexivity.
  - cbn. rewrite catch_failure, app_nil_r. reflexivity.
Qed.

(** The status of the answer, by the request. *)
Lemma action_status (request_json : Completion Value) :
  exists ev resp,
    action unicode_to_ascii zod_message not_a_string not_destructurable
      number_to_json fetch request_json = (ev, Normal resp) /\
    response_headers resp = [("Content-Type", "application/json")] /\
    response_status resp = (if settled request_json then 200%N else 400%N).
Proof.
  rewrite action_eq. unfold settled.
  destruct request_json as [body|e]; [|eexists _, _; repeat split].
  destruct (destructure_url not_destructurable body) as [url|e];
    [|eexists _, _; repeat split].
  destruct url as [| |b|n|s|items|properties];
    try (eexists _, _; repeat split; fail).
  rewrite parse_eq.
  destruct (extract unicode_to_ascii s) as [[[u o] c]|e].
  - destruct (resolve_visibility_normal fetch
                (detect_provider (URL.hostname u)) o c (mkOptions None))
      as [v Hv].
    rewrite Hv. eexists _, _. repeat split.
  - eexists _, _. repeat split.
Qed.

End Network.

(** X8: [action] never throws; whatever the request holds, it answers with
    a JSON response of status 200 or 400.  Which of the two is settled by
    the request alone: the status is 200 exactly when the body of the
    request was read as JSON and holds under [url] a string that the format
    step accepts and whose expanded URL has a first path segment and a
    second one that is more than [.git].  What [fetch] does cannot change
    the status: the lookup is best effort for the route too. *)
Theorem action_always_answers
  (fetch fetch' : Request -> Completion Response)
  (request_json : Completion Value) :
  exists ev resp,
    action unicode_to_ascii zod_message not_a_string not_destructurable
      number_to_json fetch request_json = (ev, Normal resp) /\
    response_headers resp = [("Content-Type", "application/json")] /\
    (response_status resp = 200%N \/ response_status resp = 400%N) /\
    (response_status resp = 200%N <->
     exists body s u o segment,
       request_json = Normal body /\
       get_property body "url" = Normal (Str s) /\
       accepts unicode_to_ascii s = true /\
       URL.basic_url_parse unicode_to_ascii (expand s) = Some u /\
       nth_error (path_segments u) 0 = Some o /\
       nth_error (path_segments u) 1 = Some segment /\
       RegExp.replace_dot_git segment <> "") /\
    exists ev' resp',
      action unicode_to_ascii zod_message not_a_string not_destructurable
        number_to_json fetch' request_json = (ev', Normal resp') /\
      response_status resp' = response_status resp.
Proof.
  destruct (action_status fetch request_json) as (ev & resp & Ha & Hh & Hs).
  destruct (action_status fetch' request_json) as (ev' & resp' & Ha' & _ & Hs').
  exists ev, resp. split; [exact Ha|]. split; [exact Hh|].
  rewrite Hs. split; [destruct (settled request_json); auto|].
  split.
  - rewrite <- settled_iff. destruct (settled request_json);
      split; intros H; try reflexivity; discriminate H.
  - exists ev', resp'. split; [exact Ha'|exact Hs'].
Qed.

(** X9: a 400 answer.  The route has then caused no event: no request was
    sent and nothing was logged.  The body is the envelope with the code
    [INVALID_REPOSITORY_URL] and the message of the error that was caught,
    which is: the reason the body could not be read as JSON; the
    [TypeError] of destructuring [url] from [null]; the [ZodError] of a
    [url] that is missing or not a string; or one of the two failures of
    [parse]. *)
Theorem action_failure_is_silent
  (fetch : Request -> Completion Response)
  (request_json : Completion Value)
  (ev : list Event) (resp : ActionResponse) :
  action unicode_to_ascii zod_message not_a_string not_destructurable
    number_to_json fetch request_json = (ev, Normal resp) ->
  response_status resp = 400%N ->
  ev = [] /\
  exists e,
    response_body resp = error_envelope (error_message zod_message e) /\
    (request_json = Throw e \/
     (exists body,
        request_json = Normal body /\ (body = Null \/ body = Undefined) /\
        e = TypeError (not_destructurable body)) \/
     (exists body url,
        request_json = Normal body /\ get_property body "url" = Normal url /\
        is_string url = false /\ e = ZodError (not_a_string url)) \/
     (exists body s,
        request_json = Normal body /\
        get_property body "url" = Normal (Str s) /\
        parse unicode_to_ascii fetch s (mkOptions None) = ([], Throw e) /\
        (e = InvalidFormat \/ e = MissingOwnerOrRepo))).
Proof.
  rewrite action_eq. intros Ha Hs.
  destruct request_json as [body|e].
  2:{ inversion Ha; subst. split; [reflexivity|]. exists e. auto. }
  destruct (destructure_url not_destructurable body) as [url|e] eqn:Hurl.
  2:{ inversion Ha; subst. split; [reflexivity|]. exists e.
      split; [reflexivity|]. right. left. exists body.
      destruct (destructure_url_throw body e Hurl) as [Hb He]. auto. }
  apply destructure_url_normal in Hurl.
  destruct url as [| |b|n|s|items|properties];
    try (inversion Ha; subst; split; [reflexivity|];
         eexists; split; [reflexivity|];
         right; right; left; exists body; eexists;
         split; [reflexivity|]; split; [exact Hurl|];
         split; reflexivity).
  destruct (parse unicode_to_ascii fetch s (mkOptions None)) as [ev' [r|e]]
    eqn:Hp; inversion Ha; subst; [discriminate Hs|].
  rewrite parse_eq in Hp.
  destruct (extract unicode_to_ascii s) as [[[u o] c]|e'] eqn:He.
  { destruct (resolve_visibility_normal fetch
                (detect_provider (URL.hostname u)) o c (mkOptions None))
      as [v Hv]. rewrite Hv in Hp. discriminate. }
  inversion Hp; subst. split; [reflexivity|]. exists e.
  split; [reflexivity|]. right. right. right. exists body, s.
  split; [reflexivity|]. split; [exact Hurl|].
  split; [apply parse_throws; exact He|].
  destruct (extract_throws _ _ _ He) as [[-> _]|[-> _]]; auto.
Qed.

(** X10: the route passes no options to [parse], so it has no way to send a
    token.  A request it sends comes from a call that is answered with 200,
    goes to the repository endpoint of the GitHub API, and carries the
    [Accept] header and nothing else; and it sends one request at most. *)
Theorem action_sends_no_token
  (fetch : Request -> Completion Response)
  (request_json : Completion Value)
  (ev : list Event) (resp : ActionResponse) :
  action unicode_to_ascii zod_message not_a_string not_destructurable
    number_to_json fetch request_json = (ev, Normal resp) ->
  List.length (List.filter (fun e => match e with Fetched _ => true
                                            | ConsoleError _ => false end) ev)
  <= 1 /\
  forall q,
    In (Fetched q) ev ->
    response_status resp = 200%N /\
    request_headers q = [accept_header] /\
    exists s r,
      parse unicode_to_ascii fetch s (mkOptions None) = (ev, Normal r) /\
      hd_error ev = Some (Fetched q) /\
      request_url q = "https://api.github.com/repos/" ++ owner (metadata r)
                      ++ "/" ++ repo (metadata r).
Proof.
  rewrite action_eq. intros Ha.
  assert (Hnone : ev = [] ->
            List.length
              (List.filter (fun e => match e with Fetched _ => true
                                             | ConsoleError _ => false end) ev)
            <= 1 /\
            forall q,
              In (Fetched q) ev ->
              response_status resp = 200%N /\
              request_headers q = [accept_header] /\
              exists s r,
                parse unicode_to_ascii fetch s (mkOptions None)
                = (ev, Normal r) /\
                hd_error ev = Some (Fetched q) /\
                request_url q
                = "https://api.github.com/repos/" ++ owner (metadata r)
                  ++ "/" ++ repo (metadata r)).
  { intros ->. split; [cbn; lia|]. intros q []. }
  destruct request_json as [body|e]; [|apply Hnone; congruence].
  destruct (destructure_url not_destructurable body) as [url|e];
    [|apply Hnone; congruence].
  destruct url as [| |b|n|s|items|properties];
    try solve [apply Hnone; congruence].
  clear Hnone.
  destruct (parse unicode_to_ascii fetch s (mkOptions None)) as [ev' [r|e]]
    eqn:Hp; inversion Ha; subst.
  - destruct (events_shape _ _ _ _ _ _ Hp) as [->|[->|[l ->]]].
    + split; [cbn; lia|]. intros q [].
    + split; [cbn; lia|]. intros q [H|[]]. injection H as <-.
      split; [reflexivity|]. split; [reflexivity|].
      exists s, r. split; [exact Hp|]. split; reflexivity.
    + split; [cbn; lia|]. intros q [H|[H|[]]]; [|discriminate H].
      injection H as <-.
      split; [reflexivity|]. split; [reflexivity|].
      exists s, r. split; [exact Hp|]. split; reflexivity.
  - rewrite parse_eq in Hp.
    destruct (extract unicode_to_ascii s) as [[[u o] c]|e'] eqn:He.
    { destruct (resolve_visibility_normal fetch
                  (detect_provider (URL.hostname u)) o c (mkOptions None))
        as [v Hv]. rewrite Hv in Hp. discriminate. }
    inversion Hp; subst. split; [cbn; lia|]. intros q [].
Qed.

End Platform.

Import Fixtures.

(** The body [{ "url": "user/repo.git" }], and the answer to it, whatever
    zod and the engine word their messages like: [branch] and [commit] are
    absent from the JSON text. *)
Example action_on_shorthand (zod_message : string -> string)
  (not_a_string not_destructurable : Value -> string)
  (number_to_json : string -> Value) :
  action no_idna zod_message not_a_string not_destructurable number_to_json
    fetch_private (Normal (Object [("url", Str "user/repo.git")]))
  = ([Fetched (mkRequest "https://api.github.com/repos/user/repo"
                 [accept_header])],
     Normal
       (mkActionResponse 200 [("Content-Type", "application/json")]
          (Object
             [("metadata",
               Object [("owner", Str "user"); ("repo", Str "repo");
                       ("provider", Str "github");
                       ("isPrivate", Bool true)]);
              ("normalizedUrl", Str "https://github.com/user/repo");
              ("originalUrl", Str "https://github.com/user/repo.git")]))).
Proof. reflexivity. Qed.

(** The body [{ "url": "https://github.com/user" }]: a URL without a
    repository name, answered with the message of line 112. *)
Lemma action_failure_is_silent_witness :
  (forall zod_message not_a_string not_destructurable number_to_json,
     action no_idna zod_message not_a_string not_destructurable
       number_to_json fetch_private
       (Normal (Object [("url", Str "https://github.com/user")]))
     = ([], Normal
              (mkActionResponse 400 json_headers
                 (error_envelope
                    "Invalid repository URL: missing owner or repository name")))
     /\ 400%N = 400%N)
  /\
  (forall (zod_message : string -> string)
          (not_a_string not_destructurable : Value -> string),
     @nil Event = [] /\
     exists e,
       error_envelope
         "Invalid repository URL: missing owner or repository name"
       = error_envelope (error_message zod_message e) /\
       (Normal (Object [("url", Str "https://github.com/user")])
        = @Throw Value e \/
        (exists body,
           Normal (Object [("url", Str "https://github.com/user")])
           = Normal body /\
           (body = Null \/ body = Undefined) /\
           e = TypeError (not_destructurable body)) \/
        (exists body url,
           Normal (Object [("url", Str "https://github.com/user")])
           = Normal body /\
           get_property body "url" = Normal url /\
           is_string url = false /\ e = ZodError (not_a_string url)) \/
        (exists body s,
           Normal (Object [("url", Str "https://github.com/user")])
           = Normal body /\
           get_property body "url" = Normal (Str s) /\
           parse no_idna fetch_private s (mkOptions None) = ([], Throw e) /\
           (e = InvalidFormat \/ e = MissingOwnerOrRepo)))).
Proof.
  split; [intros; split; reflexivity|].
  intros zod_message not_a_string not_destructurable.
  apply (action_failure_is_silent no_idna zod_message not_a_string
           not_destructurable (fun literal => Number literal) fetch_private
           (Normal (Object [("url", Str "https://github.com/user")])) []
           (mkActionResponse 400 json_headers
              (error_envelope
                 "Invalid repository URL: missing owner or repository name")));
    reflexivity.
Defined.

Lemma action_sends_no_token_witness :
  (forall zod_message not_a_string not_destructurable number_to_json,
     action no_idna zod_message not_a_string not_destructurable
       number_to_json fetch_private
       (Normal (Object [("url", Str "https://github.com/user/repo")]))
     = ([Fetched (mkRequest "https://api.github.com/repos/user/repo"
                    [accept_header])],
        Normal
          (answer number_to_json
             (mkParsed
                (mkMetadata "user" "repo" None None github (Bool true))
                "https://github.com/user/repo"
                "https://github.com/user/repo"))))
  /\
  (List.length
     (List.filter (fun e => match e with Fetched _ => true
                                    | ConsoleError _ => false end)
        [Fetched (mkRequest "https://api.github.com/repos/user/repo"
                    [accept_header])])
   <= 1 /\
   forall q,
     In (Fetched q)
       [Fetched (mkRequest "https://api.github.com/repos/user/repo"
                   [accept_header])] ->
     200%N = 200%N /\
     request_headers q = [accept_header] /\
     exists s r,
       parse no_idna fetch_private s (mkOptions None)
       = ([Fetched (mkRequest "https://api.github.com/repos/user/repo"
                      [accept_header])], Normal r) /\
       hd_error [Fetched (mkRequest "https://api.github.com/repos/user/repo"
                            [accept_header])] = Some (Fetched q) /\
       request_url q = "https://api.github.com/repos/" ++ owner (metadata r)
                       ++ "/" ++ repo (metadata r)).
Proof.
  split; [intros; reflexivity|].
  apply (action_sends_no_token no_idna (fun issue => issue) (fun _ => "")
           (fun _ => "") (fun literal => Number literal) fetch_private
           (Normal (Object [("url", Str "https://github.com/user/repo")]))
           [Fetched (mkRequest "https://api.github.com/repos/user/repo"
                       [accept_header])]
           (answer (fun literal => Number literal)
              (mkParsed (mkMetadata "user" "repo" None None github (Bool true))
                 "https://github.com/user/repo"
                 "https://github.com/user/repo"))).
  reflexivity.
Defined.

End ApiRepoSpec.

(** ** What follows the repository name *)

Module SuffixSpec.

Import JS GitRepoParser StrFacts ParseFacts RegExpFacts URLFacts PathFacts.
Import OwnerRepoSpec IdempotenceSpec.

(** A segment that path state leaves as it is: not empty, no dot segment,
    and made of characters that are no delimiter and need no
    percent-encoding. *)
Definition plain_segment (s : string) : bool :=
  negb (Str.is_empty s) && Str.all is_segment_char s
  && negb (URL.is_single_dot s) && negb (URL.is_double_dot s).

(** What may follow the repository name: nothing or one slash, and then
    nothing or a query or a fragment, whatever it holds. *)
Definition ignored_tail (t : string) : bool :=
  let rest :=
    match t with
    | String c r => if URL.is_slash c then r else t
    | EmptyString => t
    end in
  match rest with
  | EmptyString => true
  | String d _ => URL.is_question d || URL.is_hash d
  end.

(** What the URL parser keeps of a text that follows clean text: it drops
    the control characters and spaces at the end, and every tab and
    newline. *)
Definition kept (t : string) : string :=
  Str.filter (fun c => negb (URL.is_tab_or_newline c)) (URL.trim_trailing t).

Lemma plain_segment_spec (s : string) :
  plain_segment s = true ->
  s <> "" /\ Str.all is_segment_char s = true /\
  URL.is_single_dot s = false /\ URL.is_double_dot s = false.
Proof.
  unfold plain_segment. rewrite !andb_true_iff, !negb_true_iff.
  intros [[[H1 H2] H3] H4]. apply is_empty_false in H1. auto.
Qed.

Lemma stop_char (d : ascii) :
  URL.is_question d || URL.is_hash d = true ->
  URL.is_slash d || true && URL.is_backslash d = false /\
  URL.is_c0_control_or_space d = false /\
  negb (URL.is_tab_or_newline d) = true.
Proof. by_char d. Qed.

Lemma slash_char (c : ascii) : URL.is_slash c = true -> c = "/"%char.
Proof. by_char c. Qed.

Lemma path_state_stop (file : bool) (seg : string) (d : ascii) (q : string) :
  Str.all is_segment_char seg = true ->
  URL.is_question d || URL.is_hash d = true ->
  forall path buffer,
    URL.path_state true file path buffer (seg ++ String d q)
    = URL.end_segment file false path (buffer ++ seg).
Proof.
  intros Hseg Hd. induction seg as [|c seg IH]; simpl; intros path buffer.
  - destruct (stop_char d Hd) as [H1 _]. simpl in H1.
    rewrite H1, Hd, append_empty_r. reflexivity.
  - simpl in Hseg. apply andb_true_iff in Hseg as [Hc Hseg].
    destruct (segment_char_spec c Hc) as (H1 & H2 & H3).
    simpl in H1. rewrite H1, H2, H3, (IH Hseg), append_assoc. reflexivity.
Qed.

(** *** Trimming and filtering behind clean text *)

Lemma trim_trailing_app (a t : string) :
  Str.all (fun c => negb (URL.is_c0_control_or_space c)) a = true ->
  URL.trim_trailing (a ++ t) = a ++ URL.trim_trailing t.
Proof.
  induction a as [|x a IH]; [reflexivity|]. cbn [Str.all append].
  rewrite andb_true_iff, negb_true_iff. intros [Hx Ha].
  cbn [URL.trim_trailing]. rewrite (IH Ha), Hx, andb_false_r. reflexivity.
Qed.

Lemma filter_app (p : ascii -> bool) (a t : string) :
  Str.all p a = true -> Str.filter p (a ++ t) = a ++ Str.filter p t.
Proof.
  induction a as [|x a IH]; [reflexivity|]. cbn [Str.all append Str.filter].
  rewrite andb_true_iff. intros [Hx Ha]. rewrite Hx, (IH Ha). reflexivity.
Qed.

Lemma kept_cons (x : ascii) (r : string) :
  URL.is_c0_control_or_space x = false ->
  negb (URL.is_tab_or_newline x) = true ->
  kept (String x r) = String x (kept r).
Proof.
  intros H2 H3. unfold kept. cbn [URL.trim_trailing].
  rewrite H2, andb_false_r. cbn [Str.filter]. rewrite H3. reflexivity.
Qed.

Lemma kept_stop (d : ascii) (q : string) :
  URL.is_question d || URL.is_hash d = true ->
  kept (String d q) = String d (kept q).
Proof.
  intros Hd. destruct (stop_char d Hd) as (_ & H2 & H3).
  exact (kept_cons d q H2 H3).
Qed.

(** A tail that is not read is still one after the parser has cleaned
    it. *)
Lemma ignored_tail_kept (t : string) :
  ignored_tail t = true -> ignored_tail (kept t) = true.
Proof.
  assert (Hrest : forall r,
            match r with
            | EmptyString => true
            | String d _ => URL.is_question d || URL.is_hash d
            end = true ->
            exists r',
              kept r = r' /\
              match r' with
              | EmptyString => true
              | String d _ => URL.is_question d || URL.is_hash d
              end = true /\
              match r' with
              | String c _ => URL.is_slash c = false
              | EmptyString => True
              end).
  { intros [|d q]; [exists ""; repeat split|]. intros Hd.
    exists (String d (kept q)). split; [apply kept_stop, Hd|].
    split; [exact Hd|]. destruct (stop_char d Hd) as (H1 & _).
    apply orb_false_iff in H1 as [H1 _]. exact H1. }
  unfold ignored_tail at 1. destruct t as [|c r]; [reflexivity|].
  destruct (URL.is_slash c) eqn:Hc.
  - intros H. destruct (Hrest r H) as (r' & Hk & Hr' & _).
    rewrite (slash_char c Hc).
    rewrite (kept_cons "/" r eq_refl eq_refl), Hk. exact Hr'.
  - intros H. destruct (Hrest (String c r) H) as (r' & Hk & Hr' & Hs).
    rewrite Hk. unfold ignored_tail. destruct r' as [|x y]; [reflexivity|].
    rewrite Hs. exact Hr'.
Qed.

(** The segments [parse] reads when an ignored tail follows [o/c]. *)
Lemma tail_segments (o c t : string) :
  o <> "" -> plain_segment c = true -> ignored_tail t = true ->
  Str.filter_Boolean (URL.path_state true false [o] "" (c ++ t)) = [o; c].
Proof.
  intros Hno Hc Ht.
  destruct (plain_segment_spec c Hc) as (Hnc & Hsc & Hs1 & Hs2).
  pose proof (filter_Boolean_pair o c Hno Hnc) as Hpair.
  assert (Hthree : Str.filter_Boolean [o; c; ""] = [o; c]).
  { unfold Str.filter_Boolean in *. cbn [filter] in *.
    destruct (negb (Str.is_empty o)); destruct (negb (Str.is_empty c));
      cbn in *; congruence. }
  unfold ignored_tail in Ht. destruct t as [|x r].
  - rewrite append_empty_r, (path_state_end false c Hsc).
    cbn [append]. rewrite (end_segment_plain false [o] c Hs1 Hs2). exact Hpair.
  - destruct (URL.is_slash x) eqn:Hx.
    + rewrite (slash_char x Hx), (path_state_sep false c r Hsc).
      cbn [append]. rewrite (end_segment_plain true [o] c Hs1 Hs2).
      cbn [app]. destruct r as [|d q]; [exact Hthree|].
      rewrite (path_state_stop false "" d q eq_refl Ht). exact Hthree.
    + rewrite (path_state_stop false c x r Hsc Ht).
      cbn [append]. rewrite (end_segment_plain false [o] c Hs1 Hs2).
      exact Hpair.
Qed.

Section Platform.

Variable unicode_to_ascii : string -> option string.

(** The parser on [https://<plain host>/<clean path>] and whatever text
    follows. *)
Lemma parse_https_tail (h p t : string) :
  plain_host h = true ->
  Str.all (fun c => negb (URL.is_c0_control_or_space c)) p = true ->
  URL.basic_url_parse unicode_to_ascii
    ("https://" ++ h ++ String "/" (p ++ t))
  = Some (URL.mkURL "https" (Some (URL.Domain h)) None
            (URL.PathList (URL.path_state true false [] "" (p ++ kept t)))).
Proof.
  intros Hp Hpath.
  destruct (plain_host_spec h Hp) as (Hne & Hall & _ & _).
  assert (Hclean : Str.all (fun c => negb (URL.is_c0_control_or_space c))
                     ("https://" ++ h ++ String "/" p) = true).
  { rewrite !all_app. cbn [Str.all].
    rewrite (all_impl _ _ _ host_char_not_space Hall), Hpath. reflexivity. }
  assert (Hshape : forall x,
            "https://" ++ h ++ String "/" (p ++ x)
            = ("https://" ++ h ++ String "/" p) ++ x).
  { intros x. cbn [append]. rewrite append_assoc. reflexivity. }
  unfold URL.basic_url_parse.
  change (URL.trim_leading ("https://" ++ h ++ String "/" (p ++ t)))
    with ("https://" ++ h ++ String "/" (p ++ t)).
  rewrite (Hshape t), (trim_trailing_app _ t Hclean).
  rewrite (filter_app _ _ _ (all_impl _ _ _ not_space_not_tab Hclean)).
  fold (kept t). rewrite <- (Hshape (kept t)).
  change (URL.scheme_state ("https://" ++ h ++ String "/" (p ++ kept t)))
    with (Some ("https", "//" ++ h ++ String "/" (p ++ kept t))).
  cbv beta iota.
  change (String.eqb "https" "file") with false.
  change (URL.is_special "https") with true. cbv iota.
  destruct h as [|c0 h']; [congruence|].
  assert (Hc : is_host_char c0 = true)
    by (simpl in Hall; apply andb_true_iff in Hall; tauto).
  replace (snd (Str.span (fun c1 => URL.is_slash c1 || URL.is_backslash c1)
                  ("//" ++ String c0 h' ++ String "/" (p ++ kept t))))
    with (String c0 h' ++ String "/" (p ++ kept t))
    by (simpl; rewrite (host_char_not_slash c0 Hc); reflexivity).
  apply authority_plain, Hp.
Qed.

Lemma tail_extract (h o c t : string) :
  plain_host h = true -> plain_segment o = true -> plain_segment c = true ->
  c <> ".git" -> ignored_tail t = true ->
  exists u,
    extract unicode_to_ascii ("https://" ++ h ++ "/" ++ o ++ "/" ++ c ++ t)
    = Normal (u, o, RegExp.replace_dot_git c) /\
    URL.hostname u = h.
Proof.
  intros Hh Ho Hc Hgit Ht.
  destruct (plain_segment_spec o Ho) as (Hno & Hso & Ho1 & Ho2).
  destruct (plain_segment_spec c Hc) as (Hnc & Hsc & _ & _).
  assert (Hrepo : RegExp.replace_dot_git c <> "").
  { intros H. apply replace_dot_git_empty in H. destruct H; congruence. }
  set (segments := URL.path_state true false [o] "" (c ++ kept t)).
  assert (Hurl : URL.basic_url_parse unicode_to_ascii
                   ("https://" ++ h ++ "/" ++ o ++ "/" ++ c ++ t)
                 = Some (URL.mkURL "https" (Some (URL.Domain h)) None
                           (URL.PathList segments))).
  { replace ("https://" ++ h ++ "/" ++ o ++ "/" ++ c ++ t)
      with ("https://" ++ h ++ String "/" ((o ++ String "/" c) ++ t))
      by (rewrite append_assoc; reflexivity).
    rewrite parse_https_tail; [|exact Hh|].
    - rewrite append_assoc. cbn [append].
      rewrite (path_state_sep false o (c ++ kept t) Hso). cbn [append].
      rewrite (end_segment_plain true [] o Ho1 Ho2). reflexivity.
    - rewrite all_app. cbn [Str.all].
      rewrite (all_impl _ _ _ segment_char_not_space Hso).
      rewrite (all_impl _ _ _ segment_char_not_space Hsc). reflexivity. }
  assert (Hinc : Str.includes "://"
                   ("https://" ++ h ++ "/" ++ o ++ "/" ++ c ++ t) = true)
    by (exact (includes_app "://" "https" (h ++ "/" ++ o ++ "/" ++ c ++ t))).
  assert (Hok : segments_ok segments).
  { apply path_state_ok; [|reflexivity].
    constructor; [|constructor]. unfold segment_ok.
    rewrite Ho1, Ho2, andb_true_r, andb_true_r.
    eapply all_impl; [|exact Hso]. clear. intros ch. by_char ch. }
  assert (Hns : Forall (fun x => Str.any URL.is_slash x = false) segments).
  { eapply Forall_impl; [|exact Hok]. intros x Hx.
    destruct (segment_ok_spec x Hx) as (Hx' & _).
    eapply all_none; [|exact Hx']. apply output_char_not_slash. }
  exists (URL.mkURL "https" (Some (URL.Domain h)) None
            (URL.PathList segments)).
  split; [|reflexivity].
  unfold extract, accepts, expand. rewrite Hinc. cbn [negb]. rewrite Hurl.
  cbn [URL.is_some].
  rewrite (path_segments_list segments "https" _ None Hns).
  unfold segments.
  rewrite (tail_segments o c (kept t) Hno Hc (ignored_tail_kept t Ht)).
  cbn [nth_error option_map].
  apply is_empty_false in Hno, Hrepo. rewrite Hno, Hrepo. reflexivity.
Qed.

(** X11: what follows the repository name is not read for owner, repo,
    provider or normalized URL.  Take [https://<host>/<owner>/<repo>] with a
    plain host and plain segments, where the repo segment is not [.git]
    alone, followed by nothing, by a slash, or by a query or fragment of any
    content with or without a slash before it.  On it [parse] succeeds and
    returns that owner, that repo without one trailing [.git], the provider
    the host gives, and the normalized URL made of them; the input is kept
    whole in [originalUrl]. *)
Theorem tail_is_not_read (fetch : Request -> Completion Response)
  (options : ParseOptions) (h o c t : string) :
  plain_host h = true -> plain_segment o = true -> plain_segment c = true ->
  c <> ".git" -> ignored_tail t = true ->
  exists r,
    completion (parse unicode_to_ascii fetch
                  ("https://" ++ h ++ "/" ++ o ++ "/" ++ c ++ t) options)
    = Normal r /\
    owner (metadata r) = o /\
    repo (metadata r) = RegExp.replace_dot_git c /\
    repo (metadata r) <> "" /\
    provider (metadata r) = detect_provider h /\
    normalizedUrl r
    = "https://" ++ h ++ "/" ++ o ++ "/" ++ RegExp.replace_dot_git c /\
    originalUrl r = "https://" ++ h ++ "/" ++ o ++ "/" ++ c ++ t.
Proof.
  intros Hh Ho Hc Hgit Ht.
  destruct (tail_extract h o c t Hh Ho Hc Hgit Ht) as (u & He & Hu).
  destruct (extract_normal _ _ _ _ _ He) as (_ & _ & _ & _ & _ & Hrepo).
  destruct (parse_succeeds unicode_to_ascii fetch _ options _ _ _ He)
    as (v & _ & Hp).
  eexists. split; [exact Hp|].
  cbn [metadata owner repo provider normalizedUrl originalUrl result_of].
  rewrite Hu. repeat split. exact Hrepo.
Qed.

End Platform.

Import Fixtures.

Lemma tail_is_not_read_witness :
  (plain_host "gitlab.com" = true /\ plain_segment "user" = true /\
   plain_segment "repo.git" = true /\ "repo.git" <> ".git" /\
   ignored_tail "/?q=a b#/tree/main  " = true)
  /\
  exists r,
    completion (parse no_idna fetch_public
                  ("https://" ++ "gitlab.com" ++ "/" ++ "user" ++ "/"
                   ++ "repo.git" ++ "/?q=a b#/tree/main  ") no_options)
    = Normal r /\
    owner (metadata r) = "user" /\
    repo (metadata r) = RegExp.replace_dot_git "repo.git" /\
    repo (metadata r) <> "" /\
    provider (metadata r) = detect_provider "gitlab.com" /\
    normalizedUrl r
    = "https://" ++ "gitlab.com" ++ "/" ++ "user" ++ "/"
      ++ RegExp.replace_dot_git "repo.git" /\
    originalUrl r
    = "https://" ++ "gitlab.com" ++ "/" ++ "user" ++ "/" ++ "repo.git"
      ++ "/?q=a b#/tree/main  ".
Proof.
  split; [repeat split; discriminate|].
  apply (tail_is_not_read no_idna fetch_public no_options "gitlab.com" "user"
           "repo.git" "/?q=a b#/tree/main  ");
    first [ reflexivity | discriminate ].
Defined.

(** The repo segment [.git] alone is a plain segment, and leaves no
    repository name. *)
Example dot_git_alone_leaves_no_repo :
  plain_segment ".git" = true /\
  parse no_idna fetch_public "https://github.com/user/.git" no_options
  = ([], Throw MissingOwnerOrRepo).
Proof. split; reflexivity. Qed.

(** The branch and the commit are looked for in the whole input, so a
    fragment can supply them. *)
Example branch_from_the_fragment :
  returned (parse no_idna fetch_public
              "https://gitlab.com/user/repo.git/?q=a b#/tree/main  "
              no_options)
  = Some (mkParsed
            (mkMetadata "user" "repo" (Some "main") None gitlab (Bool false))
            "https://gitlab.com/user/repo"
            "https://gitlab.com/user/repo.git/?q=a b#/tree/main  ").
Proof. reflexivity. Qed.

End SuffixSpec.

(** ** Query and fragment never reach the normalized URL *)

Module DelimiterSpec.

Import Char Str StrFacts URL URLFacts PathFacts HostFacts.

Local Open Scope N_scope.

(** The characters that start a query and a fragment. *)
Definition is_delimiter (c : ascii) : bool := is_question c || is_hash c.

Lemma decimal_byte_no_delimiter (n : N) :
  n < 256 -> any is_delimiter (decimal_byte n) = false.
Proof.
  intros H. apply negb_true_iff.
  apply (checked_below 256
           (fun n => negb (any is_delimiter (decimal_byte n))));
    [vm_compute; reflexivity|exact H].
Qed.

Lemma ipv4_serialize_no_delimiter (a : N) :
  any is_delimiter (ipv4_serialize a) = false.
Proof.
  unfold ipv4_serialize. repeat rewrite any_app. cbn [any].
  rewrite !decimal_byte_no_delimiter by (apply N.mod_lt; discriminate).
  reflexivity.
Qed.

Lemma hex_lower_no_delimiter (n : N) :
  n < 16 -> is_delimiter (hex_lower_of n) = false.
Proof.
  intros H. apply negb_true_iff.
  apply (checked_below 16 (fun n => negb (is_delimiter (hex_lower_of n))));
    [vm_compute; reflexivity|exact H].
Qed.

Lemma hex_piece_no_delimiter (p : N) : any is_delimiter (hex_piece p) = false.
Proof.
  unfold hex_piece.
  destruct (4096 <=? p); [|destruct (256 <=? p); [|destruct (16 <=? p)]];
    cbn [any];
    rewrite !hex_lower_no_delimiter by (apply N.mod_lt; discriminate);
    reflexivity.
Qed.

Lemma ipv6_pieces_no_delimiter (compress : option nat) (pieces : list N) :
  forall ignore0 pieceIndex,
    any is_delimiter (ipv6_pieces compress ignore0 pieceIndex pieces) = false.
Proof.
  induction pieces as [|p r IH]; intros ignore0 pieceIndex; [reflexivity|].
  cbn [ipv6_pieces].
  destruct (ignore0 && (p =? 0)); [apply IH|].
  destruct (is_index compress pieceIndex).
  - rewrite any_app, IH. destruct (pieceIndex =? 0)%nat; reflexivity.
  - rewrite !any_app, IH, hex_piece_no_delimiter.
    destruct (pieceIndex =? 7)%nat; reflexivity.
Qed.

Lemma percent_encode_byte_no_delimiter (c : ascii) :
  any is_delimiter (percent_encode_byte c) = false.
Proof. by_char c. Qed.

Lemma percent_encode_no_delimiter (set : ascii -> bool) (s : string) :
  any is_delimiter s = false -> any is_delimiter (percent_encode set s) = false.
Proof.
  induction s as [|c s IH]; simpl; [reflexivity|].
  rewrite orb_false_iff. intros [Hc Hs]. rewrite any_app, (IH Hs).
  unfold encode_with. destruct (set c).
  - rewrite percent_encode_byte_no_delimiter. reflexivity.
  - simpl. rewrite Hc. reflexivity.
Qed.

Lemma delimiter_forbidden_host (c : ascii) :
  is_delimiter c = true -> forbidden_host_code_point c = true.
Proof. by_char c. Qed.

Lemma delimiter_forbidden_domain (c : ascii) :
  is_delimiter c = true -> forbidden_domain_code_point c = true.
Proof. by_char c. Qed.

Definition host_clean (h : Host) : Prop :=
  any is_delimiter (host_serialize h) = false.

Section Parser.

Variable unicode_to_ascii : string -> option string.

Lemma host_parse_clean (isOpaque : bool) (input : string) (h : Host) :
  host_parse unicode_to_ascii isOpaque input = Some h -> host_clean h.
Proof.
  unfold host_parse, host_clean.
  destruct (starts_with "[" input).
  - destruct (negb (ends_with "]" input)); [discriminate|].
    destruct (ipv6_parse _) as [pieces|]; [|discriminate].
    intros H; inversion H; subst. cbn [host_serialize].
    rewrite !any_app. unfold ipv6_serialize.
    rewrite ipv6_pieces_no_delimiter. reflexivity.
  - destruct isOpaque.
    + unfold opaque_host_parse.
      destruct (any forbidden_host_code_point input) eqn:Hf; [discriminate|].
      intros H; inversion H; subst.
      destruct (is_empty _); [reflexivity|]. cbn [host_serialize].
      apply percent_encode_no_delimiter.
      exact (any_weaken _ _ _ delimiter_forbidden_host Hf).
    + destruct (domain_to_ascii unicode_to_ascii (percent_decode input))
        as [d|]; [|discriminate].
      destruct (any forbidden_domain_code_point d) eqn:Hf; [discriminate|].
      destruct (ends_in_number d).
      * destruct (ipv4_parse d) as [a|]; [|discriminate].
        intros H; inversion H; subst. apply ipv4_serialize_no_delimiter.
      * intros H; inversion H; subst. cbn [host_serialize].
        exact (any_weaken _ _ _ delimiter_forbidden_domain Hf).
Qed.

Definition url_host_clean (u : URLRecord) : Prop :=
  any is_delimiter (hostname u) = false.

Lemma host_state_clean (sch : string) (special : bool) (buffer rest : string)
  (u : URLRecord) :
  host_state unicode_to_ascii sch special buffer rest = Some u ->
  url_host_clean u.
Proof.
  unfold host_state, url_host_clean.
  destruct (host_scan false buffer) as [hb after].
  destruct after as [|c portBuffer].
  - destruct (special && is_empty hb); [discriminate|].
    destruct (host_parse _ _ hb) as [h|] eqn:Hh; [|discriminate].
    intros H; inversion H; subst. exact (host_parse_clean _ _ _ Hh).
  - destruct (is_empty hb); [discriminate|].
    destruct (host_parse _ _ hb) as [h|] eqn:Hh; [|discriminate].
    destruct (negb (all is_digit portBuffer)); [discriminate|].
    destruct (65535 <? parse_radix 10 portBuffer); [discriminate|].
    intros H; inversion H; subst. exact (host_parse_clean _ _ _ Hh).
Qed.

Lemma authority_state_clean (sch : string) (special : bool) (s : string)
  (u : URLRecord) :
  authority_state unicode_to_ascii sch special s = Some u -> url_host_clean u.
Proof.
  unfold authority_state.
  destruct (span _ s) as [authority rest].
  destruct (after_last_at authority) as [seen buffer].
  destruct (seen && is_empty buffer); [discriminate|].
  apply host_state_clean.
Qed.

Lemma file_host_state_clean (s : string) (u : URLRecord) :
  file_host_state unicode_to_ascii s = Some u -> url_host_clean u.
Proof.
  unfold file_host_state, url_host_clean.
  destruct (span _ s) as [buffer rest].
  destruct (is_windows_drive_letter buffer);
    [intros H; inversion H; reflexivity|].
  destruct (is_empty buffer); [intros H; inversion H; reflexivity|].
  destruct (host_parse _ _ buffer) as [h|] eqn:Hh; [|discriminate].
  pose proof (host_parse_clean _ _ _ Hh) as Hok.
  intros H; inversion H; subst. unfold hostname. cbn [host file_url].
  destruct h as [d| | | |]; try exact Hok.
  destruct (String.eqb d "localhost"); [reflexivity|exact Hok].
Qed.

Lemma file_state_clean (s : string) (u : URLRecord) :
  file_state unicode_to_ascii s = Some u -> url_host_clean u.
Proof.
  unfold file_state, url_host_clean.
  destruct s as [|c t]; [intros H; inversion H; reflexivity|].
  destruct (is_slash c || is_backslash c);
    [|intros H; inversion H; reflexivity].
  destruct t as [|c' t']; [intros H; inversion H; reflexivity|].
  destruct (is_slash c' || is_backslash c');
    [apply file_host_state_clean|intros H; inversion H; reflexivity].
Qed.

(** The host name of a parsed URL has no [?] and no [#]. *)
Lemma hostname_no_delimiter (s : string) (u : URLRecord) :
  basic_url_parse unicode_to_ascii s = Some u ->
  any is_delimiter (hostname u) = false.
Proof.
  unfold basic_url_parse.
  destruct (scheme_state _) as [[sch remaining]|]; [|discriminate].
  destruct (String.eqb sch "file"); [apply file_state_clean|].
  destruct (is_special sch); [apply authority_state_clean|].
  destruct remaining as [|c t]; [intros H; inversion H; reflexivity|].
  destruct (is_slash c); [|intros H; inversion H; reflexivity].
  destruct t as [|c' t']; [intros H; inversion H; reflexivity|].
  destruct (is_slash c');
    [apply authority_state_clean|intros H; inversion H; reflexivity].
Qed.

End Parser.

(** *** The path *)

Lemma encode_no_delimiter (set : ascii -> bool) (c : ascii) :
  is_delimiter c = false -> any is_delimiter (encode_with set c) = false.
Proof.
  intros Hc. unfold encode_with. destruct (set c).
  - apply percent_encode_byte_no_delimiter.
  - cbn [any]. rewrite Hc. reflexivity.
Qed.

Lemma opaque_path_no_delimiter (s : string) :
  any is_delimiter (opaque_path_state s) = false.
Proof.
  induction s as [|c s IH]; [reflexivity|]. cbn [opaque_path_state].
  destruct (is_question c || is_hash c) eqn:Hc; [reflexivity|].
  destruct (is_code 32 c).
  - rewrite any_app, IH.
    destruct (Str.starts_with "?" s || Str.starts_with "#" s); reflexivity.
  - rewrite any_app, IH, (encode_no_delimiter _ c Hc). reflexivity.
Qed.

Lemma output_char_no_delimiter (c : ascii) :
  IdempotenceSpec.is_output_char c = true -> is_delimiter c = false.
Proof. by_char c. Qed.

Lemma serialized_no_delimiter (segments : list string) :
  IdempotenceSpec.segments_ok segments ->
  any is_delimiter
    (fold_right (fun seg out => "/" ++ seg ++ out)%string "" segments) = false.
Proof.
  induction 1 as [|seg r Hseg _ IH]; [reflexivity|].
  cbn [fold_right]. rewrite !any_app, IH.
  destruct (IdempotenceSpec.segment_ok_spec seg Hseg) as (Hall & _).
  rewrite (all_none _ _ seg output_char_no_delimiter Hall). reflexivity.
Qed.

Lemma split_pieces_of (p : ascii -> bool) (sep : ascii) (s x : string) :
  any p s = false -> In x (split sep s) -> any p x = false.
Proof.
  revert x. induction s as [|c s IH]; simpl; intros x Hs Hx.
  - destruct Hx as [<-|[]]. reflexivity.
  - apply orb_false_iff in Hs as [Hc Hs].
    destruct (Ascii.eqb c sep).
    + destruct Hx as [<-|Hx]; [reflexivity|auto].
    + destruct (split sep s) as [|y r] eqn:E.
      * destruct Hx as [<-|[]]. simpl. rewrite Hc. reflexivity.
      * destruct Hx as [<-|Hx].
        -- simpl. rewrite Hc. apply IH; [exact Hs|left; reflexivity].
        -- apply IH; [exact Hs|right; exact Hx].
Qed.

Lemma ends_with_slash_free (c : string) :
  any is_slash c = false -> ends_with "/" c = false.
Proof.
  induction c as [|x c IH]; [reflexivity|]. cbn [any ends_with].
  rewrite orb_false_iff. intros [Hx Hc]. rewrite (IH Hc), orb_false_r.
  destruct (String.eqb "/" (String x c)) eqn:E; [|reflexivity].
  apply String.eqb_eq in E. inversion E; subst. discriminate Hx.
Qed.

Lemma ends_with_slash_app (a c : string) :
  c <> "" -> any is_slash c = false -> ends_with "/" (a ++ c) = false.
Proof.
  intros Hne Hc. induction a as [|x a IH]; [exact (ends_with_slash_free c Hc)|].
  cbn [append ends_with]. rewrite IH, orb_false_r.
  destruct (String.eqb "/" (String x (a ++ c))) eqn:E; [|reflexivity].
  apply String.eqb_eq in E. inversion E as [[Hx He]].
  destruct a; destruct c; simpl in He; congruence.
Qed.

Section PathKind.

Variable unicode_to_ascii : string -> option string.

(** A parsed URL has a list of segments for its path, or an opaque path
    that opaque path state built. *)
Definition path_kind (u : URLRecord) : Prop :=
  match path u with
  | PathList _ => True
  | OpaquePath p => exists remaining, p = opaque_path_state remaining
  end.

Lemma host_state_kind (sch : string) (special : bool) (buffer rest : string)
  (u : URLRecord) :
  host_state unicode_to_ascii sch special buffer rest = Some u -> path_kind u.
Proof.
  unfold host_state, path_kind.
  destruct (host_scan false buffer) as [hb after].
  destruct after as [|c portBuffer].
  - destruct (special && is_empty hb); [discriminate|].
    destruct (host_parse _ _ hb) as [h|]; [|discriminate].
    intros H; injection H as <-. exact I.
  - destruct (is_empty hb); [discriminate|].
    destruct (host_parse _ _ hb) as [h|]; [|discriminate].
    destruct (negb (all is_digit portBuffer)); [discriminate|].
    destruct (65535 <? parse_radix 10 portBuffer); [discriminate|].
    intros H; injection H as <-. exact I.
Qed.

Lemma authority_state_kind (sch : string) (special : bool) (s : string)
  (u : URLRecord) :
  authority_state unicode_to_ascii sch special s = Some u -> path_kind u.
Proof.
  unfold authority_state.
  destruct (span _ s) as [authority rest].
  destruct (after_last_at authority) as [seen buffer].
  destruct (seen && is_empty buffer); [discriminate|].
  apply host_state_kind.
Qed.

Lemma file_host_state_kind (s : string) (u : URLRecord) :
  file_host_state unicode_to_ascii s = Some u -> path_kind u.
Proof.
  unfold file_host_state, path_kind.
  destruct (span _ s) as [buffer rest].
  destruct (is_windows_drive_letter buffer);
    [intros H; injection H as <-; exact I|].
  destruct (is_empty buffer); [intros H; injection H as <-; exact I|].
  destruct (host_parse _ _ buffer) as [h|]; [|discriminate].
  intros H; injection H as <-. exact I.
Qed.

Lemma file_state_kind (s : string) (u : URLRecord) :
  file_state unicode_to_ascii s = Some u -> path_kind u.
Proof.
  unfold file_state.
  destruct s as [|c t]; [intros H; injection H as <-; exact I|].
  destruct (is_slash c || is_backslash c);
    [|intros H; injection H as <-; exact I].
  destruct t as [|c' t']; [intros H; injection H as <-; exact I|].
  destruct (is_slash c' || is_backslash c');
    [apply file_host_state_kind|intros H; injection H as <-; exact I].
Qed.

Lemma basic_url_parse_kind (s : string) (u : URLRecord) :
  basic_url_parse unicode_to_ascii s = Some u -> path_kind u.
Proof.
  unfold basic_url_parse.
  destruct (scheme_state _) as [[sch remaining]|]; [|discriminate].
  destruct (String.eqb sch "file"); [apply file_state_kind|].
  destruct (is_special sch); [apply authority_state_kind|].
  destruct remaining as [|c t];
    [intros H; injection H as <-; exists ""; reflexivity|].
  destruct (is_slash c);
    [|intros H; injection H as <-; exists (String c t); reflexivity].
  destruct t as [|c' t']; [intros H; injection H as <-; exact I|].
  destruct (is_slash c');
    [apply authority_state_kind|intros H; injection H as <-; exact I].
Qed.

(** The path of a parsed URL, as [pathname] gives it, has no [?] and no
    [#]. *)
Lemma pathname_no_delimiter (s : string) (u : URLRecord) :
  basic_url_parse unicode_to_ascii s = Some u ->
  any is_delimiter (pathname u) = false.
Proof.
  intros Hu.
  pose proof (basic_url_parse_kind s u Hu) as Hkind.
  pose proof (IdempotenceSpec.basic_url_parse_path _ s u Hu) as Hpath.
  unfold path_kind in Hkind. unfold IdempotenceSpec.url_path_ok in Hpath.
  unfold pathname. destruct (path u) as [p|segments].
  - destruct Hkind as [remaining ->]. apply opaque_path_no_delimiter.
  - apply serialized_no_delimiter, Hpath.
Qed.

End PathKind.

End DelimiterSpec.

Module CleanUrlSpec.

Import JS GitRepoParser StrFacts ParseFacts.
Import DelimiterSpec.

Section Platform.

Variable unicode_to_ascii : string -> option string.

(** X12: the query and the fragment of the input never reach the result's
    owner, repo or normalized URL: none of them has a [?] or a [#].  The
    normalized URL starts with [https://], whatever the scheme of the input
    was, and does not end in a slash. *)
Theorem normalizedUrl_has_no_query_or_fragment
  (fetch : Request -> Completion Response) (url : string)
  (options : ParseOptions) (r : ParsedGitUrl) :
  completion (parse unicode_to_ascii fetch url options) = Normal r ->
  Str.any is_delimiter (owner (metadata r)) = false /\
  Str.any is_delimiter (repo (metadata r)) = false /\
  Str.any is_delimiter (normalizedUrl r) = false /\
  Str.starts_with "https://" (normalizedUrl r) = true /\
  Str.ends_with "/" (normalizedUrl r) = false.
Proof.
  intros Hr.
  destruct (parse_normal _ _ _ _ _ Hr) as (u & o & c & v & He & _ & ->).
  destruct (extract_normal _ _ _ _ _ He)
    as (_ & Hu & Ho & (rp & Hrp & ->) & _ & Hnc).
  destruct (NormalizedUrlSpec.extract_no_slash _ _ _ _ _ He) as (_ & _ & Hsl).
  pose proof (hostname_no_delimiter _ _ _ Hu) as Hh.
  pose proof (pathname_no_delimiter _ _ _ Hu) as Hp.
  apply nth_error_In, PathFacts.filter_Boolean_In in Ho as [Ho _].
  apply nth_error_In, PathFacts.filter_Boolean_In in Hrp as [Hrp _].
  pose proof (split_pieces_of _ _ _ _ Hp Ho) as Hdo.
  pose proof (NormalizedUrlSpec.any_replace_dot_git _ _
                (split_pieces_of _ _ _ _ Hp Hrp)) as Hdc.
  cbn [metadata owner repo normalizedUrl result_of].
  split; [exact Hdo|]. split; [exact Hdc|]. split; [|split; [reflexivity|]].
  - rewrite !any_app, Hh, Hdo, Hdc. reflexivity.
  - replace ("https://" ++ URL.hostname u ++ "/" ++ o ++ "/"
             ++ RegExp.replace_dot_git rp)
      with (("https://" ++ URL.hostname u ++ "/" ++ o ++ "/")
            ++ RegExp.replace_dot_git rp)
      by (rewrite !append_assoc; reflexivity).
    apply ends_with_slash_app; assumption.
Qed.

End Platform.

Import Fixtures.

Lemma normalizedUrl_has_no_query_or_fragment_witness :
  completion (parse no_idna fetch_public
                "git://example.org/user/repo.git?ref=main#readme" no_options)
  = Normal (mkParsed
              (mkMetadata "user" "repo" None None github (Bool false))
              "https://example.org/user/repo"
              "git://example.org/user/repo.git?ref=main#readme")
  /\
  (Str.any is_delimiter "user" = false /\
   Str.any is_delimiter "repo" = false /\
   Str.any is_delimiter "https://example.org/user/repo" = false /\
   Str.starts_with "https://" "https://example.org/user/repo" = true /\
   Str.ends_with "/" "https://example.org/user/repo" = false).
Proof.
  split; [reflexivity|].
  apply (normalizedUrl_has_no_query_or_fragment no_idna fetch_public
           "git://example.org/user/repo.git?ref=main#readme" no_options
           (mkParsed
              (mkMetadata "user" "repo" None None github (Bool false))
              "https://example.org/user/repo"
              "git://example.org/user/repo.git?ref=main#readme")).
  reflexivity.
Defined.

End CleanUrlSpec.

(** ** The repository name and its [.git] *)

Module RepoNameSpec.

Import JS GitRepoParser StrFacts ParseFacts RegExpFacts.

Section Platform.

Variable unicode_to_ascii : string -> option string.

(** X13: the owner of a successful [parse] is the first non-empty segment
    of the path of the expanded URL, and the repo is the second one with one
    trailing [.git] removed, and no more than one: when the segment ends in
    [.git] it is the repo followed by [.git], otherwise it is the repo
    itself.  So the repo is never empty, and it still ends in [.git] when
    the segment ends in [.git.git]. *)
Theorem repo_is_segment_without_one_dot_git
  (fetch : Request -> Completion Response) (url : string)
  (options : ParseOptions) (r : ParsedGitUrl) :
  completion (parse unicode_to_ascii fetch url options) = Normal r ->
  exists u segment,
    URL.basic_url_parse unicode_to_ascii (expand url) = Some u /\
    nth_error (path_segments u) 0 = Some (owner (metadata r)) /\
    nth_error (path_segments u) 1 = Some segment /\
    repo (metadata r) <> "" /\
    ((Str.ends_with ".git" segment = true /\
      segment = repo (metadata r) ++ ".git") \/
     (Str.ends_with ".git" segment = false /\
      segment = repo (metadata r))) /\
    (Str.ends_with ".git.git" segment = true ->
     Str.ends_with ".git" (repo (metadata r)) = true).
Proof.
  intros Hr.
  destruct (parse_normal _ _ _ _ _ Hr) as (u & o & c & v & He & _ & ->).
  destruct (extract_normal _ _ _ _ _ He)
    as (_ & Hu & Ho & (rp & Hrp & ->) & _ & Hnc).
  exists u, rp. cbn [metadata owner repo result_of].
  split; [exact Hu|]. split; [exact Ho|]. split; [exact Hrp|].
  split; [exact Hnc|]. split.
  - destruct (replace_dot_git_spec rp) as [[He1 He2]|[He1 He2]]; auto.
  - clear. induction rp as [|x rp IH]; [discriminate|].
    cbn [Str.ends_with RegExp.replace_dot_git].
    rewrite orb_true_iff. intros [H|H].
    + apply String.eqb_eq in H. inversion H; subst. reflexivity.
    + destruct (String.eqb (String x rp) ".git") eqn:E.
      * apply String.eqb_eq in E. inversion E; subst. discriminate H.
      * cbn [Str.ends_with]. rewrite (IH H). apply orb_true_r.
Qed.

End Platform.

Import Fixtures.

Lemma repo_is_segment_without_one_dot_git_witness :
  completion (parse no_idna fetch_public "user/repo.git.git" no_options)
  = Normal (mkParsed
              (mkMetadata "user" "repo.git" None None github (Bool false))
              "https://github.com/user/repo.git"
              "https://github.com/user/repo.git.git")
  /\
  exists u segment,
    URL.basic_url_parse no_idna (expand "user/repo.git.git") = Some u /\
    nth_error (path_segments u) 0 = Some "user" /\
    nth_error (path_segments u) 1 = Some segment /\
    "repo.git" <> "" /\
    ((Str.ends_with ".git" segment = true /\ segment = "repo.git" ++ ".git") \/
     (Str.ends_with ".git" segment = false /\ segment = "repo.git")) /\
    (Str.ends_with ".git.git" segment = true ->
     Str.ends_with ".git" "repo.git" = true).
Proof.
  split; [reflexivity|].
  apply (repo_is_segment_without_one_dot_git no_idna fetch_public
           "user/repo.git.git" no_options
           (mkParsed
              (mkMetadata "user" "repo.git" None None github (Bool false))
              "https://github.com/user/repo.git"
              "https://github.com/user/repo.git.git")).
  reflexivity.
Defined.

End RepoNameSpec.

(** ** The shorthand format *)

Module FormatSpec.

Import JS GitRepoParser StrFacts ParseFacts ShorthandSpec.

Section Platform.

Variable unicode_to_ascii : string -> option string.

(** X14: on an input without [://] the format step is the pattern of line
    64 alone, and that pattern accepts exactly the inputs [owner/repo] with
    one slash: a non-empty owner of letters, digits, [_] and [-], and a
    non-empty repo of letters, digits, [_], [.] and [-].  Every other such
    input ([git@host:owner/repo], a path with two slashes, an owner with a
    dot, the empty string) is rejected by [validate], and [parse] fails on
    it with InvalidFormat, without any event. *)
Theorem shorthand_is_owner_slash_repo
  (fetch : Request -> Completion Response) (options : ParseOptions)
  (url : string) :
  Str.includes "://" url = false ->
  exists r,
    validate unicode_to_ascii url = ([], Normal r) /\
    (success r = true <->
     exists o rp,
       url = o ++ "/" ++ rp /\ o <> "" /\ rp <> "" /\
       Str.all Char.is_word_hyphen o = true /\
       Str.all Char.is_word_dot_hyphen rp = true) /\
    (success r = false ->
     parse unicode_to_ascii fetch url options = ([], Throw InvalidFormat)).
Proof.
  intros Hinc. unfold validate. rewrite gitUrlSchema_safeParse_eq.
  eexists. split; [reflexivity|].
  assert (Ha : accepts unicode_to_ascii url = RegExp.test_shorthand url)
    by (unfold accepts; rewrite Hinc; reflexivity).
  split.
  - rewrite Ha. destruct (RegExp.test_shorthand url) eqn:Hsh; cbn [success].
    + split; [intros _|reflexivity].
      destruct (test_shorthand_spec url Hsh) as (o & rp & H). exists o, rp.
      exact H.
    + split; [discriminate|].
      intros (o & rp & -> & Hno & Hnr & Ho & Hrp).
      change (o ++ "/" ++ rp) with (o ++ String "/" rp) in Hsh.
      rewrite (test_shorthand_intro o rp Hno Hnr Ho Hrp) in Hsh.
      discriminate Hsh.
  - intros Hs. apply parse_throws. unfold extract.
    destruct (accepts unicode_to_ascii url); [discriminate Hs|reflexivity].
Qed.

End Platform.

Import Fixtures.

Lemma shorthand_is_owner_slash_repo_witness :
  Str.includes "://" "git@github.com:user/repo.git" = false /\
  exists r,
    validate no_idna "git@github.com:user/repo.git" = ([], Normal r) /\
    (success r = true <->
     exists o rp,
       "git@github.com:user/repo.git" = o ++ "/" ++ rp /\ o <> "" /\
       rp <> "" /\
       Str.all Char.is_word_hyphen o = true /\
       Str.all Char.is_word_dot_hyphen rp = true) /\
    (success r = false ->
     parse no_idna fetch_public "git@github.com:user/repo.git" no_options
     = ([], Throw InvalidFormat)).
Proof.
  split; [reflexivity|].
  apply (shorthand_is_owner_slash_repo no_idna fetch_public no_options
           "git@github.com:user/repo.git").
  reflexivity.
Defined.

End FormatSpec.
